(** * Research assistant: tool handlers and the Coral connection loop

    A shallow embedding of [research_mcp_server.py] (the MCP tool
    dispatcher and its five handlers) and of [research_agent.py] (the
    agent's native tools and the connection loop of
    [create_coralized_agent]), followed by the properties established
    about them.

    Conventions of the embedding.
    - A Python [str] is a Rocq [string], one [ascii] per character: the
      text in scope is the text whose characters are code points below
      256.  The decorative marks that open some messages are kept as the
      bytes found in the source files; they stand in front of the texts
      that are sliced, never inside them.
    - A value reaching a handler through the argument mapping or through
      the JSON log file is one of the JSON scalars [None], [bool], [int],
      [str]; an object is an association list in insertion order.  Floats
      and nested containers as argument values are outside the model, and
      so is an [int] too long for the interpreter to write (more than
      4300 digits), except where a tool takes an [int] by its signature:
      there the limit is modelled.
    - An exception is a class name and the text [str(e)] gives for it.
      In the handlers and the tools only subclasses of [Exception] are
      modelled, as raised by the interpreter on a dynamic type error or
      by an external collaborator; the loop of [main], whose clauses tell
      them apart, also meets [KeyboardInterrupt] and the exceptions that
      are neither.
    - External collaborators (search provider, HTTP client and HTML
      extractor, wall clock, file-system faults, the Coral server) are
      fields of an environment record; the mutable world (the log file,
      the report files written, the number of clock readings) is threaded
      explicitly. *)

From Stdlib Require Import String Ascii List ZArith Lia Bool Arith.
From Stdlib Require Import DecimalString.
Import ListNotations.

Set Warnings "-abstract-large-number".

Open Scope list_scope.
Open Scope string_scope.

(* ================================================================== *)
(** * Part I.  The embedding                                            *)
(* ================================================================== *)

(** ** Python text operations *)

Module PyStr.

Definition newline : ascii := ascii_of_nat 10.
Definition nl : string := String newline "".

(** The characters [str.lower] changes: the letters [A] to [Z], and the
    upper-case letters of the Latin-1 range, which leaves out the
    multiplication sign at 215. *)
Definition is_upper (c : ascii) : bool :=
  let n := nat_of_ascii c in
  (((65 <=? n) && (n <=? 90)) ||
   ((192 <=? n) && (n <=? 222) && negb (n =? 215)))%nat.

Definition lower_char (c : ascii) : ascii :=
  if is_upper c then ascii_of_nat (nat_of_ascii c + 32) else c.

(** [s.lower()] *)
Fixpoint lower (s : string) : string :=
  match s with
  | "" => ""
  | String c s' => String (lower_char c) (lower s')
  end.

(** [s[:n]] for a literal [n >= 0] *)
Fixpoint take (n : nat) (s : string) : string :=
  match n, s with
  | S n', String c s' => String c (take n' s')
  | _, _ => ""
  end.

(** [needle in hay] *)
Fixpoint contains (needle hay : string) : bool :=
  prefix needle hay ||
  match hay with
  | "" => false
  | String _ hay' => contains needle hay'
  end.

(** [s.replace(c, by)] for a one-character [c] *)
Fixpoint replace_char (c : ascii) (by_ : string) (s : string) : string :=
  match s with
  | "" => ""
  | String a s' =>
      if Ascii.eqb a c then by_ ++ replace_char c by_ s'
      else String a (replace_char c by_ s')
  end.

(** [s.split(c)] for a one-character separator; [cur] is the field being
    read. *)
Fixpoint split_aux (c : ascii) (cur : string) (s : string) : list string :=
  match s with
  | "" => [cur]
  | String a s' =>
      if Ascii.eqb a c then cur :: split_aux c "" s'
      else split_aux c (cur ++ String a "") s'
  end.

Definition split (c : ascii) (s : string) : list string := split_aux c "" s.

(** The characters for which [str.isspace] holds: the ASCII controls 9 to
    13 and 28 to 32, the next-line control 133 and the no-break space
    160. *)
Definition is_space (c : ascii) : bool :=
  let n := nat_of_ascii c in
  (((9 <=? n) && (n <=? 13)) || ((28 <=? n) && (n <=? 32)) ||
   (n =? 133) || (n =? 160))%nat.

Fixpoint lstrip (s : string) : string :=
  match s with
  | "" => ""
  | String c s' => if is_space c then lstrip s' else s
  end.

(** [rstrip] keeps a character when it is not a space or when something
    survives to its right. *)
Fixpoint rstrip (s : string) : string :=
  match s with
  | "" => ""
  | String c s' =>
      match rstrip s' with
      | "" => if is_space c then "" else String c ""
      | r => String c r
      end
  end.

(** [s.strip()] *)
Definition strip (s : string) : string := rstrip (lstrip s).

(** [sep.join(l)] *)
Definition join (sep : string) (l : list string) : string := String.concat sep l.

(** [str(n)] for an [int] *)
Definition of_Z (z : Z) : string := NilZero.string_of_int (Z.to_int z).

Definition of_nat (n : nat) : string := of_Z (Z.of_nat n).

Definition is_empty (s : string) : bool :=
  match s with "" => true | _ => false end.

End PyStr.

(** ** Python values, exceptions and the result of a computation *)

Module Py.

Inductive value : Type :=
| VNone
| VBool (b : bool)
| VInt (z : Z)
| VStr (s : string).

(** A [dict] with string keys, in insertion order. *)
Definition dict := list (string * value).

Inductive exn_class : Type :=
| TypeError | AttributeError | KeyError | ImportError | ValueError
| OSError | JSONDecodeError | ExternalError.

Record exn : Type := mkExn { exn_cls : exn_class; exn_str : string }.

Inductive result (A : Type) : Type :=
| Ok (a : A)
| Raise (e : exn).
Arguments Ok {A} a.
Arguments Raise {A} e.

Definition type_name (v : value) : string :=
  match v with
  | VNone => "NoneType"
  | VBool _ => "bool"
  | VInt _ => "int"
  | VStr _ => "str"
  end.

(** Truth value, as tested by [if v:] and [not v]. *)
Definition truthy (v : value) : bool :=
  match v with
  | VNone => false
  | VBool b => b
  | VInt z => negb (z =? 0)%Z
  | VStr s => negb (PyStr.is_empty s)
  end.

(** [str(v)], which is also what an f-string field [{v}] renders. *)
Definition str (v : value) : string :=
  match v with
  | VNone => "None"
  | VBool true => "True"
  | VBool false => "False"
  | VInt z => PyStr.of_Z z
  | VStr s => s
  end.

(** [sys.get_int_max_str_digits()], as the interpreter starts: the
    longest decimal writing of an [int] it accepts to produce. *)
Definition int_max_str_digits : Z := 4300.

(** [str(n)] for an [int], with the interpreter's limit: an [int] of more
    than 4300 digits, the sign not counted, is not written. *)
Definition str_int (z : Z) : result string :=
  if (Z.abs z <? 10 ^ int_max_str_digits)%Z then Ok (PyStr.of_Z z)
  else Raise (mkExn ValueError
                ("Exceeds the limit (4300 digits) for integer string conversion; " ++
                 "use sys.set_int_max_str_digits() to increase the limit")).

(** [d.get(k, default)] *)
Fixpoint get (d : dict) (k : string) (default : value) : value :=
  match d with
  | [] => default
  | (k', v) :: d' => if String.eqb k k' then v else get d' k default
  end.

(** [k in d] *)
Fixpoint mem (d : dict) (k : string) : bool :=
  match d with
  | [] => false
  | (k', _) :: d' => String.eqb k k' || mem d' k
  end.

(** [d[k]]: [KeyError] when the key is absent; [str(e)] of a [KeyError]
    is the [repr] of the key. *)
Fixpoint getitem (d : dict) (k : string) : result value :=
  match d with
  | [] => Raise (mkExn KeyError ("'" ++ k ++ "'"))
  | (k', v) :: d' => if String.eqb k k' then Ok v else getitem d' k
  end.

(** [v[:n]] for a literal [n]; only [str] is subscriptable among the
    values of the model. *)
Definition slice_to (n : nat) (v : value) : result value :=
  match v with
  | VStr s => Ok (VStr (PyStr.take n s))
  | _ => Raise (mkExn TypeError
                  ("'" ++ type_name v ++ "' object is not subscriptable"))
  end.

(** [v.lower()] *)
Definition lower (v : value) : result string :=
  match v with
  | VStr s => Ok (PyStr.lower s)
  | _ => Raise (mkExn AttributeError
                  ("'" ++ type_name v ++ "' object has no attribute 'lower'"))
  end.

(** Unary minus: defined on [int] and on [bool] (an [int] subclass). *)
Definition neg (v : value) : result Z :=
  match v with
  | VInt z => Ok (- z)%Z
  | VBool b => Ok (if b then (-1)%Z else 0%Z)
  | _ => Raise (mkExn TypeError
                  ("bad operand type for unary -: '" ++ type_name v ++ "'"))
  end.

(** [l[start:]] for an integer [start]: a negative start counts from the
    end and is clamped at the beginning of the list. *)
Definition slice_from {A : Type} (start : Z) (l : list A) : list A :=
  let len := Z.of_nat (List.length l) in
  let i := if (start <? 0)%Z then Z.max 0 (start + len) else Z.min start len in
  skipn (Z.to_nat i) l.

End Py.

Export Py(value(..), exn_class(..), exn(..), result(..), mkExn).
Arguments Py.Ok {A} a.
Arguments Py.Raise {A} e.

(** ** The wall clock: [datetime.now()] and the three renderings in use *)

Module Datetime.

Record t : Type := mk
  { year : nat; month : nat; day : nat;
    hour : nat; minute : nat; second : nat; microsecond : nat }.

Definition digit (n : nat) : ascii := ascii_of_nat (48 + n mod 10).

(** [n] in decimal on exactly [width] digits, zero padded. *)
Fixpoint pad (width n : nat) : string :=
  match width with
  | O => ""
  | S w => pad w (n / 10) ++ String (digit n) ""
  end.

Definition date_part (d : t) : string :=
  pad 4 (year d) ++ "-" ++ pad 2 (month d) ++ "-" ++ pad 2 (day d).

(** [d.isoformat()]: the fraction is printed unless it is zero. *)
Definition isoformat (d : t) : string :=
  date_part d ++ "T" ++
  pad 2 (hour d) ++ ":" ++ pad 2 (minute d) ++ ":" ++ pad 2 (second d) ++
  (if (microsecond d =? 0)%nat then "" else "." ++ pad 6 (microsecond d)).

(** [d.strftime("%Y-%m-%d %H:%M")] *)
Definition strftime_minute (d : t) : string :=
  date_part d ++ " " ++ pad 2 (hour d) ++ ":" ++ pad 2 (minute d).

(** [d.strftime('%Y%m%d_%H%M')] *)
Definition strftime_compact (d : t) : string :=
  pad 4 (year d) ++ pad 2 (month d) ++ pad 2 (day d) ++ "_" ++
  pad 2 (hour d) ++ pad 2 (minute d).

Definition is_leap (y : nat) : bool :=
  ((y mod 4 =? 0) && (negb (y mod 100 =? 0) || (y mod 400 =? 0)))%nat.

Definition days_in_month (y m : nat) : nat :=
  match m with
  | 2 => if is_leap y then 29 else 28
  | 4 | 6 | 9 | 11 => 30
  | _ => 31
  end.

(** The values a [datetime] object can hold. *)
Definition valid (d : t) : bool :=
  ((1 <=? year d) && (year d <? 10 ^ 4) &&
   (1 <=? month d) && (month d <=? 12) &&
   (1 <=? day d) && (day d <=? days_in_month (year d) (month d)) &&
   (hour d <? 24) && (minute d <? 60) && (second d <? 60) &&
   (microsecond d <? 10 ^ 6))%nat.

(** *** Reading an ISO-8601 timestamp back *)

Definition digit_value (c : ascii) : option nat :=
  let n := nat_of_ascii c in
  if ((48 <=? n) && (n <=? 57))%nat then Some (n - 48) else None.

(** Reads exactly [width] digits in front of [s]; [acc] is the value of
    the digits read so far. *)
Fixpoint read_digits (width acc : nat) (s : string) : option (nat * string) :=
  match width with
  | O => Some (acc, s)
  | S w =>
      match s with
      | "" => None
      | String c s' =>
          match digit_value c with
          | Some v => read_digits w (10 * acc + v) s'
          | None => None
          end
      end
  end.

Definition read_char (c : ascii) (s : string) : option string :=
  match s with
  | String a s' => if Ascii.eqb a c then Some s' else None
  | "" => None
  end.

Definition read_fraction (s : string) : option nat :=
  match s with
  | "" => Some 0
  | _ =>
      match read_char "." s with
      | Some s1 =>
          match read_digits 6 0 s1 with
          | Some (us, "") => Some us
          | _ => None
          end
      | None => None
      end
  end.

(** [YYYY-MM-DDTHH:MM:SS] with an optional [.ffffff]. *)
Definition parse_iso (s : string) : option t :=
  match read_digits 4 0 s with
  | Some (y, s) => match read_char "-" s with
  | Some s => match read_digits 2 0 s with
  | Some (mo, s) => match read_char "-" s with
  | Some s => match read_digits 2 0 s with
  | Some (d, s) => match read_char "T" s with
  | Some s => match read_digits 2 0 s with
  | Some (h, s) => match read_char ":" s with
  | Some s => match read_digits 2 0 s with
  | Some (mi, s) => match read_char ":" s with
  | Some s => match read_digits 2 0 s with
  | Some (se, s) => match read_fraction s with
  | Some us => Some (mk y mo d h mi se us)
  | None => None end
  | None => None end
  | None => None end
  | None => None end
  | None => None end
  | None => None end
  | None => None end
  | None => None end
  | None => None end
  | None => None end
  | None => None end
  | None => None end.

(** A text is a valid ISO-8601 timestamp when it reads back as a
    [datetime] value. *)
Definition is_iso8601 (s : string) : bool :=
  match parse_iso s with
  | Some d => valid d
  | None => false
  end.

End Datetime.

(** ** The world the handlers run in *)

Module Rt.

(** What the log file [competitor_tracking.json] holds: a JSON array of
    objects, or a text on which [json.load] raises [e]. *)
Inductive log_content : Type :=
| Logs (logs : list Py.dict)
| Unparsable (e : exn).

(** The mutable world.  Report files are kept apart from the log file:
    every report name starts with [report_], so no report is ever
    written over the log. *)
Record world : Type := mkWorld
  { ticks : nat;                          (* clock readings made so far *)
    log_file : option log_content;        (* [None]: the file is absent *)
    reports : list (string * string) }.   (* report files, newest first *)

(** What can go wrong in [with open(name, 'w') as f: <write the text>].
    [open] empties the file before anything is written; the text then
    reaches the file piece by piece, the last of it when the file is
    closed. *)
Inductive write_fault : Type :=
| OpenFails (e : exn)
    (* [open] raises [e]: the file is left as it was *)
| WriteFails (e : exn) (written : nat) (unreadable : exn)
    (* the file has been emptied, and [e] is raised when only the first
       [written] characters of the text have reached it; [unreadable] is
       what [json.load] raises on a file cut there *)
| CloseFails (e : exn).
    (* [e] is raised when the whole text has reached the file *)

(** The external collaborators, fixed during a run. *)
Record env : Type := mkEnv
  { clock : nat -> Datetime.t;
    (* [from duckduckgo_search import DDGS] *)
    import_ddgs : option exn;
    (* [list(ddgs.text(query, max_results=num_results))] *)
    ddgs_text : value -> value -> result (list Py.dict);
    (* [import requests] and [from bs4 import BeautifulSoup] *)
    import_http : option exn;
    (* GET of the URL, status check, parsing, removal of the listed
       elements and [get_text(separator='\n', strip=True)] *)
    page_text : value -> list string -> result string;
    (* the fault of [open(name, 'r')] *)
    open_read : string -> option exn;
    (* the fault of [with open(name, 'w') as f: ...], at [open] or later *)
    open_write : string -> option write_fault }.

(** A computation: it may raise, and it leaves a world behind either
    way. *)
Definition M (A : Type) : Type := world -> result A * world.

Definition ret {A} (a : A) : M A := fun w => (Py.Ok a, w).

Definition raise {A} (e : exn) : M A := fun w => (Py.Raise e, w).

Definition bind {A B} (m : M A) (k : A -> M B) : M B :=
  fun w =>
    match m w with
    | (Py.Ok a, w') => k a w'
    | (Py.Raise e, w') => (Py.Raise e, w')
    end.

(** A pure step that may raise. *)
Definition lift {A} (r : result A) : M A := fun w => (r, w).

(** [try: body  except Exception as e: handler(e)] *)
Definition try_except {A} (body : M A) (handler : exn -> M A) : M A :=
  fun w =>
    match body w with
    | (Py.Ok a, w') => (Py.Ok a, w')
    | (Py.Raise e, w') => handler e w'
    end.

(** A step that raises the fault, if there is one. *)
Definition check (fault : option exn) : M unit :=
  match fault with
  | Some e => raise e
  | None => ret tt
  end.

(** Binding in the pure fragment. *)
Definition rbind {A B} (r : result A) (k : A -> result B) : result B :=
  match r with
  | Py.Ok a => k a
  | Py.Raise e => Py.Raise e
  end.

Fixpoint rmap {A B} (f : A -> result B) (l : list A) : result (list B) :=
  match l with
  | [] => Py.Ok []
  | a :: l' =>
      rbind (f a) (fun b => rbind (rmap f l') (fun bs => Py.Ok (b :: bs)))
  end.

Section WithEnv.
Variable E : env.

(** [datetime.now()] *)
Definition now : M Datetime.t :=
  fun w => (Py.Ok (clock E (ticks w)),
            mkWorld (S (ticks w)) (log_file w) (reports w)).

Definition log_name : string := "competitor_tracking.json".

(** [os.path.exists(log_file)] *)
Definition log_exists : M bool :=
  fun w => (Py.Ok (match log_file w with Some _ => true | None => false end), w).

(** [with open(log_file, 'r') as f: logs = json.load(f)] *)
Definition load_logs : M (list Py.dict) :=
  bind (check (open_read E log_name)) (fun _ =>
  fun w =>
    match log_file w with
    | Some (Logs logs) => (Py.Ok logs, w)
    | Some (Unparsable e) => (Py.Raise e, w)
    | None => (Py.Raise (mkExn OSError
                 ("[Errno 2] No such file or directory: '" ++ log_name ++ "'")), w)
    end).

(** [with open(log_file, 'w') as f: json.dump(logs, f, indent=2)]: the
    file is rewritten whole.  A write that is cut short leaves the
    beginning of the new text, which is not a JSON document. *)
Definition dump_logs (logs : list Py.dict) : M unit :=
  fun w =>
    match open_write E log_name with
    | None => (Py.Ok tt, mkWorld (ticks w) (Some (Logs logs)) (reports w))
    | Some (OpenFails e) => (Py.Raise e, w)
    | Some (WriteFails e _ unreadable) =>
        (Py.Raise e, mkWorld (ticks w) (Some (Unparsable unreadable)) (reports w))
    | Some (CloseFails e) =>
        (Py.Raise e, mkWorld (ticks w) (Some (Logs logs)) (reports w))
    end.

(** [with open(filename, 'w') as f: f.write(text)] *)
Definition write_report (filename text : string) : M unit :=
  fun w =>
    match open_write E filename with
    | None =>
        (Py.Ok tt, mkWorld (ticks w) (log_file w) ((filename, text) :: reports w))
    | Some (OpenFails e) => (Py.Raise e, w)
    | Some (WriteFails e written _) =>
        (Py.Raise e,
         mkWorld (ticks w) (log_file w) ((filename, PyStr.take written text) :: reports w))
    | Some (CloseFails e) =>
        (Py.Raise e, mkWorld (ticks w) (log_file w) ((filename, text) :: reports w))
    end.

End WithEnv.

End Rt.

Declare Scope py_scope.
Delimit Scope py_scope with py.
Notation "x <- m ;; k" := (Rt.bind m (fun x => k))
  (at level 61, m at next level, right associativity) : py_scope.
Notation "m ;; k" := (Rt.bind m (fun _ => k))
  (at level 61, right associativity) : py_scope.

(** ** [json.dumps] on the values of the model *)

Module Json.

Definition dquote : string := String (ascii_of_nat 34) "".
Definition backslash : string := String (ascii_of_nat 92) "".

Definition hex_digit (n : nat) : ascii :=
  if (n <? 10)%nat then ascii_of_nat (48 + n) else ascii_of_nat (87 + n).

(** The escape of one character under [ensure_ascii=True]: the short
    escapes, and a four-digit lower-case hexadecimal escape for every
    other character that is not printable ASCII. *)
Definition escape_char (c : ascii) : string :=
  let n := nat_of_ascii c in
  if (n =? 34)%nat then backslash ++ dquote
  else if (n =? 92)%nat then backslash ++ backslash
  else if (n =? 10)%nat then backslash ++ "n"
  else if (n =? 13)%nat then backslash ++ "r"
  else if (n =? 9)%nat then backslash ++ "t"
  else if (n =? 8)%nat then backslash ++ "b"
  else if (n =? 12)%nat then backslash ++ "f"
  else if ((n <? 32) || (126 <? n))%nat
       then backslash ++ "u00" ++ String (hex_digit (n / 16)) (String (hex_digit (n mod 16)) "")
  else String c "".

Fixpoint escape (s : string) : string :=
  match s with
  | "" => ""
  | String c s' => escape_char c ++ escape s'
  end.

Definition encode_string (s : string) : string := dquote ++ escape s ++ dquote.

Definition encode (v : value) : string :=
  match v with
  | VNone => "null"
  | VBool true => "true"
  | VBool false => "false"
  | VInt z => PyStr.of_Z z
  | VStr s => encode_string s
  end.

(** The members of an object under [indent=2], one per line. *)
Fixpoint members (d : Py.dict) : string :=
  match d with
  | [] => ""
  | [(k, v)] => "  " ++ encode_string k ++ ": " ++ encode v
  | (k, v) :: d' =>
      "  " ++ encode_string k ++ ": " ++ encode v ++ "," ++ PyStr.nl ++ members d'
  end.

(** [json.dumps(d, indent=2)] for a flat object. *)
Definition dumps (d : Py.dict) : string :=
  match d with
  | [] => "{}"
  | _ => "{" ++ PyStr.nl ++ members d ++ PyStr.nl ++ "}"
  end.

End Json.

(** ** [research_mcp_server.py] *)

Module Server.
Import Rt.
Local Open Scope py_scope.

(** [mcp.types.TextContent] *)
Record TextContent : Type := mkText { type_ : string; text : string }.

Definition text_content (s : string) : TextContent := mkText "text" s.

(** One property of an input schema: its type, the values it is
    restricted to when the schema lists them, and its default.  The
    description of a property is left out. *)
Record Property : Type := mkProp
  { p_name : string;
    p_type : string;
    p_enum : option (list string);
    p_default : option value }.

(** [mcp.types.Tool], with the parts of [inputSchema] that carry
    meaning: the properties and the list of required names. *)
Record Tool : Type := mkTool
  { name : string;
    description : string;
    properties : list Property;
    required : list string }.

(** [list_tools] *)
Definition list_tools : list Tool :=
  [ mkTool "web_search" "Search the web for information on any topic"
      [ mkProp "query" "string" None None;
        mkProp "num_results" "integer" None (Some (VInt 5)) ]
      [ "query" ];
    mkTool "fetch_url" "Fetch and extract content from a URL"
      [ mkProp "url" "string" None None ]
      [ "url" ];
    mkTool "track_competitor" "Log a competitor activity for tracking"
      [ mkProp "competitor_name" "string" None None;
        mkProp "activity" "string" None None;
        mkProp "source" "string" None (Some (VStr "")) ]
      [ "competitor_name"; "activity" ];
    mkTool "generate_report" "Generate a structured research report"
      [ mkProp "topic" "string" None None;
        mkProp "findings" "string" None None;
        mkProp "format_type" "string" (Some ["markdown"; "json"; "text"])
               (Some (VStr "markdown")) ]
      [ "topic"; "findings" ];
    mkTool "get_competitor_logs" "Get logged competitor activities"
      [ mkProp "competitor" "string" None (Some (VStr ""));
        mkProp "limit" "integer" None (Some (VInt 50)) ]
      [] ].

(** [v == "literal"] *)
Definition eq_str (v : value) (s : string) : bool :=
  match v with
  | VStr s' => String.eqb s' s
  | _ => false
  end.

(** The mark that opens the confirmation message, as the bytes of the
    source file. *)
Definition ok_mark : string := "âœ“".

Section Handlers.
Variable E : env.

(** One search result, numbered [i]:
    [f"{i}. **{r['title']}**\n   URL: {r['href']}\n   {r['body'][:300]}..."] *)
Definition format_result (i : nat) (r : Py.dict) : result string :=
  rbind (Py.getitem r "title") (fun title =>
  rbind (Py.getitem r "href") (fun href =>
  rbind (Py.getitem r "body") (fun body =>
  rbind (Py.slice_to 300 body) (fun snippet =>
  Py.Ok (PyStr.of_nat i ++ ". **" ++ Py.str title ++ "**" ++ PyStr.nl ++
         "   URL: " ++ Py.str href ++ PyStr.nl ++
         "   " ++ Py.str snippet ++ "..."))))).

(** The loop over [enumerate(results, i)]. *)
Fixpoint format_results (i : nat) (results : list Py.dict) : result (list string) :=
  match results with
  | [] => Py.Ok []
  | r :: rest =>
      rbind (format_result i r) (fun s =>
      rbind (format_results (S i) rest) (fun ss => Py.Ok (s :: ss)))
  end.

Definition handle_web_search (arguments : Py.dict) : M (list TextContent) :=
  try_except
    (check (import_ddgs E) ;;
     let query := Py.get arguments "query" (VStr "") in
     let num_results := Py.get arguments "num_results" (VInt 5) in
     results <- lift (ddgs_text E query num_results) ;;
     match results with
     | [] => ret [text_content "No results found."]
     | _ =>
         formatted <- lift (format_results 1 results) ;;
         ret [text_content (PyStr.join (PyStr.nl ++ PyStr.nl) formatted)]
     end)
    (fun e => ret [text_content ("Search error: " ++ Py.exn_str e)]).

(** [[l.strip() for l in text.split('\n') if l.strip()]] *)
Definition content_lines (text : string) : list string :=
  map PyStr.strip
    (filter (fun l => negb (PyStr.is_empty (PyStr.strip l)))
            (PyStr.split PyStr.newline text)).

Definition handle_fetch_url (arguments : Py.dict) : M (list TextContent) :=
  try_except
    (check (import_http E) ;;
     let url := Py.get arguments "url" (VStr "") in
     text <- lift (page_text E url ["script"; "style"; "nav"; "footer"; "header"]) ;;
     let lines := content_lines text in
     let content := PyStr.join PyStr.nl (firstn 150 lines) in
     ret [text_content ("Content from " ++ Py.str url ++ ":" ++ PyStr.nl ++ PyStr.nl ++
                        PyStr.take 8000 content)])
    (fun e => ret [text_content ("Error: " ++ Py.exn_str e)]).

Definition handle_track_competitor (arguments : Py.dict) : M (list TextContent) :=
  try_except
    (let competitor := Py.get arguments "competitor_name" (VStr "") in
     let activity := Py.get arguments "activity" (VStr "") in
     let source := Py.get arguments "source" (VStr "") in
     t <- now E ;;
     let log_entry : Py.dict :=
       [ ("timestamp", VStr (Datetime.isoformat t));
         ("competitor", competitor);
         ("activity", activity);
         ("source", source) ] in
     present <- log_exists ;;
     logs <- (if present then load_logs E else ret []) ;;
     let logs := (logs ++ [log_entry])%list in
     dump_logs E logs ;;
     shown <- lift (Py.slice_to 60 activity) ;;
     ret [text_content (ok_mark ++ " Logged activity for " ++ Py.str competitor ++
                        ": " ++ Py.str shown ++ "...")])
    (fun e => ret [text_content ("Error: " ++ Py.exn_str e)]).

Definition markdown_report (topic timestamp findings : string) : string :=
  "# Research Report: " ++ topic ++ PyStr.nl ++
  PyStr.nl ++
  "**Generated:** " ++ timestamp ++ "  " ++ PyStr.nl ++
  "**Agent:** Research Assistant (Coral Protocol)" ++ PyStr.nl ++
  PyStr.nl ++
  "---" ++ PyStr.nl ++
  PyStr.nl ++
  "## Findings" ++ PyStr.nl ++
  PyStr.nl ++
  findings ++ PyStr.nl ++
  PyStr.nl ++
  "---" ++ PyStr.nl ++
  PyStr.nl ++
  "*Report generated by Coral Protocol Research Agent*" ++ PyStr.nl.

Definition handle_generate_report (arguments : Py.dict) : M (list TextContent) :=
  try_except
    (let topic := Py.get arguments "topic" (VStr "") in
     let findings := Py.get arguments "findings" (VStr "") in
     let format_type := Py.get arguments "format_type" (VStr "markdown") in
     t <- now E ;;
     let timestamp := Datetime.strftime_minute t in
     let report :=
       if eq_str format_type "markdown" then
         markdown_report (Py.str topic) timestamp (Py.str findings)
       else if eq_str format_type "json" then
         Json.dumps [ ("topic", topic);
                      ("timestamp", VStr timestamp);
                      ("findings", findings) ]
       else
         "RESEARCH REPORT: " ++ Py.str topic ++ PyStr.nl ++
         "Generated: " ++ timestamp ++ PyStr.nl ++ PyStr.nl ++ Py.str findings in
     ret [text_content report])
    (fun e => ret [text_content ("Error: " ++ Py.exn_str e)]).

(** The test of the comprehension:
    [competitor_filter.lower() in l.get("competitor", "").lower()] *)
Definition matches (competitor_filter : value) (l : Py.dict) : result bool :=
  rbind (Py.lower competitor_filter) (fun needle =>
  rbind (Py.lower (Py.get l "competitor" (VStr ""))) (fun hay =>
  Py.Ok (PyStr.contains needle hay))).

(** [[l for l in logs if matches]] *)
Fixpoint filter_logs (competitor_filter : value) (logs : list Py.dict)
  : result (list Py.dict) :=
  match logs with
  | [] => Py.Ok []
  | l :: rest =>
      rbind (matches competitor_filter l) (fun keep =>
      rbind (filter_logs competitor_filter rest) (fun kept =>
      Py.Ok (if keep then l :: kept else kept)))
  end.

(** [logs[-limit:]] *)
Definition most_recent (limit : value) (logs : list Py.dict) : result (list Py.dict) :=
  rbind (Py.neg limit) (fun start => Py.Ok (Py.slice_from start logs)).

(** [f"[{log['timestamp'][:10]}] {log['competitor']}: {log['activity'][:80]}..."] *)
Definition format_log (log : Py.dict) : result string :=
  rbind (Py.getitem log "timestamp") (fun ts =>
  rbind (Py.slice_to 10 ts) (fun date =>
  rbind (Py.getitem log "competitor") (fun competitor =>
  rbind (Py.getitem log "activity") (fun activity =>
  rbind (Py.slice_to 80 activity) (fun shown =>
  Py.Ok ("[" ++ Py.str date ++ "] " ++ Py.str competitor ++ ": " ++
         Py.str shown ++ "...")))))).

(** The entries a query selects: the optional filter, then the slice. *)
Definition select_logs (competitor_filter limit : value) (logs : list Py.dict)
  : result (list Py.dict) :=
  rbind (if Py.truthy competitor_filter
         then filter_logs competitor_filter logs
         else Py.Ok logs) (fun logs =>
  most_recent limit logs).

Definition handle_get_logs (arguments : Py.dict) : M (list TextContent) :=
  try_except
    (let competitor_filter := Py.get arguments "competitor" (VStr "") in
     let limit := Py.get arguments "limit" (VInt 50) in
     present <- log_exists ;;
     if negb present then ret [text_content "No logs found."]
     else
       logs <- load_logs E ;;
       logs <- lift (select_logs competitor_filter limit logs) ;;
       match logs with
       | [] => ret [text_content "No matching logs found."]
       | _ =>
           formatted <- lift (rmap format_log logs) ;;
           ret [text_content (PyStr.join PyStr.nl formatted)]
       end)
    (fun e => ret [text_content ("Error: " ++ Py.exn_str e)]).

(** [call_tool], the function as it is written.  What a client reaches is
    the handler its decorator registers around it, [call_tool_handler]
    below. *)
Definition call_tool (name : string) (arguments : Py.dict) : M (list TextContent) :=
  if String.eqb name "web_search" then handle_web_search arguments
  else if String.eqb name "fetch_url" then handle_fetch_url arguments
  else if String.eqb name "track_competitor" then handle_track_competitor arguments
  else if String.eqb name "generate_report" then handle_generate_report arguments
  else if String.eqb name "get_competitor_logs" then handle_get_logs arguments
  else ret [text_content ("Unknown tool: " ++ name)].

End Handlers.

(** *** The request handler that [@app.call_tool()] registers

    A client does not call [call_tool] itself.  The decorator of the
    function registers, for the [tools/call] request, a handler of the
    [mcp] package that wraps it, and leaves the function as it is.  The
    decorator is applied without argument, so its [validate_input] is
    [True]: the handler looks the tool up in what [list_tools] returns,
    checks the arguments against its [inputSchema] with [jsonschema], and
    calls [call_tool] only when they conform; whatever is raised on the
    way becomes an error result.  The package is not part of the
    repository: the handler is written after what the package does. *)

(** [mcp.types.CallToolResult] *)
Record CallToolResult : Type := mkResult
  { content : list TextContent; isError : bool }.

(** A way in which an argument mapping breaks an input schema. *)
Inductive violation : Type :=
| NotOfType (key : string) (v : value) (type : string)
| NotOneOf (key : string) (v : value) (allowed : list string)
| MissingRequired (key : string).

(** The JSON type names a value answers to; a [bool] is not an
    [integer]. *)
Definition is_of_type (type : string) (v : value) : bool :=
  match v with
  | VNone => String.eqb type "null"
  | VBool _ => String.eqb type "boolean"
  | VInt _ => String.eqb type "integer" || String.eqb type "number"
  | VStr _ => String.eqb type "string"
  end.

Definition is_one_of (allowed : list string) (v : value) : bool :=
  match v with
  | VStr s => existsb (String.eqb s) allowed
  | _ => false
  end.

(** The keywords of one property, in the order the schema writes them:
    [type], then [enum].  A key that is absent breaks neither. *)
Definition property_violations (arguments : Py.dict) (p : Property) : list violation :=
  if Py.mem arguments (p_name p) then
    let v := Py.get arguments (p_name p) VNone in
    ((if is_of_type (p_type p) v then [] else [NotOfType (p_name p) v (p_type p)]) ++
     match p_enum p with
     | Some allowed => if is_one_of allowed v then [] else [NotOneOf (p_name p) v allowed]
     | None => []
     end)%list
  else [].

(** The keyword [required]: one violation for each name that is absent. *)
Definition missing (arguments : Py.dict) (required : list string) : list violation :=
  map MissingRequired (filter (fun k => negb (Py.mem arguments k)) required).

(** Everything [jsonschema] finds wrong: the keyword [properties] comes
    before [required] in each schema. *)
Definition violations (t : Tool) (arguments : Py.dict) : list violation :=
  (flat_map (property_violations arguments) (properties t) ++
   missing arguments (required t))%list.

(** [self._make_error_result(error_message)] *)
Definition make_error_result (error_message : string) : CallToolResult :=
  mkResult [text_content error_message] true.

Section Registered.
Variable E : env.

(** The sentence [jsonschema] writes for the one violation it reports
    among those found.  Which one it picks and how it writes the value
    are the package's: they are a parameter here.  Writing the value can
    itself raise. *)
Variable message : list violation -> result string.

(** [results = await func(tool_name, arguments)], wrapped as a result
    that is not an error. *)
Definition run_tool (tool_name : string) (arguments : Py.dict) : M CallToolResult :=
  results <- call_tool E tool_name arguments ;;
  ret (mkResult results false).

(** The handler registered for [tools/call]. *)
Definition call_tool_handler (tool_name : string) (arguments : Py.dict)
  : M CallToolResult :=
  try_except
    (match find (fun t => String.eqb (name t) tool_name) list_tools with
     | Some tool =>
         match violations tool arguments with
         | [] => run_tool tool_name arguments
         | found =>
             sentence <- lift (message found) ;;
             ret (make_error_result ("Input validation error: " ++ sentence))
         end
     | None => run_tool tool_name arguments
     end)
    (fun e => ret (make_error_result (Py.exn_str e))).

End Registered.

End Server.

(** ** [research_agent.py]: the native tools *)

Module Agent.
Import Rt.
Local Open Scope py_scope.

(** The marks that open some messages, as the bytes of the source
    file. *)
Definition ok_mark : string := "‚úì".
Definition warn_mark : string := "‚ö†".
Definition plug_mark : string := "üîå".

(** The tools are declared with typed parameters ([str], [int]); the
    tool decorator validates the argument mapping against them before
    the body runs, so each body is modelled on typed arguments. *)

Section Tools.
Variable E : env.

(** [f"{i}. {r['title']}\n   {r['href']}\n   {r['body'][:200]}..."] *)
Definition format_result (i : nat) (r : Py.dict) : result string :=
  rbind (Py.getitem r "title") (fun title =>
  rbind (Py.getitem r "href") (fun href =>
  rbind (Py.getitem r "body") (fun body =>
  rbind (Py.slice_to 200 body) (fun snippet =>
  Py.Ok (PyStr.of_nat i ++ ". " ++ Py.str title ++ PyStr.nl ++
         "   " ++ Py.str href ++ PyStr.nl ++
         "   " ++ Py.str snippet ++ "..."))))).

Fixpoint format_results (i : nat) (results : list Py.dict) : result (list string) :=
  match results with
  | [] => Py.Ok []
  | r :: rest =>
      rbind (format_result i r) (fun s =>
      rbind (format_results (S i) rest) (fun ss => Py.Ok (s :: ss)))
  end.

Definition is_import_error (e : exn) : bool :=
  match Py.exn_cls e with ImportError => true | _ => false end.

Definition web_search (query : string) (num_results : Z) : M string :=
  try_except
    (check (import_ddgs E) ;;
     results <- lift (ddgs_text E (VStr query) (VInt num_results)) ;;
     match results with
     | [] => ret "No results found for the query."
     | _ =>
         formatted <- lift (format_results 1 results) ;;
         ret (PyStr.join (PyStr.nl ++ PyStr.nl) formatted)
     end)
    (fun e =>
       if is_import_error e
       then ret "Error: duckduckgo-search not installed. Run: pip install duckduckgo-search"
       else ret ("Search error: " ++ Py.exn_str e)).

Definition fetch_url (url : string) : M string :=
  try_except
    (check (import_http E) ;;
     text <- lift (page_text E (VStr url) ["script"; "style"; "nav"; "footer"]) ;;
     let lines := Server.content_lines text in
     let text := PyStr.join PyStr.nl (firstn 100 lines) in
     ret ("Content from " ++ url ++ ":" ++ PyStr.nl ++ PyStr.nl ++ PyStr.take 5000 text))
    (fun e => ret ("Error fetching URL: " ++ Py.exn_str e)).

Definition track_competitor (competitor_name activity source : string) : M string :=
  t <- now E ;;
  let log_entry : Py.dict :=
    [ ("timestamp", VStr (Datetime.isoformat t));
      ("competitor", VStr competitor_name);
      ("activity", VStr activity);
      ("source", VStr source) ] in
  try_except
    (present <- log_exists ;;
     logs <- (if present then load_logs E else ret []) ;;
     let logs := (logs ++ [log_entry])%list in
     dump_logs E logs ;;
     ret (ok_mark ++ " Logged activity for " ++ competitor_name ++ ": " ++
          PyStr.take 50 activity ++ "..."))
    (fun e => ret ("Error logging activity: " ++ Py.exn_str e)).

Definition markdown_report (topic timestamp findings : string) : string :=
  "# Research Report: " ++ topic ++ PyStr.nl ++
  PyStr.nl ++
  "**Generated:** " ++ timestamp ++ "  " ++ PyStr.nl ++
  "**Agent:** Research Assistant (Coral Protocol)" ++ PyStr.nl ++
  PyStr.nl ++
  "---" ++ PyStr.nl ++
  PyStr.nl ++
  "## Summary" ++ PyStr.nl ++
  PyStr.nl ++
  PyStr.take 500 findings ++ PyStr.nl ++
  PyStr.nl ++
  "## Detailed Findings" ++ PyStr.nl ++
  PyStr.nl ++
  findings ++ PyStr.nl ++
  PyStr.nl ++
  "---" ++ PyStr.nl ++
  PyStr.nl ++
  "*Report generated by Coral Protocol Research Agent*" ++ PyStr.nl.

Definition text_report (topic timestamp findings : string) : string :=
  "RESEARCH REPORT: " ++ topic ++ PyStr.nl ++
  "Generated: " ++ timestamp ++ PyStr.nl ++
  PyStr.nl ++
  findings ++ PyStr.nl.

(** The body of the report, by format. *)
Definition render_report (topic findings format_type timestamp : string) : string :=
  if String.eqb format_type "markdown" then markdown_report topic timestamp findings
  else if String.eqb format_type "json" then
    Json.dumps [ ("topic", VStr topic);
                 ("timestamp", VStr timestamp);
                 ("summary", VStr (PyStr.take 500 findings));
                 ("findings", VStr findings) ]
  else text_report topic timestamp findings.

(** [format_type if format_type != 'markdown' else 'md'] *)
Definition extension (format_type : string) : string :=
  if negb (String.eqb format_type "markdown") then format_type else "md".

(** [topic.replace(' ', '_').lower()] *)
Definition slug (topic : string) : string :=
  PyStr.lower (PyStr.replace_char " " "_" topic).

(** [f"report_{slug}_{stamp}.{extension}"] *)
Definition report_filename (topic format_type : string) (t : Datetime.t) : string :=
  "report_" ++ slug topic ++ "_" ++ Datetime.strftime_compact t ++ "." ++
  extension format_type.

Definition generate_report (topic findings format_type : string) : M string :=
  t <- now E ;;
  let timestamp := Datetime.strftime_minute t in
  let report := render_report topic findings format_type timestamp in
  t' <- now E ;;
  let filename := report_filename topic format_type t' in
  try_except
    (write_report E filename report ;;
     ret ("Report saved to " ++ filename ++ PyStr.nl ++ PyStr.nl ++
          PyStr.take 1000 report ++ "..."))
    (fun e => ret ("Error saving report: " ++ Py.exn_str e ++ PyStr.nl ++ PyStr.nl ++
                   PyStr.take 1000 report ++ "...")).

(** The body is one f-string; the field [{max_length}] is the only step
    that can raise. *)
Definition summarize_paper (paper_text : string) (max_length : Z) : result string :=
  rbind (Py.str_int max_length) (fun shown =>
  Py.Ok ("Paper Summary (max " ++ shown ++ " words):" ++ PyStr.nl ++
         PyStr.nl ++
         "Key Points:" ++ PyStr.nl ++
         "- " ++ PyStr.take 200 paper_text ++ "..." ++ PyStr.nl ++
         PyStr.nl ++
         "[Full summarization would be performed by the LLM using this tool]" ++
         PyStr.nl)).

End Tools.

End Agent.

(** ** [research_agent.py]: the Coral integration *)

Module Coral.

(** What the agent keeps of a tool: its name and its description. *)
Record Tool : Type := mkTool { tool_name : string; tool_description : string }.

(** The outcome of one pass through the [try] body of the loop. *)
Inductive attempt : Type :=
| ClientFails (e : exn)              (* [MultiServerMCPClient(...)] raises *)
| CatalogFails (e : exn)             (* [await coral_client.get_tools()] raises *)
| Catalog (coral_tools : list Tool). (* the tools are loaded *)

(** The process environment and the Coral server. *)
Record env : Type := mkEnv
  { CORAL_SSE_URL : option string;
    CORAL_AGENT_ID : option string;
    CORAL_AGENT_DESCRIPTION : option string;
    (* the outcome of the attempt numbered [attempt] on the given URL *)
    server : nat -> string -> attempt }.

(** What the process does that can be observed from outside. *)
Inductive event : Type :=
| Print (msg : string)
| Connect (url : string)       (* one pass through the [try] body *)
| Sleep (seconds : nat).       (* [await asyncio.sleep(seconds)] *)

(** A client object, identified by the URL it was built for. *)
Record client : Type := mkClient { client_url : string }.

(** The local variables of [create_coralized_agent] that the loop
    updates, with the events so far. *)
Record locals : Type := mkLocals
  { all_tools : list Tool;
    coral_client : option client;
    trace : list event }.

(** [os.getenv(name, default)] *)
Definition getenv_default (v : option string) (default : string) : string :=
  match v with Some s => s | None => default end.

(** The names of the native tools, with the summary line of each
    docstring for a description. *)
Definition native_tools : list Tool :=
  [ mkTool "web_search" "Search the web for information on a given topic.";
    mkTool "fetch_url" "Fetch and extract content from a URL.";
    mkTool "track_competitor" "Track a competitor activity and log it to the database.";
    mkTool "generate_report" "Generate a structured research report.";
    mkTool "summarize_paper" "Summarize a technical paper or long document." ].

Definition max_retries : nat := 5.
Definition retry_delay : nat := 5.

(** [get_tools_description] *)
Definition get_tools_description (tools : list Tool) : string :=
  PyStr.join PyStr.nl
    (map (fun tool => "- " ++ tool_name tool ++ ": " ++ tool_description tool) tools).

Section WithEnv.
Variable E : env.

(** The URL with its query parameters, built when a URL is set. *)
Definition build_url (coral_url : string) : string :=
  let agent_id := getenv_default (CORAL_AGENT_ID E) "research_assistant" in
  let agent_description :=
    getenv_default (CORAL_AGENT_DESCRIPTION E) "Research assistant agent" in
  let separator := if PyStr.contains "?" coral_url then "&" else "?" in
  coral_url ++ separator ++ "agentId=" ++ agent_id ++ "&agentDescription=" ++
  PyStr.replace_char " " "%20" agent_description.

Definition emit (ev : event) (st : locals) : locals :=
  mkLocals (all_tools st) (coral_client st) (trace st ++ [ev])%list.

(** The [except] branch of the loop body. *)
Definition on_failure (attempt : nat) (e : exn) (st : locals) : locals :=
  let st := emit (Print (Agent.warn_mark ++ " Connection attempt " ++
                         PyStr.of_nat (attempt + 1) ++ "/" ++
                         PyStr.of_nat max_retries ++ " failed: " ++
                         Py.exn_str e)) st in
  if (attempt <? max_retries - 1)%nat
  then emit (Sleep retry_delay) st
  else emit (Print (Agent.warn_mark ++
                    " Could not connect to Coral Server. Running with native tools only."))
            st.

(** [for attempt in range(max_retries): try ... break  except ...],
    over the attempt numbers still to run. *)
Fixpoint connect_loop (coral_url : string) (range : list nat) (st : locals) : locals :=
  match range with
  | [] => st
  | attempt :: rest =>
      let st := emit (Connect coral_url) st in
      match server E attempt coral_url with
      | ClientFails e =>
          connect_loop coral_url rest (on_failure attempt e st)
      | CatalogFails e =>
          let st := mkLocals (all_tools st) (Some (mkClient coral_url)) (trace st) in
          connect_loop coral_url rest (on_failure attempt e st)
      | Catalog coral_tools =>
          let st := mkLocals (all_tools st ++ coral_tools)%list
                             (Some (mkClient coral_url)) (trace st) in
          emit (Print (Agent.ok_mark ++ " Connected to Coral Server with " ++
                       PyStr.of_nat (List.length coral_tools) ++ " Coral tools")) st
      end
  end.

(** [create_coralized_agent], up to the tool set it hands to the
    executor: the configuration, the optional connection, and the
    tool description put in the prompt.  The construction of the
    model, of the prompt and of the executor are library calls on
    these values. *)
Definition create_coralized_agent : locals * string :=
  let st := mkLocals native_tools None [] in
  let st :=
    match CORAL_SSE_URL E with
    | Some url =>
        if PyStr.is_empty url
        then emit (Print (Agent.warn_mark ++
                          " No CORAL_SSE_URL set. Running in standalone mode.")) st
        else
          let coral_url := build_url url in
          let st := emit (Print (Agent.plug_mark ++ " Connecting to Coral Server at " ++
                                 PyStr.take 50 coral_url ++ "...")) st in
          connect_loop coral_url (seq 0 max_retries) st
    | None =>
        emit (Print (Agent.warn_mark ++
                     " No CORAL_SSE_URL set. Running in standalone mode.")) st
    end in
  (st, get_tools_description (all_tools st)).

End WithEnv.

End Coral.

(** ** Sample collaborators, used to run the embedding on concrete inputs *)

Module Sample.

(** 2026-11-03 09:05:00.000012, and one minute later per reading, within
    the hour. *)
Definition clock (n : nat) : Datetime.t := Datetime.mk 2026 11 3 9 ((5 + n) mod 60) 0 12.

(** Nothing installed is missing, no file operation fails, the search
    finds nothing and the page is empty. *)
Definition quiet : Rt.env :=
  Rt.mkEnv clock None (fun _ _ => Py.Ok []) None (fun _ _ => Py.Ok "")
           (fun _ => None) (fun _ => None).

(** No log file, no report, no clock reading yet. *)
Definition fresh : Rt.world := Rt.mkWorld 0 None [].

(** A Coral server that refuses every attempt. *)
Definition refusing : Coral.env :=
  Coral.mkEnv (Some "http://localhost:5555/sse") None None
              (fun _ _ => Coral.ClientFails (mkExn ExternalError "connection refused")).

(** A Coral server whose catalog holds a tool named like a native one. *)
Definition clashing : Coral.env :=
  Coral.mkEnv (Some "http://localhost:5555/sse") None None
              (fun _ _ => Coral.Catalog [Coral.mkTool "web_search" "remote search";
                                         Coral.mkTool "list_agents" "List all connected agents"]).

(** No URL in the environment. *)
Definition standalone : Coral.env :=
  Coral.mkEnv None None None (fun _ _ => Coral.Catalog []).

(** A log of two entries, as two calls of [track_competitor] leave it. *)
Definition two_logs : list Py.dict :=
  [ [ ("timestamp", VStr "2026-11-03T09:05:00.000012");
      ("competitor", VStr "Google A2A");
      ("activity", VStr "Released a new protocol draft");
      ("source", VStr "https://example.com/a2a") ];
    [ ("timestamp", VStr "2026-11-03T09:06:00.000012");
      ("competitor", VStr "AGNTCY");
      ("activity", VStr "Opened a registry");
      ("source", VStr "https://example.com/agntcy") ] ].

Definition logged : Rt.world := Rt.mkWorld 2 (Some (Rt.Logs two_logs)) [].

End Sample.

(** ** Vocabulary of the statements *)

Module Vocab.
Import Rt.

(** [m] raises nothing, and what it returns satisfies [P]. *)
Definition never_raises {A} (P : A -> Prop) (m : M A) : Prop :=
  forall w, exists a w', m w = (Py.Ok a, w') /\ P a.

(** Whatever [m] returns satisfies [P]; it may raise. *)
Definition on_success {A} (P : A -> Prop) (m : M A) : Prop :=
  forall w, match fst (m w) with Py.Ok a => P a | Py.Raise _ => True end.

(** A result made of one text. *)
Definition single_text (r : list Server.TextContent) : Prop :=
  exists text, r = [Server.text_content text].


(** A result that reports a failure: one text, opened by one of the
    prefixes the handlers give to their failure messages. *)
Definition reports_failure (r : list Server.TextContent) : bool :=
  match r with
  | [t] =>
      prefix "Error: " (Server.text t) ||
      prefix "Search error: " (Server.text t) ||
      prefix "Unknown tool: " (Server.text t)
  | _ => false
  end.

(** The names a tool declares required. *)
Definition required_of (tool_name : string) : list string :=
  flat_map (fun t => if String.eqb (Server.name t) tool_name
                     then Server.required t else [])
           Server.list_tools.

(** The names of a tool list, in order. *)
Definition names (tools : list Coral.Tool) : list string := map Coral.tool_name tools.

(** An attempt that does not load the catalog. *)
Definition refused (a : Coral.attempt) : bool :=
  match a with
  | Coral.Catalog _ => false
  | _ => true
  end.

(** The message printed after the catalog is loaded. *)
Definition connected_with (n : nat) : Coral.event :=
  Coral.Print (Agent.ok_mark ++ " Connected to Coral Server with " ++
               PyStr.of_nat n ++ " Coral tools").

(** The message printed when no URL is set. *)
Definition standalone_notice : Coral.event :=
  Coral.Print (Agent.warn_mark ++ " No CORAL_SSE_URL set. Running in standalone mode.").

(** The message printed after the last failed attempt. *)
Definition give_up_notice : Coral.event :=
  Coral.Print (Agent.warn_mark ++
               " Could not connect to Coral Server. Running with native tools only.").

(** The message printed after the failed attempt numbered [attempt]. *)
Definition failed_notice (attempt : nat) (e : exn) : Coral.event :=
  Coral.Print (Agent.warn_mark ++ " Connection attempt " ++
               PyStr.of_nat (attempt + 1) ++ "/" ++
               PyStr.of_nat Coral.max_retries ++ " failed: " ++ Py.exn_str e).

(** The text before the first line break, and the text after it. *)
Fixpoint first_line (s : string) : string :=
  match s with
  | "" => ""
  | String c s' => if Ascii.eqb c PyStr.newline then "" else String c (first_line s')
  end.

Fixpoint after_first_line (s : string) : string :=
  match s with
  | "" => ""
  | String c s' => if Ascii.eqb c PyStr.newline then s' else after_first_line s'
  end.

Fixpoint no_newline (s : string) : bool :=
  match s with
  | "" => true
  | String c s' => negb (Ascii.eqb c PyStr.newline) && no_newline s'
  end.

(** What [summarize_paper] prints under its header line. *)
Definition summary_body (included : string) : string :=
  PyStr.nl ++ "Key Points:" ++ PyStr.nl ++ "- " ++ included ++ "..." ++ PyStr.nl ++
  PyStr.nl ++ "[Full summarization would be performed by the LLM using this tool]" ++
  PyStr.nl.

(** The character a character of the topic becomes in the slug. *)
Definition slug_char (c : ascii) : ascii :=
  PyStr.lower_char (if Ascii.eqb c " " then "_"%char else c).

Fixpoint map_chars (f : ascii -> ascii) (s : string) : string :=
  match s with
  | "" => ""
  | String c s' => String (f c) (map_chars f s')
  end.

(** The text held by the field [k] of a log entry. *)
Definition field (l : Py.dict) (k : string) : string :=
  match Py.get l k (VStr "") with
  | VStr s => s
  | _ => ""
  end.

(** An entry whose timestamp, competitor and activity are present and are
    texts, as [track_competitor] writes them from text arguments. *)
Definition text_fields (l : Py.dict) : bool :=
  match Py.getitem l "timestamp", Py.getitem l "competitor", Py.getitem l "activity" with
  | Py.Ok (VStr _), Py.Ok (VStr _), Py.Ok (VStr _) => true
  | _, _, _ => false
  end.

(** The line a query shows for an entry. *)
Definition line_of (l : Py.dict) : string :=
  "[" ++ PyStr.take 10 (field l "timestamp") ++ "] " ++ field l "competitor" ++ ": " ++
  PyStr.take 80 (field l "activity") ++ "...".

(** The text a query returns for the entries it selected. *)
Definition shown (selected : list Py.dict) : string :=
  match selected with
  | [] => "No matching logs found."
  | _ => PyStr.join PyStr.nl (map line_of selected)
  end.

(** Containment without regard to case. *)
Definition contains_ci (needle hay : string) : bool :=
  PyStr.contains (PyStr.lower needle) (PyStr.lower hay).

(** The last [n] elements of a list, in order. *)
Definition last_n {A : Type} (n : nat) (l : list A) : list A :=
  skipn (List.length l - n) l.

(** One logging request: the three texts, and the way it comes in, through
    the server's dispatcher or through the agent's native tool. *)
Inductive path : Type := ViaServer | ViaAgent.

Record request : Type := mkRequest
  { via : path; req_competitor : string; req_activity : string; req_source : string }.

(** The world after a request. *)
Definition log_activity (E : env) (r : request) (w : world) : world :=
  match via r with
  | ViaServer =>
      snd (Server.call_tool E "track_competitor"
             [ ("competitor_name", VStr (req_competitor r));
               ("activity", VStr (req_activity r));
               ("source", VStr (req_source r)) ] w)
  | ViaAgent =>
      snd (Agent.track_competitor E (req_competitor r) (req_activity r) (req_source r) w)
  end.

(** The world after a sequence of requests, one after the other. *)
Fixpoint log_all (E : env) (rs : list request) (w : world) : world :=
  match rs with
  | [] => w
  | r :: rs' => log_all E rs' (log_activity E r w)
  end.

(** The entry a request leaves when the clock was read [n] times before
    it. *)
Definition entry_of (E : env) (n : nat) (r : request) : Py.dict :=
  [ ("timestamp", VStr (Datetime.isoformat (clock E n)));
    ("competitor", VStr (req_competitor r));
    ("activity", VStr (req_activity r));
    ("source", VStr (req_source r)) ].

Fixpoint entries_from (E : env) (n : nat) (rs : list request) : list Py.dict :=
  match rs with
  | [] => []
  | r :: rs' => entry_of E n r :: entries_from E (S n) rs'
  end.

(** The entries of a log file that holds an array, none for an absent
    file. *)
Definition stored (w : world) : option (list Py.dict) :=
  match log_file w with
  | None => Some []
  | Some (Logs logs) => Some logs
  | Some (Unparsable _) => None
  end.

(** Modelled from the spec: the connection states of the design, which
    the program does not declare.  The program keeps no state variable;
    the state a run ends in is read off what the run did: no attempt for
    a process without a URL, the success message after an attempt that
    loaded the catalog, the give-up message after the last failed
    attempt. *)
Inductive ConnectionState : Type :=
| Disconnected | Connecting | Connected | Degraded.

(** The kinds of events that tell the state. *)
Definition is_connect (ev : Coral.event) : bool :=
  match ev with Coral.Connect _ => true | _ => false end.

Definition is_sleep (ev : Coral.event) : bool :=
  match ev with Coral.Sleep _ => true | _ => false end.

Definition gave_up (ev : Coral.event) : bool :=
  match ev with
  | Coral.Print msg =>
      String.eqb msg (Agent.warn_mark ++
                      " Could not connect to Coral Server. Running with native tools only.")
  | _ => false
  end.

Definition connected_msg (ev : Coral.event) : bool :=
  match ev with
  | Coral.Print msg => prefix (Agent.ok_mark ++ " Connected to Coral Server with ") msg
  | _ => false
  end.

(** Modelled from the spec: the state a run ends in. *)
Definition final_state (st : Coral.locals) : ConnectionState :=
  if negb (existsb is_connect (Coral.trace st)) then Disconnected
  else if existsb connected_msg (Coral.trace st) then Connected
  else if existsb gave_up (Coral.trace st) then Degraded
  else Connecting.

(** The attempts and the waits of a run, in order. *)
Definition schedule (st : Coral.locals) : list Coral.event :=
  filter (fun ev => is_connect ev || is_sleep ev) (Coral.trace st).

End Vocab.
Import Vocab.

(** ** [research_agent.py]: the interactive loop of [main] *)

Module Chat.

(** [HumanMessage(content=...)] and [AIMessage(content=...)] *)
Inductive message : Type :=
| HumanMessage (content : string)
| AIMessage (content : string).

(** The exceptions that neither [except] clause of the loop catches:
    those outside [Exception] other than [KeyboardInterrupt].
    [asyncio.CancelledError] is one of them since Python 3.8, and from
    Python 3.11 it is what [asyncio.run] has an interrupt of the user
    raise in the task of [main], at its next [await]. *)
Inductive escaping : Type :=
| CancelledError
| SystemExit
| GeneratorExit.

(** What one call of [input] does: it returns a line, or it raises: a
    [KeyboardInterrupt], an [Exception] (an end of input, for one), or an
    exception of another kind. *)
Inductive input_result : Type :=
| Line (s : string)
| InputInterrupted
| InputFails (e : exn)
| InputEscapes (b : escaping).

(** What one [await executor.ainvoke(...)] does: it returns a result,
    whose [output] is a text when the key is there, or it raises: a
    [KeyboardInterrupt], an [Exception], or an exception of another kind,
    as a cancellation of the task is. *)
Inductive turn_result : Type :=
| Returned (output : option string)
| TurnInterrupted
| TurnFails (e : exn)
| TurnEscapes (b : escaping).

(** The executor, as a function of the input and of the history it is
    given. *)
Record env : Type := mkEnv
  { ainvoke : string -> list message -> turn_result }.

Inductive event : Type :=
| Prompt (msg : string)
| Print (msg : string)
| Invoke (input : string) (history : list message)   (* [executor.ainvoke] is called *)
| Close (c : Coral.client).   (* [await coral_client.__aexit__(None, None, None)] *)

(** The local state of the loop, with what the process did so far,
    whether the loop was left, and the exception that left [main] when
    one did. *)
Record state : Type := Build
  { chat_history : list message;
    out : list event;
    left_loop : bool;
    uncaught : option escaping }.

(** A state that no exception has left. *)
Definition mkState (chat_history : list message) (out : list event) (left_loop : bool)
  : state :=
  Build chat_history out left_loop None.

(** The marks of the messages, as the bytes of the source file. *)
Definition you_mark : string := "üìù".
Definition bye_mark : string := "üëã".
Definition look_mark : string := "üîç".
Definition bot_mark : string := "ü§ñ".
Definition err_mark : string := "‚ùå".

Definition emit (ev : event) (st : state) : state :=
  Build (chat_history st) (out st ++ [ev])%list (left_loop st) (uncaught st).

(** [break] *)
Definition leave (st : state) : state :=
  Build (chat_history st) (out st) true (uncaught st).

(** An assignment to [chat_history]. *)
Definition remember (chat_history : list message) (st : state) : state :=
  Build chat_history (out st) (left_loop st) (uncaught st).

(** An exception that no clause catches leaves the loop, and [main] with
    it. *)
Definition escape (b : escaping) (st : state) : state :=
  Build (chat_history st) (out st) true (Some b).

(** [user_input.lower() in ['exit', 'quit', 'q']] *)
Definition is_exit (user_input : string) : bool :=
  existsb (String.eqb (PyStr.lower user_input)) ["exit"; "quit"; "q"].

(** [if len(chat_history) > 20: chat_history = chat_history[-20:]] *)
Definition trim (chat_history : list message) : list message :=
  if (20 <? List.length chat_history)%nat
  then Py.slice_from (-20) chat_history
  else chat_history.

(** [except Exception as e: print(f"\n... Error: {e}\n")] *)
Definition on_error (e : exn) (st : state) : state :=
  emit (Print (PyStr.nl ++ err_mark ++ " Error: " ++ Py.exn_str e ++ PyStr.nl)) st.

(** [except KeyboardInterrupt: print(...); break] *)
Definition on_interrupt (st : state) : state :=
  leave (emit (Print (PyStr.nl ++ PyStr.nl ++ bye_mark ++ " Goodbye!")) st).

(** One pass through the body of [while True]. *)
Definition iteration (X : env) (inp : input_result) (st : state) : state :=
  let st := emit (Prompt (PyStr.nl ++ you_mark ++ " You: ")) st in
  match inp with
  | InputInterrupted => on_interrupt st
  | InputFails e => on_error e st
  | InputEscapes b => escape b st
  | Line raw =>
      let user_input := PyStr.strip raw in
      if is_exit user_input
      then leave (emit (Print (PyStr.nl ++ bye_mark ++ " Goodbye!")) st)
      else if PyStr.is_empty user_input then st
      else
        let st := emit (Print (PyStr.nl ++ look_mark ++ " Researching..." ++ PyStr.nl)) st in
        let st := emit (Invoke user_input (chat_history st)) st in
        match ainvoke X user_input (chat_history st) with
        | TurnInterrupted => on_interrupt st
        | TurnFails e => on_error e st
        | TurnEscapes b => escape b st
        | Returned result =>
            (* [chat_history.append(HumanMessage(content=user_input))] comes
               before [result["output"]] is read *)
            let st := remember (chat_history st ++ [HumanMessage user_input])%list st in
            match result with
            | None => on_error (mkExn KeyError "'output'") st
            | Some output =>
                let st := remember (trim (chat_history st ++ [AIMessage output])%list) st in
                emit (Print (PyStr.nl ++ bot_mark ++ " Agent: " ++ output ++ PyStr.nl)) st
            end
        end
  end.

(** The loop, along the results of the successive calls of [input]: it
    runs until it is left; the state is the one reached when the results
    given are used up. *)
Fixpoint loop (X : env) (inputs : list input_result) (st : state) : state :=
  match inputs with
  | [] => st
  | inp :: rest =>
      let st := iteration X inp st in
      if left_loop st then st else loop X rest st
  end.



End Chat.

(** ** Reading JSON text back *)

Module JsonRead.

Definition hex_value (c : ascii) : option nat :=
  let n := nat_of_ascii c in
  if ((48 <=? n) && (n <=? 57))%nat then Some (n - 48)
  else if ((97 <=? n) && (n <=? 102))%nat then Some (n - 87)
  else if ((65 <=? n) && (n <=? 70))%nat then Some (n - 55)
  else None.

(** The character a short escape stands for. *)
Definition unescape (e : ascii) : option ascii :=
  let n := nat_of_ascii e in
  if (n =? 34)%nat then Some (ascii_of_nat 34)
  else if (n =? 92)%nat then Some (ascii_of_nat 92)
  else if (n =? 47)%nat then Some (ascii_of_nat 47)
  else if (n =? 98)%nat then Some (ascii_of_nat 8)
  else if (n =? 102)%nat then Some (ascii_of_nat 12)
  else if (n =? 110)%nat then Some (ascii_of_nat 10)
  else if (n =? 114)%nat then Some (ascii_of_nat 13)
  else if (n =? 116)%nat then Some (ascii_of_nat 9)
  else None.

Definition prepend (c : ascii) (r : option (string * string)) : option (string * string) :=
  match r with
  | Some (s, rest) => Some (String c s, rest)
  | None => None
  end.

(** Reads the inside of a string literal up to its closing quote, and
    returns the text it denotes with what follows the quote.  A raw
    control character, an unknown escape and an escape of a character
    beyond 255 are refused. *)
Fixpoint read_body (s : string) : option (string * string) :=
  match s with
  | "" => None
  | String c s1 =>
      let n := nat_of_ascii c in
      if (n =? 34)%nat then Some ("", s1)
      else if (n =? 92)%nat then
        match s1 with
        | "" => None
        | String e s2 =>
            if (nat_of_ascii e =? 117)%nat then
              match s2 with
              | String h1 (String h2 (String h3 (String h4 s3))) =>
                  match hex_value h1, hex_value h2, hex_value h3, hex_value h4 with
                  | Some x1, Some x2, Some x3, Some x4 =>
                      let code := ((x1 * 16 + x2) * 16 + x3) * 16 + x4 in
                      if (code <? 256)%nat
                      then prepend (ascii_of_nat code) (read_body s3)
                      else None
                  | _, _, _, _ => None
                  end
              | _ => None
              end
            else
              match unescape e with
              | Some ch => prepend ch (read_body s2)
              | None => None
              end
        end
      else if (n <? 32)%nat then None
      else prepend c (read_body s1)
  end.

(** White space between the tokens. *)
Definition is_ws (c : ascii) : bool :=
  let n := nat_of_ascii c in
  ((n =? 32) || (n =? 9) || (n =? 10) || (n =? 13))%nat.

Fixpoint skip_ws (s : string) : string :=
  match s with
  | "" => ""
  | String c s' => if is_ws c then skip_ws s' else s
  end.

(** A string literal, after white space. *)
Definition read_string (s : string) : option (string * string) :=
  match skip_ws s with
  | String c s' => if (nat_of_ascii c =? 34)%nat then read_body s' else None
  | "" => None
  end.

Definition read_char (c : ascii) (s : string) : option string :=
  match skip_ws s with
  | String a s' => if Ascii.eqb a c then Some s' else None
  | "" => None
  end.

(** A member whose value is a string: [key : value]. *)
Definition read_member (s : string) : option ((string * string) * string) :=
  match read_string s with
  | Some (k, s1) =>
      match read_char ":" s1 with
      | Some s2 =>
          match read_string s2 with
          | Some (v, s3) => Some ((k, v), s3)
          | None => None
          end
      | None => None
      end
  | None => None
  end.

(** The members of an object up to its closing brace; [fuel] bounds their
    number. *)
Fixpoint read_members (fuel : nat) (s : string)
  : option (list (string * string) * string) :=
  match fuel with
  | O => None
  | S fuel' =>
      match read_member s with
      | Some (kv, s1) =>
          match read_char "," s1 with
          | Some s2 =>
              match read_members fuel' s2 with
              | Some (kvs, rest) => Some (kv :: kvs, rest)
              | None => None
              end
          | None =>
              match read_char "}" s1 with
              | Some rest => Some ([kv], rest)
              | None => None
              end
          end
      | None => None
      end
  end.

(** A whole text that is one object whose values are all strings: its
    members, in order. *)
Definition loads (s : string) : option (list (string * string)) :=
  match read_char "{" s with
  | Some s1 =>
      match read_char "}" s1 with
      | Some rest => if PyStr.is_empty (skip_ws rest) then Some [] else None
      | None =>
          match read_members (String.length s) s1 with
          | Some (kvs, rest) => if PyStr.is_empty (skip_ws rest) then Some kvs else None
          | None => None
          end
      end
  | None => None
  end.

End JsonRead.

(** ** More sample collaborators *)

Module Fixture.

(** A provider that finds two pages. *)
Definition found : list Py.dict :=
  [ [ ("title", VStr "Coral Protocol"); ("href", VStr "https://example.com/coral");
      ("body", VStr "An open infrastructure for agents.") ];
    [ ("title", VStr "Agent registries"); ("href", VStr "https://example.com/registry");
      ("body", VStr "How agents find each other.") ] ].

Definition searching : Rt.env :=
  Rt.mkEnv Sample.clock None (fun _ _ => Py.Ok found) None (fun _ _ => Py.Ok "")
           (fun _ => None) (fun _ => None).

(** A page of three lines: a padded title, a blank line, a body. *)
Definition page : string :=
  "  Coral  " ++ PyStr.nl ++ "   " ++ PyStr.nl ++ "Agents that cooperate." ++ PyStr.nl.

Definition browsing : Rt.env :=
  Rt.mkEnv Sample.clock None (fun _ _ => Py.Ok []) None (fun _ _ => Py.Ok page)
           (fun _ => None) (fun _ => None).

(** A disk that refuses every write. *)
Definition read_only_disk : Rt.env :=
  Rt.mkEnv Sample.clock None (fun _ _ => Py.Ok []) None (fun _ _ => Py.Ok "")
           (fun _ => None)
           (fun _ =>
              Some (Rt.OpenFails (mkExn OSError "[Errno 30] Read-only file system"))).

(** A validator that reports the first name that is missing, in the
    words [jsonschema] uses for it; for the other violations it names the
    key only, without writing the value. *)
Definition sentence (found : list Server.violation) : result string :=
  match find (fun v => match v with Server.MissingRequired _ => true | _ => false end)
             found, found with
  | Some (Server.MissingRequired k), _ => Py.Ok ("'" ++ k ++ "' is a required property")
  | _, Server.NotOfType k _ type :: _ => Py.Ok ("'" ++ k ++ "' is not of type '" ++ type ++ "'")
  | _, Server.NotOneOf k _ _ :: _ => Py.Ok ("'" ++ k ++ "' is not one of the values allowed")
  | _, _ => Py.Ok ""
  end.

(** A log of three entries, two of them about the same competitor. *)
Definition three_logs : list Py.dict :=
  (Sample.two_logs ++
   [ [ ("timestamp", VStr "2026-11-03T09:07:00.000012");
       ("competitor", VStr "Google A2A");
       ("activity", VStr "Joined a working group");
       ("source", VStr "https://example.com/wg") ] ])%list.

Definition logged_thrice : Rt.world := Rt.mkWorld 3 (Some (Rt.Logs three_logs)) [].

(** A log file that is empty: not a JSON document. *)
Definition corrupt : Rt.world :=
  Rt.mkWorld 0
    (Some (Rt.Unparsable (mkExn JSONDecodeError "Expecting value: line 1 column 1 (char 0)")))
    [].

(** What [json.load] raises on a log file cut in the middle of a text. *)
Definition cut_short : exn :=
  mkExn JSONDecodeError "Unterminated string starting at: line 5 column 17 (char 101)".

(** A disk that fills up while a file is written: 120 characters reach
    the file. *)
Definition full_disk : Rt.env :=
  Rt.mkEnv Sample.clock None (fun _ _ => Py.Ok []) None (fun _ _ => Py.Ok "")
           (fun _ => None)
           (fun _ =>
              Some (Rt.WriteFails (mkExn OSError "[Errno 28] No space left on device")
                                  120 cut_short)).

(** A Coral server that refuses twice and then lists one tool. *)
Definition third_time : Coral.env :=
  Coral.mkEnv (Some "http://localhost:5555/sse?x=1") (Some "scout") None
              (fun attempt _ =>
                 if (attempt <? 2)%nat
                 then Coral.CatalogFails (mkExn ExternalError "not ready")
                 else Coral.Catalog [Coral.mkTool "list_agents" "List all connected agents"]).

(** An executor that echoes its input. *)
Definition echo : Chat.env :=
  Chat.mkEnv (fun input _ => Chat.Returned (Some ("You said: " ++ input))).


End Fixture.

(** ** Vocabulary of the further statements *)

Module More.
Import Rt.

(** The tool names [list_tools] advertises. *)
Definition advertised : list string := map Server.name Server.list_tools.

(** The default [list_tools] declares for the parameter [k] of a tool. *)
Definition declared_default (tool_name k : string) : option value :=
  match find (fun t => String.eqb (Server.name t) tool_name) Server.list_tools with
  | Some t =>
      match find (fun p => String.eqb (Server.p_name p) k) (Server.properties t) with
      | Some p => Server.p_default p
      | None => None
      end
  | None => None
  end.

(** Two worlds with the same files: the same log file and the same
    report files. *)
Definition same_files (w w' : world) : Prop :=
  log_file w' = log_file w /\ reports w' = reports w.

(** [m] leaves every world in relation [R] with the world it started
    from, whether it returns or raises. *)
Definition keeps (R : world -> world -> Prop) {A} (m : M A) : Prop :=
  forall w, R w (snd (m w)).

(** The arguments of a logging request made of three texts. *)
Definition track_arguments (competitor_name activity source : string) : Py.dict :=
  [ ("competitor_name", VStr competitor_name);
    ("activity", VStr activity);
    ("source", VStr source) ].

(** The entry a call of the server's [track_competitor] writes. *)
Definition entry_written (E : env) (arguments : Py.dict) (w : world) : Py.dict :=
  [ ("timestamp", VStr (Datetime.isoformat (clock E (ticks w))));
    ("competitor", Py.get arguments "competitor_name" (VStr ""));
    ("activity", Py.get arguments "activity" (VStr ""));
    ("source", Py.get arguments "source" (VStr "")) ].

Definition is_text (v : value) : bool :=
  match v with VStr _ => true | _ => false end.

(** A world left as it was. *)
Definition unchanged (w w' : world) : Prop := w' = w.

(** The texts a call answers with. *)
Definition answer (r : result (list Server.TextContent) * world) : list Server.TextContent :=
  match fst r with
  | Py.Ok texts => texts
  | Py.Raise _ => []
  end.

(** A search result with the three keys the handlers read, and a text
    for a body. *)
Definition result_fields (r : Py.dict) : bool :=
  Py.mem r "title" && Py.mem r "href" && is_text (Py.get r "body" VNone).

(** What an f-string shows of the value under [k]. *)
Definition shown_value (r : Py.dict) (k : string) : string := Py.str (Py.get r k VNone).

(** The block of the result numbered [i], as the server's handler writes
    it. *)
Definition result_block (i : nat) (r : Py.dict) : string :=
  PyStr.of_nat i ++ ". **" ++ shown_value r "title" ++ "**" ++ PyStr.nl ++
  "   URL: " ++ shown_value r "href" ++ PyStr.nl ++
  "   " ++ PyStr.take 300 (field r "body") ++ "...".

(** The elements of a list with their numbers, counted from [i]. *)
Definition numbered {A : Type} (i : nat) (l : list A) : list (nat * A) :=
  combine (seq i (List.length l)) l.

(** A line that is not blank, has no white space at either end and holds
    no line break. *)
Definition clean_line (l : string) : bool :=
  negb (PyStr.is_empty l) && String.eqb (PyStr.strip l) l && no_newline l.

(** A text that does not begin with white space. *)
Definition starts_clean (s : string) : bool :=
  match s with
  | "" => true
  | String c _ => negb (PyStr.is_space c)
  end.

(** A dictionary whose values are all texts, and its members as texts. *)
Definition all_text (d : Py.dict) : bool := forallb (fun kv => is_text (snd kv)) d.

Definition text_members (d : Py.dict) : list (string * string) :=
  map (fun kv => (fst kv, match snd kv with VStr s => s | _ => "" end)) d.

(** [k] refused attempts, each followed by its wait. *)
Fixpoint retries (k : nat) (u : string) : list Coral.event :=
  match k with
  | O => []
  | S k' => Coral.Connect u :: Coral.Sleep Coral.retry_delay :: retries k' u
  end.

(** The numbers of attempts and of waits of a run. *)
Definition attempts_made (st : Coral.locals) : nat :=
  List.length (filter is_connect (Coral.trace st)).

Definition waits_made (st : Coral.locals) : nat :=
  List.length (filter is_sleep (Coral.trace st)).

(** The seconds a run spends waiting. *)
Fixpoint seconds_waited (evs : list Coral.event) : nat :=
  match evs with
  | [] => 0
  | Coral.Sleep n :: evs' => n + seconds_waited evs'
  | _ :: evs' => seconds_waited evs'
  end.

Fixpoint no_space (s : string) : bool :=
  match s with
  | "" => true
  | String c s' => negb (Ascii.eqb c " ") && no_space s'
  end.

(** The messages one pass through the loop appends to the history. *)
Definition appended (X : Chat.env) (inp : Chat.input_result) (st : Chat.state)
  : list Chat.message :=
  match inp with
  | Chat.Line raw =>
      let user_input := PyStr.strip raw in
      if Chat.is_exit user_input then []
      else if PyStr.is_empty user_input then []
      else
        match Chat.ainvoke X user_input (Chat.chat_history st) with
        | Chat.Returned (Some output) =>
            [Chat.HumanMessage user_input; Chat.AIMessage output]
        | Chat.Returned None => [Chat.HumanMessage user_input]
        | _ => []
        end
  | _ => []
  end.

(** All the messages a run of the loop appends, in order. *)
Fixpoint transcript (X : Chat.env) (inputs : list Chat.input_result) (st : Chat.state)
  : list Chat.message :=
  match inputs with
  | [] => []
  | inp :: rest =>
      (appended X inp st ++
       (if Chat.left_loop (Chat.iteration X inp st) then []
        else transcript X rest (Chat.iteration X inp st)))%list
  end.

(** An executor whose results always carry an output. *)
Definition always_outputs (X : Chat.env) : Prop :=
  forall input history, Chat.ainvoke X input history <> Chat.Returned None.






(** The state [st] after the events [evs], its history untouched. *)
Definition after (st : Chat.state) (evs : list Chat.event) (left_loop : bool)
           (uncaught : option Chat.escaping) : Chat.state :=
  Chat.Build (Chat.chat_history st) (Chat.out st ++ evs) left_loop uncaught.



End More.
Import More.

(* ================================================================== *)
(** * Part II.  Properties                                              *)
(* ================================================================== *)

(** ** Containment of failures at the handler boundary *)

Section Containment.
Import Rt.

Lemma never_raises_ret {A} (P : A -> Prop) (a : A) :
  P a -> never_raises P (ret a).
Proof. intros Ha w. exists a, w. split; [reflexivity | exact Ha]. Qed.



Lemma on_success_ret {A} (P : A -> Prop) (a : A) :
  P a -> on_success P (ret a).
Proof. intros Ha w. exact Ha. Qed.

Lemma on_success_bind {A B} (P : B -> Prop) (m : M A) (k : A -> M B) :
  (forall a, on_success P (k a)) -> on_success P (bind m k).
Proof.
  intros Hk w. unfold bind. destruct (m w) as [[a | e] w1].
  - apply Hk.
  - exact I.
Qed.

(** The boundary itself: a [try] whose handlers return cannot raise. *)
Lemma try_except_contains {A} (P : A -> Prop) (body : M A) (handler : exn -> M A) :
  on_success P body ->
  (forall e, never_raises P (handler e)) ->
  never_raises P (try_except body handler).
Proof.
  intros Hb Hh w. unfold try_except.
  specialize (Hb w). destruct (body w) as [[a | e] w1]; simpl in Hb.
  - exists a, w1. split; [reflexivity | exact Hb].
  - apply Hh.
Qed.

Lemma single_text_intro (s : string) : single_text [Server.text_content s].
Proof. exists s. reflexivity. Qed.

End Containment.

(** Walks through a [try] body along its binds and branches. *)
Ltac walk_body :=
  repeat
    lazymatch goal with
    | |- on_success _ (Rt.bind _ _) => apply on_success_bind; intros
    | |- on_success _ (Rt.ret _) => apply on_success_ret
    | |- on_success _ (if ?b then _ else _) => destruct b
    | |- on_success _ (match ?x with _ => _ end) => destruct x
    end.

(** Closes a handler of the shape [try: body except Exception: return]. *)
Ltac contain_handler :=
  apply try_except_contains;
  [ cbv zeta; walk_body
  | intros;
    try lazymatch goal with
        | |- never_raises _ (if ?b then _ else _) => destruct b
        end;
    apply never_raises_ret ].

Section ServerContainment.
Variable E : Rt.env.

Lemma handle_web_search_contained arguments :
  never_raises single_text (Server.handle_web_search E arguments).
Proof. unfold Server.handle_web_search. contain_handler; apply single_text_intro. Qed.

Lemma handle_fetch_url_contained arguments :
  never_raises single_text (Server.handle_fetch_url E arguments).
Proof. unfold Server.handle_fetch_url. contain_handler; apply single_text_intro. Qed.

Lemma handle_track_competitor_contained arguments :
  never_raises single_text (Server.handle_track_competitor E arguments).
Proof. unfold Server.handle_track_competitor. contain_handler; apply single_text_intro. Qed.

Lemma handle_generate_report_contained arguments :
  never_raises single_text (Server.handle_generate_report E arguments).
Proof. unfold Server.handle_generate_report. contain_handler; apply single_text_intro. Qed.

Lemma handle_get_logs_contained arguments :
  never_raises single_text (Server.handle_get_logs E arguments).
Proof. unfold Server.handle_get_logs. contain_handler; apply single_text_intro. Qed.

Lemma call_tool_contained name arguments :
  never_raises single_text (Server.call_tool E name arguments).
Proof.
  unfold Server.call_tool.
  repeat match goal with
         | |- never_raises _ (if ?b then _ else _) => destruct b
         end;
    auto using handle_web_search_contained, handle_fetch_url_contained,
      handle_track_competitor_contained, handle_generate_report_contained,
      handle_get_logs_contained.
  apply never_raises_ret. apply single_text_intro.
Qed.

End ServerContainment.

Section AgentContainment.
Variable E : Rt.env.





End AgentContainment.


(** A type error in the body of [handle_get_logs] comes back as a text. *)
Example get_logs_bad_limit :
  Server.call_tool Sample.quiet "get_competitor_logs" [("limit", VStr "x")]
                   (Rt.mkWorld 0 (Some (Rt.Logs [])) [])
  = (Py.Ok [Server.text_content "Error: bad operand type for unary -: 'str'"],
     Rt.mkWorld 0 (Some (Rt.Logs [])) []).
Proof. reflexivity. Qed.

(** A log file that is not JSON: the query and the logging request both
    answer with the decoder's message, and the file is left as it is. *)
Example corrupt_log_is_reported :
  Server.call_tool Sample.quiet "get_competitor_logs" []
    (Rt.mkWorld 0 (Some (Rt.Unparsable (mkExn JSONDecodeError
                                          "Expecting value: line 1 column 1 (char 0)"))) [])
  = (Py.Ok [Server.text_content "Error: Expecting value: line 1 column 1 (char 0)"],
     Rt.mkWorld 0 (Some (Rt.Unparsable (mkExn JSONDecodeError
                                          "Expecting value: line 1 column 1 (char 0)"))) [])
  /\
  Server.call_tool Sample.quiet "track_competitor"
    [("competitor_name", VStr "ANP"); ("activity", VStr "Published a charter")]
    (Rt.mkWorld 0 (Some (Rt.Unparsable (mkExn JSONDecodeError
                                          "Expecting value: line 1 column 1 (char 0)"))) [])
  = (Py.Ok [Server.text_content "Error: Expecting value: line 1 column 1 (char 0)"],
     Rt.mkWorld 1 (Some (Rt.Unparsable (mkExn JSONDecodeError
                                          "Expecting value: line 1 column 1 (char 0)"))) []).
Proof. split; reflexivity. Qed.

(** A fault of the file system while the report is saved comes back as a
    text that still carries the report. *)
Example generate_report_unwritable :
  fst (Agent.generate_report
         (Rt.mkEnv Sample.clock None (fun _ _ => Py.Ok []) None (fun _ _ => Py.Ok "")
                   (fun _ => None)
                   (fun _ =>
                      Some (Rt.OpenFails (mkExn OSError "[Errno 13] Permission denied"))))
         "X" "Y" "text" Sample.fresh)
  = Py.Ok ("Error saving report: [Errno 13] Permission denied" ++ PyStr.nl ++ PyStr.nl ++
           "RESEARCH REPORT: X" ++ PyStr.nl ++ "Generated: 2026-11-03 09:05" ++ PyStr.nl ++
           PyStr.nl ++ "Y" ++ PyStr.nl ++ "...").
Proof. reflexivity. Qed.

(** ** Required parameters *)

Lemma get_absent (d : Py.dict) (k : string) (default : value) :
  Py.mem d k = false -> Py.get d k default = default.
Proof.
  induction d as [| [k' v] d IH]; simpl; intros H.
  - reflexivity.
  - apply orb_false_iff in H. destruct H as [Hk Hd]. rewrite Hk. auto.
Qed.

Lemma get_app (d : Py.dict) (k k' : string) (v default : value) :
  Py.get (d ++ [(k, v)])%list k' default =
  if Py.mem d k' then Py.get d k' default
  else if String.eqb k' k then v else default.
Proof.
  induction d as [| [k0 v0] d IH]; simpl.
  - reflexivity.
  - destruct (String.eqb k' k0); simpl; auto.
Qed.

(** Supplying the empty text for an absent key changes no lookup that
    defaults to the empty text, and no lookup of another key. *)
Lemma get_supplied (d : Py.dict) (k k' : string) (default : value) :
  Py.mem d k = false ->
  (String.eqb k' k = true -> default = VStr "") ->
  Py.get (d ++ [(k, VStr "")])%list k' default = Py.get d k' default.
Proof.
  intros Hk Hdef. rewrite get_app.
  destruct (Py.mem d k') eqn:Hm; [reflexivity |].
  rewrite (get_absent _ _ _ Hm).
  destruct (String.eqb k' k) eqn:Heq; [| reflexivity].
  symmetry. auto.
Qed.

(** The required parameters, tool by tool. *)
Lemma required_of_cases (name k : string) :
  In k (required_of name) ->
  (name = "web_search" /\ k = "query") \/
  (name = "fetch_url" /\ k = "url") \/
  (name = "track_competitor" /\ k = "competitor_name") \/
  (name = "track_competitor" /\ k = "activity") \/
  (name = "generate_report" /\ k = "topic") \/
  (name = "generate_report" /\ k = "findings").
Proof.
  unfold required_of, Server.list_tools.
  cbn [flat_map Server.name Server.required].
  rewrite !in_app_iff.
  intros H.
  repeat match type of H with
         | _ \/ _ => destruct H as [H | H]
         end;
    match type of H with
    | In _ (if String.eqb ?a name then _ else _) =>
        destruct (String.eqb a name) eqn:Heq;
        [ apply String.eqb_eq in Heq; subst name | destruct H ]
    | In _ [] => destruct H
    end;
    cbn [In] in H;
    repeat match type of H with
           | _ \/ _ => destruct H as [H | H]
           | False => destruct H
           end;
    subst k; tauto.
Qed.


Ltac supply_default :=
  rewrite ?get_supplied by (assumption || (intro; (reflexivity || discriminate)));
  reflexivity.

(** A required name that is absent is among the violations. *)
Lemma missing_lists (arguments : Py.dict) (required : list string) (k : string) :
  In k required ->
  Py.mem arguments k = false ->
  In (Server.MissingRequired k) (Server.missing arguments required).
Proof.
  intros Hin Hk. unfold Server.missing. apply in_map. apply filter_In.
  split; [exact Hin | rewrite Hk; reflexivity].
Qed.

(** A name with a required parameter is the name of an advertised tool,
    and the parameter is in that tool's list. *)
Lemma required_of_found (name k : string) :
  In k (required_of name) ->
  exists tool,
    find (fun t => String.eqb (Server.name t) name) Server.list_tools = Some tool /\
    In k (Server.required tool).
Proof.
  intros Hreq. apply required_of_cases in Hreq.
  repeat match type of Hreq with
         | _ \/ _ => destruct Hreq as [Hreq | Hreq]
         end;
    destruct Hreq as [-> ->];
    eexists; (split; [reflexivity | cbn [Server.required In]; auto]).
Qed.

(** Arguments that break the schema of the tool never reach [call_tool]:
    the registered handler answers with an error result, and the world is
    as it was. *)
Lemma call_tool_handler_rejects (E : Rt.env)
      (message : list Server.violation -> result string)
      (name : string) (arguments : Py.dict) (w : Rt.world) (tool : Server.Tool) :
  find (fun t => String.eqb (Server.name t) name) Server.list_tools = Some tool ->
  Server.violations tool arguments <> [] ->
  Server.call_tool_handler E message name arguments w
  = (Py.Ok (Server.make_error_result
              match message (Server.violations tool arguments) with
              | Py.Ok sentence => "Input validation error: " ++ sentence
              | Py.Raise e => Py.exn_str e
              end),
     w).
Proof.
  intros Hfind Hbroken.
  unfold Server.call_tool_handler, Rt.try_except. rewrite Hfind.
  destruct (Server.violations tool arguments) as [| v vs]; [congruence |].
  unfold Rt.bind, Rt.lift, Rt.ret.
  destruct (message (v :: vs)); reflexivity.
Qed.

(** C2.  A tool call that omits a parameter its schema declares required
    is refused before the tool runs.  The handler registered for
    [call_tool] validates the arguments against the schema of the tool:
    the missing name is among the violations found, the call is answered
    with an error result, whose text is [Input validation error: ]
    followed by the validator's sentence, and the world is left as it
    was, so that no handler has run with a substituted value. *)
Theorem missing_required_is_rejected :
  forall (E : Rt.env) (message : list Server.violation -> result string)
         (name k : string) (arguments : Py.dict) (w : Rt.world),
    In k (required_of name) ->
    Py.mem arguments k = false ->
    exists tool text,
      find (fun t => String.eqb (Server.name t) name) Server.list_tools = Some tool /\
      In (Server.MissingRequired k) (Server.violations tool arguments) /\
      Server.call_tool_handler E message name arguments w
      = (Py.Ok (Server.mkResult [Server.text_content text] true), w) /\
      (forall sentence,
          message (Server.violations tool arguments) = Py.Ok sentence ->
          text = "Input validation error: " ++ sentence) /\
      (forall e,
          message (Server.violations tool arguments) = Py.Raise e ->
          text = Py.exn_str e).
Proof.
  intros E message name k arguments w Hreq Hk.
  destruct (required_of_found name k Hreq) as (tool & Hfind & Hin).
  assert (Hfound : In (Server.MissingRequired k) (Server.violations tool arguments)).
  { unfold Server.violations. apply in_or_app. right. apply missing_lists; assumption. }
  exists tool.
  exists (match message (Server.violations tool arguments) with
          | Py.Ok sentence => "Input validation error: " ++ sentence
          | Py.Raise e => Py.exn_str e
          end).
  split; [exact Hfind |].
  split; [exact Hfound |].
  split.
  { apply call_tool_handler_rejects; [exact Hfind |].
    intros Hnone. rewrite Hnone in Hfound. destruct Hfound. }
  split.
  - intros sentence Hsentence. rewrite Hsentence. reflexivity.
  - intros e He. rewrite He. reflexivity.
Qed.

Lemma missing_required_is_rejected_witness :
  In "competitor_name" (required_of "track_competitor") /\
  Py.mem [("activity", VStr "launch")] "competitor_name" = false /\
  Server.call_tool_handler Sample.quiet Fixture.sentence "track_competitor"
    [("activity", VStr "launch")] Sample.fresh
  = (Py.Ok (Server.mkResult
              [Server.text_content
                 "Input validation error: 'competitor_name' is a required property"]
              true),
     Sample.fresh).
Proof.
  split; [simpl; auto |].
  split; [reflexivity |].
  destruct (missing_required_is_rejected Sample.quiet Fixture.sentence "track_competitor"
              "competitor_name" [("activity", VStr "launch")] Sample.fresh)
    as (tool & text & Hfind & _ & Hrun & Htext & _).
  - simpl. auto.
  - reflexivity.
  - simpl in Hfind. injection Hfind as <-.
    rewrite Hrun, (Htext "'competitor_name' is a required property" eq_refl).
    reflexivity.
Defined.

(** ** The connection loop *)

Section Connection.
Import Coral.
Variable E : Coral.env.

Lemma all_tools_emit ev st : all_tools (emit ev st) = all_tools st.
Proof. reflexivity. Qed.

Lemma trace_emit ev st : trace (emit ev st) = (trace st ++ [ev])%list.
Proof. reflexivity. Qed.

Lemma all_tools_on_failure attempt e st :
  all_tools (on_failure attempt e st) = all_tools st.
Proof. unfold on_failure. destruct (attempt <? max_retries - 1)%nat; reflexivity. Qed.

(** The loop, up to the first attempt that loads the catalog: the catalog
    is appended to the tools held so far, and the run ends on that attempt
    and its message. *)
Lemma connect_loop_first_success coral_url coral_tools :
  forall n a k st,
    (a <= k < a + n)%nat ->
    (forall j, (a <= j < k)%nat -> refused (server E j coral_url) = true) ->
    server E k coral_url = Catalog coral_tools ->
    all_tools (connect_loop E coral_url (seq a n) st) = (all_tools st ++ coral_tools)%list /\
    exists before,
      trace (connect_loop E coral_url (seq a n) st) =
      (before ++ [Connect coral_url; connected_with (List.length coral_tools)])%list.
Proof.
  induction n as [| n IH]; intros a k st Hk Hbefore Hat.
  - lia.
  - cbn [seq connect_loop].
    destruct (Nat.eq_dec a k) as [-> | Hne].
    + rewrite Hat. split; [reflexivity |].
      exists (trace st). cbn. rewrite <- app_assoc. reflexivity.
    + assert (Hrefused : refused (server E a coral_url) = true)
        by (apply Hbefore; lia).
      assert (Hrest : forall st',
                 all_tools st' = all_tools st ->
                 all_tools (connect_loop E coral_url (seq (S a) n) st')
                 = (all_tools st ++ coral_tools)%list /\
                 exists before,
                   trace (connect_loop E coral_url (seq (S a) n) st') =
                   (before ++ [Connect coral_url;
                               connected_with (List.length coral_tools)])%list).
      { intros st' Hst'. rewrite <- Hst'.
        apply (IH (S a) k st'); [lia | intros j Hj; apply Hbefore; lia | exact Hat]. }
      destruct (server E a coral_url) as [e | e | tools]; [| | discriminate];
        apply Hrest; rewrite all_tools_on_failure; reflexivity.
Qed.

End Connection.

Lemma is_empty_false (s : string) : s <> "" -> PyStr.is_empty s = false.
Proof. destruct s; [congruence | reflexivity]. Qed.

Lemma NoDup_app_disjoint {A} (l1 l2 : list A) :
  NoDup (l1 ++ l2) -> forall a, In a l1 -> ~ In a l2.
Proof.
  induction l1 as [| x l1 IH]; simpl; intros Hnd a Hin Hin2.
  - exact Hin.
  - inversion Hnd as [| ? ? Hx Hnd']; subst.
    destruct Hin as [-> | Hin].
    + apply Hx. apply in_or_app. right. exact Hin2.
    + exact (IH Hnd' a Hin Hin2).
Qed.

Lemma native_names_distinct : NoDup (names Coral.native_tools).
Proof.
  unfold names, Coral.native_tools. cbn [map Coral.tool_name].
  repeat constructor; cbn [In]; intros H;
    repeat match type of H with
           | _ \/ _ => destruct H as [H | H]
           | False => exact H
           | _ = _ => discriminate H
           end.
Qed.

Lemma prefix_nil (s : string) : prefix "" s = true.
Proof. destruct s; reflexivity. Qed.

Lemma connected_msg_connected_with n : connected_msg (connected_with n) = true.
Proof.
  unfold connected_msg, connected_with.
  cbn -[PyStr.of_nat prefix]. cbn [prefix]. apply prefix_nil.
Qed.

(** C3, as the code has it.  The native tool names are pairwise distinct.
    When an attempt loads the remote catalog, the remote tools are
    appended after the native ones, in the order supplied: no native tool
    is replaced, no name is compared and nothing is reported about the
    catalog but its size.  The names of the resulting list are pairwise
    distinct exactly when the remote names are pairwise distinct and none
    of them is a native name. *)
Theorem remote_tools_are_appended :
  forall (E : Coral.env) (url : string) (k : nat) (coral_tools : list Coral.Tool),
    Coral.CORAL_SSE_URL E = Some url ->
    url <> "" ->
    (k < Coral.max_retries)%nat ->
    (forall j, (j < k)%nat -> refused (Coral.server E j (Coral.build_url E url)) = true) ->
    Coral.server E k (Coral.build_url E url) = Coral.Catalog coral_tools ->
    NoDup (names Coral.native_tools) /\
    Coral.all_tools (fst (Coral.create_coralized_agent E))
    = (Coral.native_tools ++ coral_tools)%list /\
    final_state (fst (Coral.create_coralized_agent E)) = Connected /\
    last (Coral.trace (fst (Coral.create_coralized_agent E))) standalone_notice
    = connected_with (List.length coral_tools) /\
    (NoDup (names (Coral.all_tools (fst (Coral.create_coralized_agent E)))) <->
     NoDup (names coral_tools) /\
     forall n, In n (names Coral.native_tools) -> ~ In n (names coral_tools)).
Proof.
  intros E url k coral_tools Hurl Hne Hk Hbefore Hat.
  split; [exact native_names_distinct |].
  unfold Coral.create_coralized_agent. rewrite Hurl, (is_empty_false _ Hne).
  cbn [fst].
  set (st0 := Coral.emit _ _).
  destruct (connect_loop_first_success E (Coral.build_url E url) coral_tools
              Coral.max_retries 0 k st0) as [Htools [before Htrace]].
  { lia. }
  { intros j Hj. apply Hbefore. lia. }
  { exact Hat. }
  split; [exact Htools |].
  split.
  { unfold final_state. rewrite Htrace, !existsb_app.
    cbn [existsb is_connect]. rewrite connected_msg_connected_with.
    rewrite !orb_true_r. reflexivity. }
  split.
  { rewrite Htrace.
    change [Coral.Connect (Coral.build_url E url); connected_with (List.length coral_tools)]
      with ([Coral.Connect (Coral.build_url E url)] ++
            [connected_with (List.length coral_tools)])%list.
    rewrite app_assoc. apply last_last. }
  rewrite Htools. unfold names. rewrite map_app.
  split.
  - intros Hnd. split.
    + exact (NoDup_app_remove_l _ _ Hnd).
    + exact (NoDup_app_disjoint _ _ Hnd).
  - intros [Hremote Hdisjoint].
    apply NoDup_app; [exact native_names_distinct | exact Hremote | exact Hdisjoint].
Qed.

Lemma remote_tools_are_appended_witness :
  Coral.all_tools (fst (Coral.create_coralized_agent Sample.clashing))
  = (Coral.native_tools ++
     [Coral.mkTool "web_search" "remote search";
      Coral.mkTool "list_agents" "List all connected agents"])%list.
Proof.
  apply (remote_tools_are_appended Sample.clashing "http://localhost:5555/sse" 0
           [Coral.mkTool "web_search" "remote search";
            Coral.mkTool "list_agents" "List all connected agents"]).
  - reflexivity.
  - discriminate.
  - unfold Coral.max_retries. lia.
  - intros j Hj. lia.
  - reflexivity.
Defined.

(** C3, as stated, fails: a remote tool named [web_search] is listed next
    to the native [web_search]; the run reports a plain success. *)
Lemma clashing_remote_name_is_kept :
  names (Coral.all_tools (fst (Coral.create_coralized_agent Sample.clashing)))
  = ["web_search"; "fetch_url"; "track_competitor"; "generate_report";
     "summarize_paper"; "web_search"; "list_agents"] /\
  ~ NoDup (names (Coral.all_tools (fst (Coral.create_coralized_agent Sample.clashing)))) /\
  Coral.trace (fst (Coral.create_coralized_agent Sample.clashing))
  = [ Coral.Print (Agent.plug_mark ++
        " Connecting to Coral Server at http://localhost:5555/sse?agentId=research_assista...");
      Coral.Connect
        "http://localhost:5555/sse?agentId=research_assistant&agentDescription=Research%20assistant%20agent";
      connected_with 2 ].
Proof.
  split; [reflexivity |].
  split; [| reflexivity].
  intros Hnd. vm_compute in Hnd.
  inversion Hnd as [| ? ? Hnotin _]. apply Hnotin.
  cbn [In]. tauto.
Qed.

(** One refused attempt: the attempt is made, the failure is printed,
    and the loop goes on after the wait, or after the give-up message
    when the attempt was the last. *)
Lemma connect_loop_refused (E : Coral.env) (u : string) (n : nat) (rest : list nat)
      (st : Coral.locals) :
  refused (Coral.server E n u) = true ->
  exists e c,
    Coral.connect_loop E u (n :: rest) st =
    Coral.connect_loop E u rest
      (Coral.mkLocals (Coral.all_tools st) c
         (Coral.trace st ++
          [Coral.Connect u; failed_notice n e;
           if (n <? Coral.max_retries - 1)%nat
           then Coral.Sleep Coral.retry_delay else give_up_notice])%list).
Proof.
  intros Hrefused. cbn [Coral.connect_loop].
  destruct (Coral.server E n u) as [e | e | tools]; [| | discriminate Hrefused].
  - exists e, (Coral.coral_client st). f_equal.
    unfold Coral.on_failure, Coral.emit, failed_notice, give_up_notice.
    destruct (n <? Coral.max_retries - 1)%nat; cbn [Coral.all_tools Coral.coral_client Coral.trace];
      rewrite <- !app_assoc; reflexivity.
  - exists e, (Some (Coral.mkClient u)). f_equal.
    unfold Coral.on_failure, Coral.emit, failed_notice, give_up_notice.
    destruct (n <? Coral.max_retries - 1)%nat; cbn [Coral.all_tools Coral.coral_client Coral.trace];
      rewrite <- !app_assoc; reflexivity.
Qed.

(** The whole run against an endpoint that refuses every attempt. *)
Lemma refused_run (E : Coral.env) (url : string) :
  Coral.CORAL_SSE_URL E = Some url ->
  url <> "" ->
  (forall attempt u, refused (Coral.server E attempt u) = true) ->
  exists c e0 e1 e2 e3 e4,
    fst (Coral.create_coralized_agent E) =
    Coral.mkLocals Coral.native_tools c
      [ Coral.Print (Agent.plug_mark ++ " Connecting to Coral Server at " ++
                     PyStr.take 50 (Coral.build_url E url) ++ "...");
        Coral.Connect (Coral.build_url E url); failed_notice 0 e0; Coral.Sleep 5;
        Coral.Connect (Coral.build_url E url); failed_notice 1 e1; Coral.Sleep 5;
        Coral.Connect (Coral.build_url E url); failed_notice 2 e2; Coral.Sleep 5;
        Coral.Connect (Coral.build_url E url); failed_notice 3 e3; Coral.Sleep 5;
        Coral.Connect (Coral.build_url E url); failed_notice 4 e4; give_up_notice ].
Proof.
  intros Hurl Hne Hrefused.
  unfold Coral.create_coralized_agent. rewrite Hurl, (is_empty_false _ Hne).
  cbn [fst]. set (u := Coral.build_url E url).
  unfold Coral.max_retries. cbn [seq].
  destruct (connect_loop_refused E u 0 [1; 2; 3; 4]%nat
              (Coral.emit (Coral.Print (Agent.plug_mark ++ " Connecting to Coral Server at " ++
                                        PyStr.take 50 u ++ "..."))
                          (Coral.mkLocals Coral.native_tools None []))
              (Hrefused _ _)) as (e0 & c0 & ->).
  match goal with |- context [Coral.connect_loop E u _ ?st] =>
    destruct (connect_loop_refused E u 1 [2; 3; 4]%nat st (Hrefused _ _)) as (e1 & c1 & ->) end.
  match goal with |- context [Coral.connect_loop E u _ ?st] =>
    destruct (connect_loop_refused E u 2 [3; 4]%nat st (Hrefused _ _)) as (e2 & c2 & ->) end.
  match goal with |- context [Coral.connect_loop E u _ ?st] =>
    destruct (connect_loop_refused E u 3 [4]%nat st (Hrefused _ _)) as (e3 & c3 & ->) end.
  match goal with |- context [Coral.connect_loop E u _ ?st] =>
    destruct (connect_loop_refused E u 4 []%nat st (Hrefused _ _)) as (e4 & c4 & ->) end.
  exists c4, e0, e1, e2, e3, e4. reflexivity.
Qed.

(** C4.  With a URL configured and every attempt refused, the run makes
    exactly five attempts, one after the other, waits five seconds
    between consecutive attempts and not after the last, prints the
    give-up message, and goes on with the native tools and nothing else:
    the function returns, in the degraded state. *)
Theorem refused_endpoint_degrades :
  forall (E : Coral.env) (url : string),
    Coral.CORAL_SSE_URL E = Some url ->
    url <> "" ->
    (forall attempt u, refused (Coral.server E attempt u) = true) ->
    schedule (fst (Coral.create_coralized_agent E))
    = [ Coral.Connect (Coral.build_url E url); Coral.Sleep 5;
        Coral.Connect (Coral.build_url E url); Coral.Sleep 5;
        Coral.Connect (Coral.build_url E url); Coral.Sleep 5;
        Coral.Connect (Coral.build_url E url); Coral.Sleep 5;
        Coral.Connect (Coral.build_url E url) ] /\
    last (Coral.trace (fst (Coral.create_coralized_agent E))) standalone_notice
    = give_up_notice /\
    Coral.all_tools (fst (Coral.create_coralized_agent E)) = Coral.native_tools /\
    snd (Coral.create_coralized_agent E) = Coral.get_tools_description Coral.native_tools /\
    final_state (fst (Coral.create_coralized_agent E)) = Degraded.
Proof.
  intros E url Hurl Hne Hrefused.
  assert (Hdesc : snd (Coral.create_coralized_agent E)
                  = Coral.get_tools_description
                      (Coral.all_tools (fst (Coral.create_coralized_agent E))))
    by reflexivity.
  rewrite Hdesc.
  destruct (refused_run E url Hurl Hne Hrefused) as (c & e0 & e1 & e2 & e3 & e4 & ->).
  repeat split; reflexivity.
Qed.

Lemma refused_endpoint_degrades_witness :
  final_state (fst (Coral.create_coralized_agent Sample.refusing)) = Degraded.
Proof.
  apply (refused_endpoint_degrades Sample.refusing "http://localhost:5555/sse").
  - reflexivity.
  - discriminate.
  - intros attempt u. reflexivity.
Defined.

(** C5.  Without a URL, absent or empty, the run makes no attempt and no
    wait: it prints the standalone notice and returns at once with the
    native tools, no client and no error, in the disconnected state. *)
Theorem no_url_is_standalone :
  forall (E : Coral.env),
    Coral.CORAL_SSE_URL E = None \/ Coral.CORAL_SSE_URL E = Some "" ->
    fst (Coral.create_coralized_agent E)
    = Coral.mkLocals Coral.native_tools None [standalone_notice] /\
    snd (Coral.create_coralized_agent E) = Coral.get_tools_description Coral.native_tools /\
    schedule (fst (Coral.create_coralized_agent E)) = [] /\
    final_state (fst (Coral.create_coralized_agent E)) = Disconnected.
Proof.
  intros E [Hurl | Hurl]; unfold Coral.create_coralized_agent; rewrite Hurl;
    repeat split; reflexivity.
Qed.

Lemma no_url_is_standalone_witness :
  Coral.CORAL_SSE_URL Sample.standalone = None /\
  fst (Coral.create_coralized_agent Sample.standalone)
  = Coral.mkLocals Coral.native_tools None [standalone_notice].
Proof.
  split; [reflexivity |].
  apply (no_url_is_standalone Sample.standalone). left. reflexivity.
Defined.

(** ** Text lemmas *)

Lemma append_assoc (a b c : string) : ((a ++ b) ++ c = a ++ (b ++ c))%string.
Proof. induction a as [| x a IH]; simpl; [reflexivity | rewrite IH; reflexivity]. Qed.

Lemma append_nil_r (a : string) : (a ++ "" = a)%string.
Proof. induction a as [| x a IH]; simpl; [reflexivity | rewrite IH; reflexivity]. Qed.

Lemma length_append (a b : string) :
  String.length (a ++ b) = String.length a + String.length b.
Proof. induction a as [| x a IH]; simpl; [reflexivity | rewrite IH; reflexivity]. Qed.

Lemma take_length (n : nat) (s : string) :
  String.length (PyStr.take n s) = Nat.min n (String.length s).
Proof.
  revert s. induction n as [| n IH]; intros [| c s]; simpl; try reflexivity.
  rewrite IH. reflexivity.
Qed.

(** [s[:n]] is the beginning of [s]. *)
Lemma take_is_prefix (n : nat) (s : string) :
  exists rest, s = (PyStr.take n s ++ rest)%string.
Proof.
  revert s. induction n as [| n IH]; intros s.
  - exists s. destruct s; reflexivity.
  - destruct s as [| c s].
    + exists "". reflexivity.
    + destruct (IH s) as [rest Hrest]. exists rest. simpl. rewrite <- Hrest. reflexivity.
Qed.

Lemma take_all (n : nat) (s : string) :
  String.length s <= n -> PyStr.take n s = s.
Proof.
  revert s. induction n as [| n IH]; intros [| c s] H; simpl in *; try reflexivity.
  - lia.
  - rewrite IH by lia. reflexivity.
Qed.

Lemma take_append (a b : string) : PyStr.take (String.length a) (a ++ b) = a.
Proof. induction a as [| x a IH]; simpl; [destruct b; reflexivity | rewrite IH; reflexivity]. Qed.

Lemma first_line_append (a b : string) :
  no_newline a = true -> first_line (a ++ String PyStr.newline b) = a.
Proof.
  induction a as [| c a IH]; simpl; intros H.
  - reflexivity.
  - apply andb_true_iff in H. destruct H as [Hc Ha].
    apply negb_true_iff in Hc. rewrite Hc, (IH Ha). reflexivity.
Qed.

Lemma after_first_line_append (a b : string) :
  no_newline a = true -> after_first_line (a ++ String PyStr.newline b) = b.
Proof.
  induction a as [| c a IH]; simpl; intros H.
  - reflexivity.
  - apply andb_true_iff in H. destruct H as [Hc Ha].
    apply negb_true_iff in Hc. rewrite Hc. exact (IH Ha).
Qed.

Lemma no_newline_append (a b : string) :
  no_newline (a ++ b) = no_newline a && no_newline b.
Proof.
  induction a as [| c a IH]; simpl; [reflexivity |].
  rewrite IH, andb_assoc. reflexivity.
Qed.

Lemma no_newline_uint (d : Decimal.uint) : no_newline (NilEmpty.string_of_uint d) = true.
Proof. induction d; simpl; auto. Qed.

(** The decimal writing of an integer holds no line break. *)
Lemma no_newline_of_Z (z : Z) : no_newline (PyStr.of_Z z) = true.
Proof.
  unfold PyStr.of_Z, NilZero.string_of_int, NilZero.string_of_uint.
  destruct (Z.to_int z) as [d | d]; destruct d; simpl; auto using no_newline_uint.
Qed.

(** ** The summary placeholder *)

(** An [int] within the interpreter's limit is written in full. *)
Lemma str_int_within (z : Z) :
  (Z.abs z < 10 ^ Py.int_max_str_digits)%Z -> Py.str_int z = Py.Ok (PyStr.of_Z z).
Proof.
  intros Hz. apply Z.ltb_lt in Hz. unfold Py.str_int. rewrite Hz. reflexivity.
Qed.

(** C10, as the code has it.  For a [max_length] of at most 4300 digits
    the output of [summarize_paper] is a header line that shows
    [max_length], followed by a body made of the first 200 characters of
    the input inside a fixed template.  The body does not depend on
    [max_length]: whatever its value within that limit, at most 200
    characters of the input are included, and exactly 200 when the input
    has that many. *)
Theorem summary_includes_first_200 :
  forall (paper_text : string) (max_length : Z),
    (Z.abs max_length < 10 ^ Py.int_max_str_digits)%Z ->
    exists out,
      Agent.summarize_paper paper_text max_length = Py.Ok out /\
      first_line out = "Paper Summary (max " ++ PyStr.of_Z max_length ++ " words):" /\
      after_first_line out = summary_body (PyStr.take 200 paper_text) /\
      (exists rest, paper_text = PyStr.take 200 paper_text ++ rest) /\
      String.length (PyStr.take 200 paper_text) = Nat.min 200 (String.length paper_text) /\
      (forall max_length',
          (Z.abs max_length' < 10 ^ Py.int_max_str_digits)%Z ->
          exists out',
            Agent.summarize_paper paper_text max_length' = Py.Ok out' /\
            after_first_line out' = after_first_line out).
Proof.
  assert (Hshape : forall paper_text max_length,
             (Z.abs max_length < 10 ^ Py.int_max_str_digits)%Z ->
             Agent.summarize_paper paper_text max_length
             = Py.Ok (("Paper Summary (max " ++ PyStr.of_Z max_length ++ " words):") ++
                      String PyStr.newline (summary_body (PyStr.take 200 paper_text)))).
  { intros paper_text max_length Hz. unfold Agent.summarize_paper, summary_body.
    rewrite (str_int_within max_length Hz). cbn [Rt.rbind].
    rewrite !append_assoc. reflexivity. }
  assert (Hheader : forall max_length,
             no_newline ("Paper Summary (max " ++ PyStr.of_Z max_length ++ " words):") = true).
  { intros. rewrite !no_newline_append, no_newline_of_Z. reflexivity. }
  intros paper_text max_length Hz.
  eexists. split; [apply Hshape; exact Hz |].
  split; [apply first_line_append, Hheader |].
  split; [apply after_first_line_append, Hheader |].
  split; [apply take_is_prefix |].
  split; [apply take_length |].
  intros max_length' Hz'.
  eexists. split; [apply Hshape; exact Hz' |].
  rewrite !after_first_line_append by apply Hheader. reflexivity.
Qed.

Lemma summary_includes_first_200_witness :
  (Z.abs 500 < 10 ^ Py.int_max_str_digits)%Z /\
  exists out,
    Agent.summarize_paper "Agents cooperate through a shared protocol." 500 = Py.Ok out /\
    first_line out = "Paper Summary (max 500 words):" /\
    after_first_line out
    = summary_body (PyStr.take 200 "Agents cooperate through a shared protocol.").
Proof.
  assert (Hz : (Z.abs 500 < 10 ^ Py.int_max_str_digits)%Z) by (vm_compute; reflexivity).
  split; [exact Hz |].
  destruct (summary_includes_first_200 "Agents cooperate through a shared protocol." 500 Hz)
    as (out & Hrun & Hfirst & Hafter & _).
  exists out. split; [exact Hrun |]. split; [exact Hfirst | exact Hafter].
Defined.

(** C10, as stated, fails: a [max_length] of 4301 digits is not written,
    so the call raises and there is no output at all. *)
Lemma summary_refuses_long_max_length :
  Agent.summarize_paper "Agents cooperate through a shared protocol." (10 ^ 4300)
  = Py.Raise (mkExn ValueError
                ("Exceeds the limit (4300 digits) for integer string conversion; " ++
                 "use sys.set_int_max_str_digits() to increase the limit")).
Proof. vm_compute. reflexivity. Qed.

(** ** Report files *)

Lemma lower_char_underscore : PyStr.lower_char "_" = "_"%char.
Proof. reflexivity. Qed.

(** The slug is the topic, character by character: nothing is removed. *)
Lemma slug_is_map (topic : string) : Agent.slug topic = map_chars slug_char topic.
Proof.
  unfold Agent.slug.
  induction topic as [| c topic IH]; [reflexivity |].
  cbn [PyStr.replace_char map_chars]. unfold slug_char at 1.
  destruct (Ascii.eqb c " ").
  - cbn [append PyStr.lower]. rewrite IH. reflexivity.
  - cbn [PyStr.lower]. rewrite IH. reflexivity.
Qed.

Lemma map_chars_length (f : ascii -> ascii) (s : string) :
  String.length (map_chars f s) = String.length s.
Proof. induction s as [| c s IH]; simpl; [reflexivity | rewrite IH; reflexivity]. Qed.

(** C8, as the code has it.  When the file can be opened, the report is
    saved under [report_<slug>_<stamp>.<extension>], where the slug is
    the topic with every space turned into an underscore and every
    upper-case letter lowered, all other characters being kept, the
    stamp is the second clock reading of the call as [YYYYMMDD_HHMM], and
    the extension is [md] for markdown and the format text itself
    otherwise: [json] for json, [text] for text. *)
Theorem report_saved_under_slug_and_stamp :
  forall (E : Rt.env) (topic findings format_type : string) (w : Rt.world),
    Rt.open_write E
      (Agent.report_filename topic format_type (Rt.clock E (S (Rt.ticks w)))) = None ->
    Rt.reports (snd (Agent.generate_report E topic findings format_type w))
    = (Agent.report_filename topic format_type (Rt.clock E (S (Rt.ticks w))),
       Agent.render_report topic findings format_type
         (Datetime.strftime_minute (Rt.clock E (Rt.ticks w))))
      :: Rt.reports w /\
    (forall t, Agent.report_filename topic format_type t
               = "report_" ++ map_chars slug_char topic ++ "_" ++
                 Datetime.strftime_compact t ++ "." ++
                 (if String.eqb format_type "markdown" then "md" else format_type)) /\
    String.length (Agent.slug topic) = String.length topic /\
    Agent.extension "markdown" = "md" /\
    Agent.extension "json" = "json" /\
    Agent.extension "text" = "text".
Proof.
  intros E topic findings format_type w Hopen.
  split.
  { unfold Agent.generate_report, Rt.bind, Rt.now, Rt.try_except, Rt.write_report,
      Rt.check, Rt.ret.
    cbn [Rt.ticks Rt.log_file Rt.reports].
    rewrite Hopen. reflexivity. }
  split.
  { intros t. unfold Agent.report_filename, Agent.extension.
    rewrite slug_is_map. destruct (String.eqb format_type "markdown"); reflexivity. }
  split.
  { rewrite slug_is_map. apply map_chars_length. }
  repeat split; reflexivity.
Qed.

Lemma report_saved_under_slug_and_stamp_witness :
  Rt.reports (snd (Agent.generate_report Sample.quiet "AI Agents" "Finding A" "text"
                                         Sample.fresh))
  = [("report_ai_agents_20261103_0906.text",
      "RESEARCH REPORT: AI Agents" ++ PyStr.nl ++ "Generated: 2026-11-03 09:05" ++ PyStr.nl ++
      PyStr.nl ++ "Finding A" ++ PyStr.nl)].
Proof.
  apply (report_saved_under_slug_and_stamp Sample.quiet "AI Agents" "Finding A" "text"
           Sample.fresh).
  reflexivity.
Defined.

(** C8, as stated, fails: the slash of the topic is kept in the file
    name, and a report in the text format gets the extension [text]. *)
Lemma report_name_keeps_slash_and_text :
  Rt.reports (snd (Agent.generate_report Sample.quiet "A/B c" "Finding A" "text"
                                         Sample.fresh))
  = [("report_a/b_c_20261103_0906.text",
      "RESEARCH REPORT: A/B c" ++ PyStr.nl ++ "Generated: 2026-11-03 09:05" ++ PyStr.nl ++
      PyStr.nl ++ "Finding A" ++ PyStr.nl)] /\
  PyStr.contains "/" (Agent.slug "A/B c") = true /\
  Agent.extension "text" <> "txt".
Proof.
  split; [reflexivity |].
  split; [reflexivity |].
  discriminate.
Qed.

(** ** Reading the log *)

Lemma getitem_get (d : Py.dict) (k : string) (v default : value) :
  Py.getitem d k = Py.Ok v -> Py.get d k default = v.
Proof.
  induction d as [| [k' v'] d IH]; simpl.
  - discriminate.
  - destruct (String.eqb k k'); [congruence | exact IH].
Qed.

(** What [text_fields] says, field by field. *)
Lemma text_fields_inv (l : Py.dict) :
  text_fields l = true ->
  Py.getitem l "timestamp" = Py.Ok (VStr (field l "timestamp")) /\
  Py.getitem l "competitor" = Py.Ok (VStr (field l "competitor")) /\
  Py.getitem l "activity" = Py.Ok (VStr (field l "activity")).
Proof.
  unfold text_fields, field. intros H.
  destruct (Py.getitem l "timestamp") as [[| | | ts] |] eqn:Hts; try discriminate.
  destruct (Py.getitem l "competitor") as [[| | | c] |] eqn:Hc; try discriminate.
  destruct (Py.getitem l "activity") as [[| | | a] |] eqn:Ha; try discriminate.
  rewrite (getitem_get _ _ _ _ Hts), (getitem_get _ _ _ _ Hc), (getitem_get _ _ _ _ Ha).
  repeat split; reflexivity.
Qed.

Lemma format_log_text (l : Py.dict) :
  text_fields l = true -> Server.format_log l = Py.Ok (line_of l).
Proof.
  intros H. destruct (text_fields_inv l H) as (Hts & Hc & Ha).
  unfold Server.format_log, line_of. rewrite Hts, Hc, Ha. reflexivity.
Qed.

Lemma format_logs_text (ls : list Py.dict) :
  forallb text_fields ls = true -> Rt.rmap Server.format_log ls = Py.Ok (map line_of ls).
Proof.
  induction ls as [| l ls IH]; simpl; intros H.
  - reflexivity.
  - apply andb_true_iff in H. destruct H as [Hl Hls].
    rewrite (format_log_text l Hl). simpl. rewrite (IH Hls). reflexivity.
Qed.

Lemma matches_text (f : string) (l : Py.dict) :
  text_fields l = true ->
  Server.matches (VStr f) l = Py.Ok (contains_ci f (field l "competitor")).
Proof.
  intros H. destruct (text_fields_inv l H) as (_ & Hc & _).
  unfold Server.matches. rewrite (getitem_get _ _ _ _ Hc). reflexivity.
Qed.

(** On entries with text fields the comprehension is a plain filter. *)
Lemma filter_logs_text (f : string) (logs : list Py.dict) :
  forallb text_fields logs = true ->
  Server.filter_logs (VStr f) logs
  = Py.Ok (filter (fun l => contains_ci f (field l "competitor")) logs).
Proof.
  induction logs as [| l logs IH]; simpl; intros H.
  - reflexivity.
  - apply andb_true_iff in H. destruct H as [Hl Hlogs].
    rewrite (matches_text f l Hl). simpl. rewrite (IH Hlogs). simpl.
    destruct (contains_ci f (field l "competitor")); reflexivity.
Qed.

Lemma contains_ci_empty (hay : string) : contains_ci "" hay = true.
Proof. unfold contains_ci. destruct (PyStr.lower hay); reflexivity. Qed.

Lemma filter_all {A} (p : A -> bool) (l : list A) :
  (forall a, p a = true) -> filter p l = l.
Proof.
  intros Hp. induction l as [| a l IH]; simpl; [reflexivity |].
  rewrite Hp, IH. reflexivity.
Qed.

Lemma forallb_filter {A} (p q : A -> bool) (l : list A) :
  forallb p l = true -> forallb p (filter q l) = true.
Proof.
  induction l as [| a l IH]; simpl; intros H; [reflexivity |].
  apply andb_true_iff in H. destruct H as [Ha Hl].
  destruct (q a); simpl; [rewrite Ha |]; auto.
Qed.

Lemma forallb_skipn {A} (p : A -> bool) (n : nat) (l : list A) :
  forallb p l = true -> forallb p (skipn n l) = true.
Proof.
  revert l. induction n as [| n IH]; intros [| a l] H; simpl in *; auto.
  apply andb_true_iff in H. destruct H as [_ Hl]. auto.
Qed.

(** [l[-n:]] for a positive [n] is the last [n] elements. *)
Lemma slice_from_neg {A} (n : Z) (l : list A) :
  (0 < n)%Z -> Py.slice_from (- n) l = last_n (Z.to_nat n) l.
Proof.
  intros Hn. unfold Py.slice_from, last_n.
  assert (Hneg : (- n <? 0)%Z = true) by (apply Z.ltb_lt; lia).
  rewrite Hneg. f_equal. lia.
Qed.

(** [l[-0:]] is the whole list. *)
Lemma slice_from_zero {A} (l : list A) : Py.slice_from 0 l = l.
Proof. unfold Py.slice_from. simpl. destruct l; reflexivity. Qed.

Lemma last_n_all {A} (n : nat) (l : list A) :
  List.length l <= n -> last_n n l = l.
Proof. intros H. unfold last_n. replace (List.length l - n) with 0 by lia. reflexivity. Qed.

Lemma last_n_length {A} (n : nat) (l : list A) :
  List.length (last_n n l) = Nat.min n (List.length l).
Proof. unfold last_n. rewrite length_skipn. lia. Qed.

(** A query on a readable log file whose selection is known. *)
Lemma handle_get_logs_run (E : Rt.env) (arguments : Py.dict) (w : Rt.world)
      (logs selected : list Py.dict) :
  Rt.log_file w = Some (Rt.Logs logs) ->
  Rt.open_read E Rt.log_name = None ->
  Server.select_logs (Py.get arguments "competitor" (VStr ""))
                     (Py.get arguments "limit" (VInt 50)) logs = Py.Ok selected ->
  forallb text_fields selected = true ->
  Server.handle_get_logs E arguments w
  = (Py.Ok [Server.text_content (shown selected)], w).
Proof.
  intros Hfile Hread Hselect Htext.
  unfold Server.handle_get_logs, Rt.try_except, Rt.bind, Rt.log_exists, Rt.load_logs,
    Rt.bind, Rt.check, Rt.lift, Rt.ret.
  rewrite Hfile. cbn [negb]. rewrite Hread. cbn beta iota. rewrite Hfile, Hselect.
  destruct selected as [| l ls]; [reflexivity |].
  rewrite (format_logs_text _ Htext). reflexivity.
Qed.

(** When the test of the comprehension raises nothing, it is containment
    without regard to case. *)
Lemma matches_ok (f : string) (l : Py.dict) (keep : bool) :
  Server.matches (VStr f) l = Py.Ok keep ->
  keep = contains_ci f (field l "competitor").
Proof.
  unfold Server.matches, field, contains_ci.
  destruct (Py.get l "competitor" (VStr "")) as [| b | z | s];
    cbn [Py.lower Rt.rbind]; intros H; try discriminate H.
  injection H as <-. reflexivity.
Qed.

(** When the comprehension raises nothing, it is a plain filter, on any
    array. *)
Lemma filter_logs_ok (f : string) (logs kept : list Py.dict) :
  Server.filter_logs (VStr f) logs = Py.Ok kept ->
  kept = filter (fun l => contains_ci f (field l "competitor")) logs.
Proof.
  revert kept. induction logs as [| l logs IH]; intros kept H.
  - injection H as <-. reflexivity.
  - cbn [Server.filter_logs] in H.
    destruct (Server.matches (VStr f) l) as [keep | e] eqn:Hl; [| discriminate H].
    cbn [Rt.rbind] in H.
    destruct (Server.filter_logs (VStr f) logs) as [rest | e]; [| discriminate H].
    cbn [Rt.rbind] in H. injection H as <-.
    cbn [filter]. rewrite <- (matches_ok f l keep Hl), <- (IH rest eq_refl). reflexivity.
Qed.

(** [logs[-0:]] on any list. *)
Lemma most_recent_zero (l : list Py.dict) : Server.most_recent (VInt 0) l = Py.Ok l.
Proof.
  unfold Server.most_recent. cbn [Py.neg Rt.rbind Z.opp].
  rewrite slice_from_zero. reflexivity.
Qed.

(** C9.  A limit of zero selects everything.  [logs[-0:]] is the whole
    list, so on a readable log whose entries carry text fields a query
    with [limit = 0] selects every entry whose competitor contains the
    filter without regard to case, in insertion order, and returns a line
    for each of them; it returns the sentinel text only when no entry
    matches.  On any array, whenever such a query selects at all, what it
    selects is every matching entry. *)
Theorem limit_zero_returns_every_match :
  forall (E : Rt.env) (logs : list Py.dict) (f : string) (w : Rt.world),
    forallb text_fields logs = true ->
    Rt.log_file w = Some (Rt.Logs logs) ->
    Rt.open_read E Rt.log_name = None ->
    Server.most_recent (VInt 0)
      (filter (fun l => contains_ci f (field l "competitor")) logs)
    = Py.Ok (filter (fun l => contains_ci f (field l "competitor")) logs) /\
    Server.select_logs (VStr f) (VInt 0) logs
    = Py.Ok (filter (fun l => contains_ci f (field l "competitor")) logs) /\
    Server.handle_get_logs E [("competitor", VStr f); ("limit", VInt 0)] w
    = (Py.Ok [Server.text_content
                (shown (filter (fun l => contains_ci f (field l "competitor")) logs))],
       w) /\
    (filter (fun l => contains_ci f (field l "competitor")) logs <> [] ->
     shown (filter (fun l => contains_ci f (field l "competitor")) logs)
     = PyStr.join PyStr.nl
         (map line_of (filter (fun l => contains_ci f (field l "competitor")) logs))) /\
    (forall (any_logs selected : list Py.dict),
        Server.select_logs (VStr f) (VInt 0) any_logs = Py.Ok selected ->
        selected = filter (fun l => contains_ci f (field l "competitor")) any_logs).
Proof.
  intros E logs f w Htext Hfile Hread.
  set (matched := filter (fun l => contains_ci f (field l "competitor")) logs).
  assert (Hselect : Server.select_logs (VStr f) (VInt 0) logs = Py.Ok matched).
  { unfold Server.select_logs.
    destruct (Py.truthy (VStr f)) eqn:Htruthy.
    - rewrite (filter_logs_text f logs Htext). cbn [Rt.rbind]. apply most_recent_zero.
    - cbn [Rt.rbind]. rewrite most_recent_zero.
      destruct f; [| discriminate Htruthy].
      unfold matched. rewrite (filter_all _ logs); [reflexivity |].
      intros l. apply contains_ci_empty. }
  split; [apply most_recent_zero |].
  split; [exact Hselect |].
  split.
  { apply (handle_get_logs_run E _ w logs matched Hfile Hread).
    - exact Hselect.
    - unfold matched. apply forallb_filter. exact Htext. }
  split.
  { intros Hsome. unfold shown. destruct matched; [congruence | reflexivity]. }
  intros any_logs selected Hany.
  unfold Server.select_logs in Hany.
  destruct (Py.truthy (VStr f)) eqn:Htruthy.
  - destruct (Server.filter_logs (VStr f) any_logs) as [kept | e] eqn:Hkept;
      [| discriminate Hany].
    cbn [Rt.rbind] in Hany. rewrite most_recent_zero in Hany. injection Hany as <-.
    apply filter_logs_ok. exact Hkept.
  - cbn [Rt.rbind] in Hany. rewrite most_recent_zero in Hany. injection Hany as <-.
    destruct f; [| discriminate Htruthy].
    symmetry. apply filter_all. intros l. apply contains_ci_empty.
Qed.

(** Two of three entries match [google]: both come back, the older one
    too, where a limit of one keeps the newer one only. *)
Lemma limit_zero_returns_every_match_witness :
  Server.handle_get_logs Sample.quiet [("competitor", VStr "google"); ("limit", VInt 0)]
                         Fixture.logged_thrice
  = (Py.Ok [Server.text_content
              ("[2026-11-03] Google A2A: Released a new protocol draft..." ++ PyStr.nl ++
               "[2026-11-03] Google A2A: Joined a working group...")],
     Fixture.logged_thrice) /\
  Server.handle_get_logs Sample.quiet [("competitor", VStr "google"); ("limit", VInt 1)]
                         Fixture.logged_thrice
  = (Py.Ok [Server.text_content "[2026-11-03] Google A2A: Joined a working group..."],
     Fixture.logged_thrice).
Proof.
  split; [| reflexivity].
  destruct (limit_zero_returns_every_match Sample.quiet Fixture.three_logs "google"
              Fixture.logged_thrice eq_refl eq_refl eq_refl) as (_ & _ & Hrun & _).
  rewrite Hrun. reflexivity.
Defined.

(** C7, as the code has it.  On a readable log whose entries carry text
    fields, for every filter text and every limit of at least one, the
    query selects the last [limit] of the entries whose competitor
    contains the filter without regard to case, in insertion order, and
    returns them as one text, a line per entry; when no entry matches it
    returns the text [No matching logs found.], which is not a failure
    message. *)
Theorem query_returns_most_recent_matches :
  forall (E : Rt.env) (logs : list Py.dict) (f : string) (n : Z) (w : Rt.world),
    forallb text_fields logs = true ->
    (0 < n)%Z ->
    Rt.log_file w = Some (Rt.Logs logs) ->
    Rt.open_read E Rt.log_name = None ->
    Server.select_logs (VStr f) (VInt n) logs
    = Py.Ok (last_n (Z.to_nat n)
               (filter (fun l => contains_ci f (field l "competitor")) logs)) /\
    (exists older,
        filter (fun l => contains_ci f (field l "competitor")) logs
        = (older ++ last_n (Z.to_nat n)
                      (filter (fun l => contains_ci f (field l "competitor")) logs))%list) /\
    List.length (last_n (Z.to_nat n)
                   (filter (fun l => contains_ci f (field l "competitor")) logs))
    = Nat.min (Z.to_nat n)
              (List.length (filter (fun l => contains_ci f (field l "competitor")) logs)) /\
    Server.handle_get_logs E [("competitor", VStr f); ("limit", VInt n)] w
    = (Py.Ok [Server.text_content
                (shown (last_n (Z.to_nat n)
                          (filter (fun l => contains_ci f (field l "competitor")) logs)))],
       w) /\
    (filter (fun l => contains_ci f (field l "competitor")) logs = [] ->
     Server.handle_get_logs E [("competitor", VStr f); ("limit", VInt n)] w
     = (Py.Ok [Server.text_content "No matching logs found."], w) /\
     reports_failure [Server.text_content "No matching logs found."] = false).
Proof.
  intros E logs f n w Htext Hn Hfile Hread.
  set (matched := filter (fun l => contains_ci f (field l "competitor")) logs).
  assert (Hselect : Server.select_logs (VStr f) (VInt n) logs
                    = Py.Ok (last_n (Z.to_nat n) matched)).
  { unfold Server.select_logs, Server.most_recent.
    destruct (Py.truthy (VStr f)) eqn:Htruthy.
    - rewrite (filter_logs_text f logs Htext). cbn [Rt.rbind Py.neg].
      rewrite (slice_from_neg n _ Hn). reflexivity.
    - cbn [Rt.rbind Py.neg]. rewrite (slice_from_neg n _ Hn).
      destruct f; [| discriminate Htruthy].
      unfold matched. rewrite (filter_all _ logs); [reflexivity |].
      intros l. apply contains_ci_empty. }
  assert (Hrun : Server.handle_get_logs E [("competitor", VStr f); ("limit", VInt n)] w
                 = (Py.Ok [Server.text_content (shown (last_n (Z.to_nat n) matched))], w)).
  { apply (handle_get_logs_run E _ w logs _ Hfile Hread).
    - exact Hselect.
    - unfold last_n. apply forallb_skipn. unfold matched. apply forallb_filter. exact Htext. }
  split; [exact Hselect |].
  split.
  { exists (firstn (List.length matched - Z.to_nat n) matched).
    unfold last_n. symmetry. apply firstn_skipn. }
  split; [apply last_n_length |].
  split; [exact Hrun |].
  intros Hnone. rewrite Hrun, Hnone. split; reflexivity.
Qed.

Lemma query_returns_most_recent_matches_witness :
  Server.handle_get_logs Sample.quiet [("competitor", VStr "google"); ("limit", VInt 1)]
                         Sample.logged
  = (Py.Ok [Server.text_content
              "[2026-11-03] Google A2A: Released a new protocol draft..."],
     Sample.logged).
Proof.
  apply (query_returns_most_recent_matches Sample.quiet Sample.two_logs "google" 1
                                           Sample.logged);
    reflexivity.
Defined.

(** C7, as stated, fails in two ways: with a limit of zero the query
    selects both entries instead of none, and a filter that matches
    nothing gets one text back, not an empty sequence. *)
Lemma query_limit_zero_and_no_match :
  Server.select_logs (VStr "") (VInt 0) Sample.two_logs = Py.Ok Sample.two_logs /\
  last_n 0 Sample.two_logs = [] /\
  Server.handle_get_logs Sample.quiet [("competitor", VStr "anp")] Sample.logged
  = (Py.Ok [Server.text_content "No matching logs found."], Sample.logged) /\
  [Server.text_content "No matching logs found."] <> [].
Proof.
  split; [reflexivity |].
  split; [reflexivity |].
  split; [reflexivity |].
  discriminate.
Qed.

(** ** Timestamps *)

Lemma digit_value_digit (n : nat) : Datetime.digit_value (Datetime.digit n) = Some (n mod 10).
Proof.
  unfold Datetime.digit_value, Datetime.digit.
  assert (Hlt : n mod 10 < 10) by (apply Nat.mod_upper_bound; lia).
  rewrite nat_ascii_embedding by lia.
  replace (48 <=? 48 + n mod 10)%nat with true by (symmetry; apply Nat.leb_le; lia).
  replace (48 + n mod 10 <=? 57)%nat with true by (symmetry; apply Nat.leb_le; lia).
  cbn [andb]. f_equal. lia.
Qed.

Lemma pad_length (width n : nat) : String.length (Datetime.pad width n) = width.
Proof.
  revert n. induction width as [| width IH]; intros n; cbn [Datetime.pad].
  - reflexivity.
  - rewrite length_append, IH. simpl. lia.
Qed.

(** Reading back a padded number, in front of anything. *)
Lemma read_digits_pad (width : nat) :
  forall k acc n rest,
    n < 10 ^ width ->
    Datetime.read_digits (width + k) acc (Datetime.pad width n ++ rest)
    = Datetime.read_digits k (acc * 10 ^ width + n) rest.
Proof.
  induction width as [| width IH]; intros k acc n rest Hn.
  - simpl in Hn. assert (n = 0) by lia. subst n.
    cbn [Datetime.pad append Nat.add]. f_equal. simpl. lia.
  - cbn [Datetime.pad]. rewrite append_assoc. cbn [append].
    replace (S width + k) with (width + S k) by lia.
    assert (Hdiv : n / 10 < 10 ^ width).
    { apply Nat.Div0.div_lt_upper_bound. rewrite Nat.pow_succ_r' in Hn. lia. }
    rewrite (IH (S k) acc (n / 10) _ Hdiv).
    cbn [Datetime.read_digits]. rewrite digit_value_digit.
    f_equal. rewrite Nat.pow_succ_r'.
    pose proof (Nat.div_mod_eq n 10). lia.
Qed.

Lemma read_digits_field (width n : nat) (rest : string) :
  n < 10 ^ width ->
  Datetime.read_digits width 0 (Datetime.pad width n ++ rest) = Some (n, rest).
Proof.
  intros Hn. pose proof (read_digits_pad width 0 0 n rest Hn) as H.
  rewrite Nat.add_0_r in H. rewrite H. reflexivity.
Qed.

(** [isoformat] writes a timestamp that reads back as the same value. *)
Lemma parse_isoformat (d : Datetime.t) :
  Datetime.valid d = true -> Datetime.parse_iso (Datetime.isoformat d) = Some d.
Proof.
  destruct d as [y mo dd h mi se us]. unfold Datetime.valid.
  cbn [Datetime.year Datetime.month Datetime.day Datetime.hour Datetime.minute
       Datetime.second Datetime.microsecond].
  rewrite !andb_true_iff, !Nat.leb_le, !Nat.ltb_lt.
  intros (((((((((Hy1 & Hy) & Hmo1) & Hmo) & Hd1) & Hd) & Hh) & Hmi) & Hse) & Hus).
  assert (Hdd : dd <= 31).
  { unfold Datetime.days_in_month in Hd.
    repeat match type of Hd with
           | context [match ?x with _ => _ end] => destruct x
           end; lia. }
  unfold Datetime.parse_iso, Datetime.isoformat, Datetime.date_part.
  cbn [Datetime.year Datetime.month Datetime.day Datetime.hour Datetime.minute
       Datetime.second Datetime.microsecond].
  rewrite !append_assoc. cbn [append].
  rewrite read_digits_field by exact Hy. cbn [Datetime.read_char Ascii.eqb Bool.eqb].
  rewrite read_digits_field by (simpl; lia). cbn [Datetime.read_char Ascii.eqb Bool.eqb].
  rewrite read_digits_field by (simpl; lia). cbn [Datetime.read_char Ascii.eqb Bool.eqb].
  rewrite read_digits_field by (simpl; lia). cbn [Datetime.read_char Ascii.eqb Bool.eqb].
  rewrite read_digits_field by (simpl; lia). cbn [Datetime.read_char Ascii.eqb Bool.eqb].
  rewrite read_digits_field by (simpl; lia).
  destruct (us =? 0)%nat eqn:Hzero.
  - apply Nat.eqb_eq in Hzero. subst us. reflexivity.
  - cbn [append Datetime.read_fraction Datetime.read_char Ascii.eqb Bool.eqb].
    rewrite <- (append_nil_r (Datetime.pad 6 us)).
    rewrite read_digits_field by exact Hus. reflexivity.
Qed.

Lemma isoformat_is_iso8601 (d : Datetime.t) :
  Datetime.valid d = true -> Datetime.is_iso8601 (Datetime.isoformat d) = true.
Proof. intros H. unfold Datetime.is_iso8601. rewrite (parse_isoformat d H). exact H. Qed.

(** The first ten characters of a timestamp are its date. *)
Lemma take_date (d : Datetime.t) :
  PyStr.take 10 (Datetime.isoformat d) = Datetime.date_part d.
Proof.
  assert (Hlen : String.length (Datetime.date_part d) = 10).
  { unfold Datetime.date_part. rewrite !length_append, !pad_length. reflexivity. }
  unfold Datetime.isoformat. rewrite <- Hlen at 1. apply take_append.
Qed.

(** ** Writing the log, then reading it *)

(** One request on a log that can be read and written: the entry goes to
    the end of the array, whichever way the request came in. *)
Lemma log_activity_appends (E : Rt.env) (r : request) (w : Rt.world) (logs : list Py.dict) :
  Rt.open_read E Rt.log_name = None ->
  Rt.open_write E Rt.log_name = None ->
  stored w = Some logs ->
  log_activity E r w
  = Rt.mkWorld (S (Rt.ticks w))
               (Some (Rt.Logs (logs ++ [entry_of E (Rt.ticks w) r])%list))
               (Rt.reports w).
Proof.
  intros Hread Hwrite Hstored.
  unfold log_activity, stored in *.
  destruct r as [[|] c a s]; cbn [via req_competitor req_activity req_source].
  - unfold Server.call_tool. cbn [String.eqb Ascii.eqb Bool.eqb].
    unfold Server.handle_track_competitor, Rt.try_except, Rt.bind, Rt.now, Rt.log_exists,
      Rt.load_logs, Rt.dump_logs, Rt.bind, Rt.check, Rt.lift, Rt.ret.
    cbn [Rt.ticks Rt.log_file Rt.reports].
    destruct (Rt.log_file w) as [[l | e] |]; [| discriminate |];
      injection Hstored as <-; rewrite ?Hread, Hwrite; reflexivity.
  - unfold Agent.track_competitor, Rt.try_except, Rt.bind, Rt.now, Rt.log_exists,
      Rt.load_logs, Rt.dump_logs, Rt.bind, Rt.check, Rt.lift, Rt.ret.
    cbn [Rt.ticks Rt.log_file Rt.reports].
    destruct (Rt.log_file w) as [[l | e] |]; [| discriminate |];
      injection Hstored as <-; rewrite ?Hread, Hwrite; reflexivity.
Qed.

(** A sequence of requests, one after the other. *)
Lemma log_all_appends (E : Rt.env) (rs : list request) :
  Rt.open_read E Rt.log_name = None ->
  Rt.open_write E Rt.log_name = None ->
  forall (w : Rt.world) (logs : list Py.dict),
    stored w = Some logs ->
    rs <> [] ->
    log_all E rs w
    = Rt.mkWorld (Rt.ticks w + List.length rs)
                 (Some (Rt.Logs (logs ++ entries_from E (Rt.ticks w) rs)%list))
                 (Rt.reports w).
Proof.
  intros Hread Hwrite.
  induction rs as [| r rs IH]; intros w logs Hstored Hne; [congruence |].
  cbn [log_all entries_from List.length].
  rewrite (log_activity_appends E r w logs Hread Hwrite Hstored).
  destruct rs as [| r' rs].
  - cbn [log_all entries_from List.length]. f_equal. lia.
  - rewrite (IH _ (logs ++ [entry_of E (Rt.ticks w) r])%list); [| reflexivity | discriminate].
    cbn [Rt.ticks Rt.reports]. rewrite <- app_assoc. f_equal. lia.
Qed.

Lemma entries_from_length (E : Rt.env) (rs : list request) (n : nat) :
  List.length (entries_from E n rs) = List.length rs.
Proof. revert n. induction rs as [| r rs IH]; intros n; simpl; auto. Qed.

Lemma entries_from_last (E : Rt.env) (rs : list request) (r0 : request) :
  rs <> [] ->
  forall n, last (entries_from E n rs) [] = entry_of E (n + List.length rs - 1) (last rs r0).
Proof.
  induction rs as [| r rs IH]; intros Hne n; [congruence |].
  destruct rs as [| r' rs].
  - simpl. f_equal. lia.
  - change (last (entries_from E n (r :: r' :: rs)) [])
      with (last (entries_from E (S n) (r' :: rs)) []).
    change (last (r :: r' :: rs) r0) with (last (r' :: rs) r0).
    rewrite IH by discriminate. f_equal. simpl. lia.
Qed.

Lemma entries_from_text (E : Rt.env) (rs : list request) (n : nat) :
  forallb text_fields (entries_from E n rs) = true.
Proof. revert n. induction rs as [| r rs IH]; intros n; simpl; auto. Qed.

Lemma entries_from_iso (E : Rt.env) (rs : list request) :
  (forall i, Datetime.valid (Rt.clock E i) = true) ->
  forall n, Forall (fun e => Datetime.is_iso8601 (field e "timestamp") = true)
                   (entries_from E n rs).
Proof.
  intros Hclock. induction rs as [| r rs IH]; intros n; simpl; constructor.
  - apply isoformat_is_iso8601, Hclock.
  - apply IH.
Qed.

Lemma sample_clock_valid (i : nat) : Datetime.valid (Rt.clock Sample.quiet i) = true.
Proof.
  unfold Sample.quiet, Sample.clock, Datetime.valid.
  cbn [Rt.clock Datetime.year Datetime.month Datetime.day Datetime.hour Datetime.minute
       Datetime.second Datetime.microsecond].
  assert (Hminute : ((5 + i) mod 60 <? 60)%nat = true)
    by (apply Nat.ltb_lt, Nat.mod_upper_bound; lia).
  rewrite Hminute. vm_compute. reflexivity.
Qed.

(** C6, as the code has it.  Starting from an empty store (no file, or an
    empty array) that can be read and written, [N >= 1] requests made one
    after the other, through the server or through the agent's tool,
    leave in the file exactly [N] entries in the order of the requests,
    each holding the three texts of its request and the clock reading of
    its call in ISO-8601.  A query without filter and with a limit of at
    least [N] selects these [N] entries in that order; what it returns
    is one text with a line per entry, showing the date of the timestamp,
    the competitor and the first 80 characters of the activity. *)
Theorem log_round_trip :
  forall (E : Rt.env) (rs : list request) (w : Rt.world) (limit : nat),
    Rt.open_read E Rt.log_name = None ->
    Rt.open_write E Rt.log_name = None ->
    stored w = Some [] ->
    (forall i, Datetime.valid (Rt.clock E i) = true) ->
    rs <> [] ->
    List.length rs <= limit ->
    Rt.log_file (log_all E rs w) = Some (Rt.Logs (entries_from E (Rt.ticks w) rs)) /\
    List.length (entries_from E (Rt.ticks w) rs) = List.length rs /\
    (forall r0, last (entries_from E (Rt.ticks w) rs) []
                = entry_of E (Rt.ticks w + List.length rs - 1) (last rs r0)) /\
    Forall (fun e => Datetime.is_iso8601 (field e "timestamp") = true)
           (entries_from E (Rt.ticks w) rs) /\
    Server.select_logs (VStr "") (VInt (Z.of_nat limit)) (entries_from E (Rt.ticks w) rs)
    = Py.Ok (entries_from E (Rt.ticks w) rs) /\
    Server.handle_get_logs E [("limit", VInt (Z.of_nat limit))] (log_all E rs w)
    = (Py.Ok [Server.text_content
                (PyStr.join PyStr.nl (map line_of (entries_from E (Rt.ticks w) rs)))],
       log_all E rs w) /\
    (forall n r, line_of (entry_of E n r)
                 = "[" ++ Datetime.date_part (Rt.clock E n) ++ "] " ++ req_competitor r ++
                   ": " ++ PyStr.take 80 (req_activity r) ++ "...").
Proof.
  intros E rs w limit Hread Hwrite Hempty Hclock Hne Hlimit.
  set (es := entries_from E (Rt.ticks w) rs).
  assert (Hlen : List.length es = List.length rs) by apply entries_from_length.
  assert (Hfile : Rt.log_file (log_all E rs w) = Some (Rt.Logs es)).
  { rewrite (log_all_appends E rs Hread Hwrite w [] Hempty Hne). reflexivity. }
  assert (Hselect : Server.select_logs (VStr "") (VInt (Z.of_nat limit)) es = Py.Ok es).
  { unfold Server.select_logs, Server.most_recent. cbn [Py.truthy PyStr.is_empty negb Rt.rbind Py.neg].
    assert (Hpos : (0 < Z.of_nat limit)%Z).
    { destruct rs; [congruence | simpl in Hlimit; lia]. }
    rewrite (slice_from_neg _ _ Hpos), Nat2Z.id, last_n_all by lia. reflexivity. }
  split; [exact Hfile |].
  split; [exact Hlen |].
  split; [intros r0; apply entries_from_last; exact Hne |].
  split; [apply entries_from_iso; exact Hclock |].
  split; [exact Hselect |].
  split.
  - rewrite (handle_get_logs_run E [("limit", VInt (Z.of_nat limit))]
               (log_all E rs w) es es Hfile Hread Hselect
               (entries_from_text E rs (Rt.ticks w))).
    unfold shown. destruct es; [destruct rs; [congruence | discriminate Hlen] | reflexivity].
  - intros n r. unfold line_of, entry_of, field. cbn [Py.get String.eqb Ascii.eqb Bool.eqb].
    rewrite take_date. reflexivity.
Qed.

Lemma log_round_trip_witness :
  Server.handle_get_logs Sample.quiet [("limit", VInt (Z.of_nat 2))]
    (log_all Sample.quiet
       [ mkRequest ViaServer "Google A2A" "Released a new protocol draft"
                   "https://example.com/a2a";
         mkRequest ViaAgent "AGNTCY" "Opened a registry" "https://example.com/agntcy" ]
       Sample.fresh)
  = (Py.Ok [Server.text_content
              ("[2026-11-03] Google A2A: Released a new protocol draft..." ++ PyStr.nl ++
               "[2026-11-03] AGNTCY: Opened a registry...")],
     Sample.logged).
Proof.
  apply (log_round_trip Sample.quiet
           [ mkRequest ViaServer "Google A2A" "Released a new protocol draft"
                       "https://example.com/a2a";
             mkRequest ViaAgent "AGNTCY" "Opened a registry" "https://example.com/agntcy" ]
           Sample.fresh 2).
  - reflexivity.
  - reflexivity.
  - reflexivity.
  - exact sample_clock_valid.
  - discriminate.
  - simpl. lia.
Defined.

(** C6, as stated, fails: what a query returns is not the entry.  Two
    requests that differ in their source leave different entries in the
    file and get the same answer, a line that shows neither the source
    nor the time of day of the timestamp. *)
Lemma query_answer_drops_fields :
  Rt.log_file (log_all Sample.quiet
                 [mkRequest ViaServer "AGNTCY" "Opened a registry" "https://example.com/a"]
                 Sample.fresh)
  <> Rt.log_file (log_all Sample.quiet
                    [mkRequest ViaServer "AGNTCY" "Opened a registry" "https://example.com/b"]
                    Sample.fresh) /\
  fst (Server.handle_get_logs Sample.quiet []
         (log_all Sample.quiet
            [mkRequest ViaServer "AGNTCY" "Opened a registry" "https://example.com/a"]
            Sample.fresh))
  = Py.Ok [Server.text_content "[2026-11-03] AGNTCY: Opened a registry..."] /\
  fst (Server.handle_get_logs Sample.quiet []
         (log_all Sample.quiet
            [mkRequest ViaServer "AGNTCY" "Opened a registry" "https://example.com/b"]
            Sample.fresh))
  = Py.Ok [Server.text_content "[2026-11-03] AGNTCY: Opened a registry..."] /\
  field (entry_of Sample.quiet 0
           (mkRequest ViaServer "AGNTCY" "Opened a registry" "https://example.com/a"))
        "timestamp"
  = "2026-11-03T09:05:00.000012".
Proof.
  split; [vm_compute; discriminate |].
  split; [reflexivity |].
  split; reflexivity.
Qed.

(* ================================================================== *)
(** * Part III.  Further properties                                     *)
(* ================================================================== *)

(** ** Dispatch and the declared schema *)

(** X1.  A name that [list_tools] does not advertise is answered with the
    text [Unknown tool: <name>]; no handler runs and the world is left as
    it is. *)
Theorem unknown_tool_is_named :
  forall (E : Rt.env) (name : string) (arguments : Py.dict) (w : Rt.world),
    ~ In name advertised ->
    Server.call_tool E name arguments w
    = (Py.Ok [Server.text_content ("Unknown tool: " ++ name)], w).
Proof.
  intros E name arguments w Hname.
  unfold Server.call_tool.
  repeat match goal with
         | |- context [String.eqb name ?a] =>
             let Heq := fresh "Heq" in
             destruct (String.eqb name a) eqn:Heq;
             [ apply String.eqb_eq in Heq; exfalso; apply Hname; subst name;
               unfold advertised, Server.list_tools; cbn [map Server.name In]; tauto
             | ]
         end.
  reflexivity.
Qed.

Lemma unknown_tool_is_named_witness :
  Server.call_tool Sample.quiet "summarize_paper" [("paper_text", VStr "abc")] Sample.fresh
  = (Py.Ok [Server.text_content "Unknown tool: summarize_paper"], Sample.fresh).
Proof.
  apply (unknown_tool_is_named Sample.quiet "summarize_paper"
           [("paper_text", VStr "abc")] Sample.fresh).
  unfold advertised, Server.list_tools. cbn [map Server.name In].
  intros H.
  repeat match type of H with
         | _ \/ _ => destruct H as [H | H]
         | False => exact H
         | _ = _ => discriminate H
         end.
Defined.

(** The defaults [list_tools] declares, tool by tool. *)
Lemma declared_default_cases (name k : string) (d : value) :
  declared_default name k = Some d ->
  (name = "web_search" /\ k = "num_results" /\ d = VInt 5) \/
  (name = "track_competitor" /\ k = "source" /\ d = VStr "") \/
  (name = "generate_report" /\ k = "format_type" /\ d = VStr "markdown") \/
  (name = "get_competitor_logs" /\ k = "competitor" /\ d = VStr "") \/
  (name = "get_competitor_logs" /\ k = "limit" /\ d = VInt 50).
Proof.
  unfold declared_default, Server.list_tools.
  cbn [find Server.name].
  repeat match goal with
         | |- context [String.eqb ?a name] =>
             let Heq := fresh "Heq" in
             destruct (String.eqb a name) eqn:Heq;
             [ apply String.eqb_eq in Heq; subst name;
               cbn [find Server.properties Server.p_name Server.p_default];
               repeat match goal with
                      | |- context [String.eqb ?b k] =>
                          let Hk := fresh "Hk" in
                          destruct (String.eqb b k) eqn:Hk;
                          [ apply String.eqb_eq in Hk; subst k | ]
                      end;
               intros H; try discriminate H; injection H as <-; tauto
             | ]
         end.
  discriminate.
Qed.

Lemma get_supplied_default (d : Py.dict) (k k' : string) (v default : value) :
  Py.mem d k = false ->
  (String.eqb k' k = true -> default = v) ->
  Py.get (d ++ [(k, v)])%list k' default = Py.get d k' default.
Proof.
  intros Hk Hdef. rewrite get_app.
  destruct (Py.mem d k') eqn:Hm; [reflexivity |].
  rewrite (get_absent _ _ _ Hm).
  destruct (String.eqb k' k) eqn:Heq; [| reflexivity].
  symmetry. auto.
Qed.

(** X2.  The defaults of the schema are the defaults of the handlers: a
    call that omits a parameter for which [list_tools] declares a default
    runs exactly as the call that passes that default. *)
Theorem declared_default_is_applied :
  forall (E : Rt.env) (name k : string) (d : value) (arguments : Py.dict) (w : Rt.world),
    declared_default name k = Some d ->
    Py.mem arguments k = false ->
    Server.call_tool E name arguments w =
    Server.call_tool E name (arguments ++ [(k, d)])%list w.
Proof.
  intros E name k d arguments w Hdecl Hk.
  apply declared_default_cases in Hdecl.
  repeat match type of Hdecl with
         | _ \/ _ => destruct Hdecl as [Hdecl | Hdecl]
         end;
    destruct Hdecl as (-> & -> & ->).
  all: unfold Server.call_tool; cbn [String.eqb Ascii.eqb Bool.eqb].
  all: unfold Server.handle_web_search, Server.handle_track_competitor,
         Server.handle_generate_report, Server.handle_get_logs.
  all: rewrite ?get_supplied_default
         by (assumption || (intro; (reflexivity || discriminate))).
  all: reflexivity.
Qed.

Lemma declared_default_is_applied_witness :
  declared_default "get_competitor_logs" "limit" = Some (VInt 50) /\
  Server.call_tool Sample.quiet "get_competitor_logs" [] Sample.logged =
  Server.call_tool Sample.quiet "get_competitor_logs" ([] ++ [("limit", VInt 50)])%list
                   Sample.logged.
Proof.
  split; [reflexivity |].
  apply (declared_default_is_applied Sample.quiet "get_competitor_logs" "limit" (VInt 50)
           [] Sample.logged); reflexivity.
Defined.

(** ** The handlers behind the registered handler *)

(** X22.  The handlers themselves check nothing.  Called without the
    registered handler in front of it, as another module or a test calls
    it, [call_tool] reads a required parameter that is absent with the
    default [""]: the call runs exactly as if the caller had passed the
    empty text for it. *)
Theorem missing_required_is_defaulted :
  forall (E : Rt.env) (name k : string) (arguments : Py.dict) (w : Rt.world),
    In k (required_of name) ->
    Py.mem arguments k = false ->
    Server.call_tool E name arguments w =
    Server.call_tool E name (arguments ++ [(k, VStr "")])%list w.
Proof.
  intros E name k arguments w Hreq Hk.
  apply required_of_cases in Hreq.
  repeat match type of Hreq with
         | _ \/ _ => destruct Hreq as [Hreq | Hreq]
         end;
    destruct Hreq as [-> ->].
  all: unfold Server.call_tool; cbn [String.eqb Ascii.eqb Bool.eqb].
  all: unfold Server.handle_web_search, Server.handle_fetch_url,
         Server.handle_track_competitor, Server.handle_generate_report.
  all: supply_default.
Qed.

Lemma missing_required_is_defaulted_witness :
  In "query" (required_of "web_search") /\
  Py.mem [] "query" = false /\
  Server.call_tool Sample.quiet "web_search" [] Sample.fresh =
  Server.call_tool Sample.quiet "web_search" ([] ++ [("query", VStr "")])%list Sample.fresh.
Proof.
  split; [simpl; auto | split; [reflexivity |]].
  apply (missing_required_is_defaulted Sample.quiet "web_search" "query" [] Sample.fresh).
  - simpl. auto.
  - reflexivity.
Defined.

(** [track_competitor] called directly without its [competitor_name]: it
    logs an entry whose competitor is the empty text and confirms it. *)
Example direct_call_logs_an_empty_competitor :
  Server.call_tool Sample.quiet "track_competitor" [("activity", VStr "launch")] Sample.fresh
  = (Py.Ok [Server.text_content (Server.ok_mark ++ " Logged activity for : launch...")],
     Rt.mkWorld 1
       (Some (Rt.Logs [[("timestamp", VStr "2026-11-03T09:05:00.000012");
                        ("competitor", VStr "");
                        ("activity", VStr "launch");
                        ("source", VStr "")]]))
       []).
Proof. reflexivity. Qed.

(** X23.  Only a violation of the schema is flagged as an error.  When
    the arguments conform to the schema of the tool, or when the name is
    not the name of an advertised tool, the registered handler returns
    the text [call_tool] returns and marks it as not an error: a failure
    text of a handler reaches the client with [isError] false. *)
Theorem only_violations_are_flagged :
  forall (E : Rt.env) (message : list Server.violation -> result string)
         (name : string) (arguments : Py.dict) (w : Rt.world),
    (forall tool,
        find (fun t => String.eqb (Server.name t) name) Server.list_tools = Some tool ->
        Server.violations tool arguments = []) ->
    exists text w',
      Server.call_tool E name arguments w = (Py.Ok [Server.text_content text], w') /\
      Server.call_tool_handler E message name arguments w
      = (Py.Ok (Server.mkResult [Server.text_content text] false), w').
Proof.
  intros E message name arguments w Hconform.
  destruct (call_tool_contained E name arguments w) as (r & w' & Hr & text & ->).
  exists text, w'. split; [exact Hr |].
  unfold Server.call_tool_handler, Rt.try_except.
  destruct (find (fun t => String.eqb (Server.name t) name) Server.list_tools)
    as [tool |] eqn:Hfind.
  - rewrite (Hconform tool eq_refl).
    unfold Server.run_tool, Rt.bind, Rt.ret. rewrite Hr. reflexivity.
  - unfold Server.run_tool, Rt.bind, Rt.ret. rewrite Hr. reflexivity.
Qed.

Lemma only_violations_are_flagged_witness :
  Server.call_tool_handler Sample.quiet Fixture.sentence "get_competitor_logs" []
                           Fixture.corrupt
  = (Py.Ok (Server.mkResult
              [Server.text_content "Error: Expecting value: line 1 column 1 (char 0)"]
              false),
     Fixture.corrupt).
Proof.
  destruct (only_violations_are_flagged Sample.quiet Fixture.sentence "get_competitor_logs"
              [] Fixture.corrupt) as (text & w' & Hcall & Hrun).
  - intros tool Hfind. simpl in Hfind. injection Hfind as <-. reflexivity.
  - vm_compute in Hcall. injection Hcall as <- <-. rewrite Hrun. reflexivity.
Defined.

(** ** What the handlers do to the files *)

Section Keeps.
Import Rt.
Variable R : world -> world -> Prop.
Hypothesis R_refl : forall w, R w w.
Hypothesis R_trans : forall w1 w2 w3, R w1 w2 -> R w2 w3 -> R w1 w3.

Lemma keeps_ret {A} (a : A) : keeps R (ret a).
Proof. intros w. apply R_refl. Qed.

Lemma keeps_lift {A} (r : result A) : keeps R (lift r).
Proof. intros w. apply R_refl. Qed.

Lemma keeps_check (fault : option exn) : keeps R (check fault).
Proof. intros w. destruct fault; apply R_refl. Qed.

Lemma keeps_log_exists : keeps R log_exists.
Proof. intros w. apply R_refl. Qed.

Lemma keeps_bind {A B} (m : M A) (k : A -> M B) :
  keeps R m -> (forall a, keeps R (k a)) -> keeps R (bind m k).
Proof.
  intros Hm Hk w. unfold bind. specialize (Hm w).
  destruct (m w) as [[a | e] w1]; cbn [snd] in *.
  - exact (R_trans _ _ _ Hm (Hk a w1)).
  - exact Hm.
Qed.

Lemma keeps_try_except {A} (body : M A) (handler : exn -> M A) :
  keeps R body -> (forall e, keeps R (handler e)) -> keeps R (try_except body handler).
Proof.
  intros Hb Hh w. unfold try_except. specialize (Hb w).
  destruct (body w) as [[a | e] w1]; cbn [snd] in *.
  - exact Hb.
  - exact (R_trans _ _ _ Hb (Hh e w1)).
Qed.

Lemma keeps_load_logs (E : env) : keeps R (load_logs E).
Proof.
  unfold load_logs. apply keeps_bind; [apply keeps_check |].
  intros _ w. destruct (log_file w) as [[logs | e] |]; apply R_refl.
Qed.

End Keeps.

(** Walks through a handler that only reads. *)
Ltac walk_keeps :=
  repeat
    lazymatch goal with
    | |- forall _, _ => intros
    | |- keeps _ (Rt.try_except _ _) => apply keeps_try_except; try assumption
    | |- keeps _ (Rt.bind _ _) => apply keeps_bind; try assumption
    | |- keeps _ (Rt.ret _) => apply keeps_ret; assumption
    | |- keeps _ (Rt.lift _) => apply keeps_lift; assumption
    | |- keeps _ (Rt.check _) => apply keeps_check; assumption
    | |- keeps _ Rt.log_exists => apply keeps_log_exists; assumption
    | |- keeps _ (Rt.load_logs _) => apply keeps_load_logs; assumption
    | |- keeps _ (if ?b then _ else _) => destruct b
    | |- keeps _ (match ?x with _ => _ end) => destruct x
    end.

Lemma unchanged_refl (w : Rt.world) : unchanged w w.
Proof. reflexivity. Qed.

Lemma unchanged_trans (w1 w2 w3 : Rt.world) :
  unchanged w1 w2 -> unchanged w2 w3 -> unchanged w1 w3.
Proof. unfold unchanged. congruence. Qed.

Lemma same_files_refl (w : Rt.world) : same_files w w.
Proof. split; reflexivity. Qed.

Lemma same_files_trans (w1 w2 w3 : Rt.world) :
  same_files w1 w2 -> same_files w2 w3 -> same_files w1 w3.
Proof. unfold same_files. intros [H1 H2] [H3 H4]. split; congruence. Qed.

Lemma keeps_files_now (E : Rt.env) : keeps same_files (Rt.now E).
Proof. intros w. split; reflexivity. Qed.

Lemma unchanged_same_files (w w' : Rt.world) : unchanged w w' -> same_files w w'.
Proof. unfold unchanged. intros ->. apply same_files_refl. Qed.

Section ReadOnly.
Variable E : Rt.env.

Lemma handle_web_search_reads_only arguments :
  keeps unchanged (Server.handle_web_search E arguments).
Proof.
  pose proof unchanged_refl. pose proof unchanged_trans.
  unfold Server.handle_web_search. cbv zeta. walk_keeps.
Qed.

Lemma handle_fetch_url_reads_only arguments :
  keeps unchanged (Server.handle_fetch_url E arguments).
Proof.
  pose proof unchanged_refl. pose proof unchanged_trans.
  unfold Server.handle_fetch_url. cbv zeta. walk_keeps.
Qed.

Lemma handle_get_logs_reads_only arguments :
  keeps unchanged (Server.handle_get_logs E arguments).
Proof.
  pose proof unchanged_refl. pose proof unchanged_trans.
  unfold Server.handle_get_logs. cbv zeta. walk_keeps.
Qed.

Lemma handle_generate_report_keeps_files arguments :
  keeps same_files (Server.handle_generate_report E arguments).
Proof.
  pose proof same_files_refl. pose proof same_files_trans.
  unfold Server.handle_generate_report. cbv zeta.
  apply keeps_try_except; try assumption; walk_keeps.
  all: try apply keeps_files_now.
Qed.

End ReadOnly.

(** X3.  Of the tools the server dispatches, only [track_competitor]
    writes: every other call leaves the log file and the report files as
    they were, whatever its arguments and whether it fails or not, and
    apart from [generate_report], which reads the clock, it leaves the
    whole world as it was. *)
Theorem only_track_competitor_writes :
  forall (E : Rt.env) (name : string) (arguments : Py.dict) (w : Rt.world),
    name <> "track_competitor" ->
    same_files w (snd (Server.call_tool E name arguments w)) /\
    (name <> "generate_report" -> snd (Server.call_tool E name arguments w) = w).
Proof.
  intros E name arguments w Hname.
  unfold Server.call_tool.
  destruct (String.eqb name "web_search").
  { split; [apply unchanged_same_files |]; intros; apply handle_web_search_reads_only. }
  destruct (String.eqb name "fetch_url").
  { split; [apply unchanged_same_files |]; intros; apply handle_fetch_url_reads_only. }
  destruct (String.eqb name "track_competitor") eqn:Htrack.
  { apply String.eqb_eq in Htrack. contradiction. }
  destruct (String.eqb name "generate_report") eqn:Hreport.
  { apply String.eqb_eq in Hreport.
    split; [apply handle_generate_report_keeps_files | intros; contradiction]. }
  destruct (String.eqb name "get_competitor_logs").
  { split; [apply unchanged_same_files |]; intros; apply handle_get_logs_reads_only. }
  split; [apply same_files_refl | reflexivity].
Qed.

Lemma only_track_competitor_writes_witness :
  snd (Server.call_tool Sample.quiet "get_competitor_logs" [("limit", VStr "x")]
                        Sample.logged)
  = Sample.logged.
Proof.
  apply (only_track_competitor_writes Sample.quiet "get_competitor_logs"
           [("limit", VStr "x")] Sample.logged); discriminate.
Defined.

Lemma error_text_reports_failure (s : string) :
  reports_failure [Server.text_content ("Error: " ++ s)] = true.
Proof.
  unfold reports_failure. cbn [Server.text Server.text_content append prefix].
  cbn. rewrite prefix_nil. reflexivity.
Qed.

(** The cases of one call of the server's [track_competitor]: the state of
    the log file, the faults of reading and of writing, and the kind of
    the activity. *)
Ltac track_cases E arguments w :=
  unfold Server.handle_track_competitor, Rt.try_except, Rt.bind, Rt.now, Rt.log_exists,
    Rt.load_logs, Rt.dump_logs, Rt.bind, Rt.check, Rt.raise, Rt.lift, Rt.ret, stored,
    answer, entry_written;
  cbn [Rt.ticks Rt.log_file Rt.reports];
  destruct (Rt.log_file w) as [[logs0 | e0] |];
  destruct (Rt.open_read E Rt.log_name) as [er |];
  destruct (Rt.open_write E Rt.log_name) as [[ew | ew cut bad | ew] |];
  destruct (Py.get arguments "activity" (VStr "")) as [| b | z | a];
  cbn [fst snd Rt.ticks Rt.log_file Rt.reports Py.slice_to].

(** X4.  What a call of [track_competitor] can do to the log.  The handler
    rewrites the whole file, so the log is append-only as long as no
    write is cut short: whatever the arguments and the faults, the call
    leaves the log file as it was, or holding the array it held followed
    by the one new entry, or, when the write of the new array is cut
    short, damaged.  In that last case the entries the file held are lost
    with the new one, and the call answers with the error.  The call
    writes no report file, and whenever its answer is not a failure text
    the entry is in the file. *)
Theorem track_competitor_appends_or_damages :
  forall (E : Rt.env) (arguments : Py.dict) (w : Rt.world),
    (Rt.log_file (snd (Server.handle_track_competitor E arguments w)) = Rt.log_file w \/
     (exists logs,
         stored w = Some logs /\
         Rt.log_file (snd (Server.handle_track_competitor E arguments w))
         = Some (Rt.Logs (logs ++ [entry_written E arguments w])%list)) \/
     (exists e written unreadable,
         Rt.open_write E Rt.log_name = Some (Rt.WriteFails e written unreadable) /\
         Rt.log_file (snd (Server.handle_track_competitor E arguments w))
         = Some (Rt.Unparsable unreadable))) /\
    (forall e written unreadable logs,
        Rt.open_write E Rt.log_name = Some (Rt.WriteFails e written unreadable) ->
        Rt.open_read E Rt.log_name = None ->
        stored w = Some logs ->
        Rt.log_file (snd (Server.handle_track_competitor E arguments w))
        = Some (Rt.Unparsable unreadable) /\
        stored (snd (Server.handle_track_competitor E arguments w)) = None /\
        answer (Server.handle_track_competitor E arguments w)
        = [Server.text_content ("Error: " ++ Py.exn_str e)]) /\
    Rt.reports (snd (Server.handle_track_competitor E arguments w)) = Rt.reports w /\
    (reports_failure (answer (Server.handle_track_competitor E arguments w)) = false ->
     exists logs,
       stored w = Some logs /\
       Rt.log_file (snd (Server.handle_track_competitor E arguments w))
       = Some (Rt.Logs (logs ++ [entry_written E arguments w])%list)).
Proof.
  intros E arguments w.
  track_cases E arguments w.
  all: split;
    [ first [ left; reflexivity
            | right; left; eexists; split; reflexivity
            | right; right; eexists; eexists; eexists; split; reflexivity ] | ].
  all: split;
    [ intros e written unreadable logs Hwrite Hread Hstored;
      try discriminate Hwrite; try discriminate Hread; try discriminate Hstored;
      injection Hwrite as -> _ ->; repeat split; reflexivity | ].
  all: split; [ reflexivity | ].
  all: intros Hok; try (rewrite error_text_reports_failure in Hok; discriminate Hok).
  all: eexists; split; reflexivity.
Qed.

(** A disk that fills up while the log is rewritten: the two entries the
    file held are gone, and the next query fails on what is left. *)
Lemma track_competitor_appends_or_damages_witness :
  Rt.log_file
    (snd (Server.handle_track_competitor Fixture.full_disk
            (track_arguments "ANP" "Published a charter" "") Sample.logged))
  = Some (Rt.Unparsable Fixture.cut_short) /\
  stored (snd (Server.handle_track_competitor Fixture.full_disk
                 (track_arguments "ANP" "Published a charter" "") Sample.logged))
  = None /\
  answer (Server.handle_track_competitor Fixture.full_disk
            (track_arguments "ANP" "Published a charter" "") Sample.logged)
  = [Server.text_content "Error: [Errno 28] No space left on device"].
Proof.
  destruct (track_competitor_appends_or_damages Fixture.full_disk
              (track_arguments "ANP" "Published a charter" "") Sample.logged)
    as (_ & Hcut & _).
  apply (Hcut (mkExn OSError "[Errno 28] No space left on device") 120 Fixture.cut_short
              Sample.two_logs); reflexivity.
Defined.

(** X5.  The two implementations of [track_competitor] leave the same
    world: for the same three texts, the server's handler and the agent's
    tool read the clock once and leave the same log file and the same
    report files, in every world and under every fault. *)
Theorem track_competitor_paths_agree :
  forall (E : Rt.env) (competitor_name activity source : string) (w : Rt.world),
    snd (Server.call_tool E "track_competitor"
           (track_arguments competitor_name activity source) w)
    = snd (Agent.track_competitor E competitor_name activity source w).
Proof.
  intros E competitor_name activity source w.
  unfold Server.call_tool. cbn [String.eqb Ascii.eqb Bool.eqb].
  unfold Server.handle_track_competitor, Agent.track_competitor, track_arguments,
    Rt.try_except, Rt.bind, Rt.now, Rt.log_exists, Rt.load_logs, Rt.dump_logs, Rt.bind,
    Rt.check, Rt.raise, Rt.lift, Rt.ret.
  cbn [Rt.ticks Rt.log_file Rt.reports Py.get String.eqb Ascii.eqb Bool.eqb Py.slice_to].
  destruct (Rt.log_file w) as [[logs0 | e0] |];
    destruct (Rt.open_read E Rt.log_name) as [er |];
    destruct (Rt.open_write E Rt.log_name) as [[ew | ew cut bad | ew] |];
    reflexivity.
Qed.

Lemma rmap_raises {A B} (f : A -> result B) (l : list A) (x : A) :
  In x l -> (exists e, f x = Py.Raise e) -> exists e, Rt.rmap f l = Py.Raise e.
Proof.
  induction l as [| a l IH]; intros Hin Hx; [destruct Hin |].
  cbn [Rt.rmap]. destruct (f a) as [b | e] eqn:Hfa.
  - destruct Hin as [-> | Hin].
    + destruct Hx as [e He]. congruence.
    + destruct (IH Hin Hx) as [e He]. exists e. cbn [Rt.rbind]. rewrite He. reflexivity.
  - exists e. reflexivity.
Qed.

(** The newest entry is in every slice [l[-n:]] with [n] positive. *)
Lemma newest_is_selected {A} (n : Z) (l : list A) (x : A) :
  (0 < n)%Z -> In x (Py.slice_from (- n) (l ++ [x])).
Proof.
  intros Hn. rewrite (slice_from_neg n _ Hn). unfold last_n.
  rewrite length_app. cbn [List.length].
  rewrite skipn_app.
  apply in_or_app. right.
  replace (List.length l + 1 - Z.to_nat n - List.length l) with 0 by lia.
  left. reflexivity.
Qed.

(** A query whose selection cannot be formatted answers with the error. *)
Lemma handle_get_logs_unformattable (E : Rt.env) (arguments : Py.dict) (w : Rt.world)
      (logs selected : list Py.dict) (e : exn) :
  Rt.log_file w = Some (Rt.Logs logs) ->
  Rt.open_read E Rt.log_name = None ->
  Server.select_logs (Py.get arguments "competitor" (VStr ""))
                     (Py.get arguments "limit" (VInt 50)) logs = Py.Ok selected ->
  Rt.rmap Server.format_log selected = Py.Raise e ->
  Server.handle_get_logs E arguments w
  = (Py.Ok [Server.text_content ("Error: " ++ Py.exn_str e)], w).
Proof.
  intros Hfile Hread Hselect Hformat.
  unfold Server.handle_get_logs, Rt.try_except, Rt.bind, Rt.log_exists, Rt.load_logs,
    Rt.bind, Rt.check, Rt.lift, Rt.ret.
  rewrite Hfile. cbn [negb]. rewrite Hread. cbn beta iota. rewrite Hfile, Hselect.
  destruct selected as [| l ls]; [discriminate Hformat |].
  rewrite Hformat. reflexivity.
Qed.

(** X6.  An activity that is not a text is logged all the same: the
    handler writes the entry before it slices the activity for its
    confirmation, so the call is answered with the type error while the
    entry is in the file; from then on a query without filter, which
    formats the newest entry, is answered with a failure text too. *)
Theorem untyped_activity_is_logged_and_breaks_queries :
  forall (E : Rt.env) (arguments : Py.dict) (w : Rt.world) (logs : list Py.dict),
    is_text (Py.get arguments "activity" (VStr "")) = false ->
    Rt.open_read E Rt.log_name = None ->
    Rt.open_write E Rt.log_name = None ->
    stored w = Some logs ->
    fst (Server.handle_track_competitor E arguments w)
    = Py.Ok [Server.text_content
               ("Error: '" ++ Py.type_name (Py.get arguments "activity" (VStr "")) ++
                "' object is not subscriptable")] /\
    Rt.log_file (snd (Server.handle_track_competitor E arguments w))
    = Some (Rt.Logs (logs ++ [entry_written E arguments w])%list) /\
    reports_failure
      (answer (Server.handle_get_logs E [] (snd (Server.handle_track_competitor E arguments w))))
    = true.
Proof.
  intros E arguments w logs Hnot Hread Hwrite Hstored.
  assert (Hrun : Server.handle_track_competitor E arguments w
                 = (Py.Ok [Server.text_content
                             ("Error: '" ++
                              Py.type_name (Py.get arguments "activity" (VStr "")) ++
                              "' object is not subscriptable")],
                    Rt.mkWorld (S (Rt.ticks w))
                      (Some (Rt.Logs (logs ++ [entry_written E arguments w])%list))
                      (Rt.reports w))).
  { revert Hnot Hstored.
    unfold Server.handle_track_competitor, Rt.try_except, Rt.bind, Rt.now, Rt.log_exists,
      Rt.load_logs, Rt.dump_logs, Rt.bind, Rt.check, Rt.raise, Rt.lift, Rt.ret, stored,
      entry_written.
    cbn [Rt.ticks Rt.log_file Rt.reports]. rewrite Hread, Hwrite.
    destruct (Rt.log_file w) as [[logs0 | e0] |];
      destruct (Py.get arguments "activity" (VStr "")) as [| b | z | a];
      cbn [is_text]; intros Hnot Hstored;
      try discriminate Hnot; try discriminate Hstored;
      injection Hstored as <-; reflexivity. }
  rewrite Hrun. cbn [fst snd Rt.log_file].
  split; [reflexivity |].
  split; [reflexivity |].
  set (entry := entry_written E arguments w).
  set (after := Rt.mkWorld _ _ _).
  assert (Hbad : exists e, Server.format_log entry = Py.Raise e).
  { unfold entry, entry_written, Server.format_log.
    cbn [Py.getitem String.eqb Ascii.eqb Bool.eqb Rt.rbind Py.slice_to].
    destruct (Py.get arguments "activity" (VStr "")) as [| b | z | a];
      try discriminate Hnot; cbn [Rt.rbind Py.slice_to]; eexists; reflexivity. }
  assert (Hin : In entry (Py.slice_from (- 50) (logs ++ [entry])))
    by (exact (newest_is_selected 50 logs entry ltac:(lia))).
  destruct (rmap_raises Server.format_log _ entry Hin Hbad) as [e He].
  rewrite (handle_get_logs_unformattable E [] after (logs ++ [entry])%list
             (Py.slice_from (- 50) (logs ++ [entry])) e); [| reflexivity | exact Hread | reflexivity | exact He].
  unfold answer. cbn [fst]. apply error_text_reports_failure.
Qed.

Lemma untyped_activity_is_logged_and_breaks_queries_witness :
  fst (Server.handle_track_competitor Sample.quiet
         [("competitor_name", VStr "ANP"); ("activity", VInt 7)] Sample.logged)
  = Py.Ok [Server.text_content "Error: 'int' object is not subscriptable"].
Proof.
  apply (untyped_activity_is_logged_and_breaks_queries Sample.quiet
           [("competitor_name", VStr "ANP"); ("activity", VInt 7)] Sample.logged
           Sample.two_logs); reflexivity.
Defined.

(** ** Limits and filters of a query *)

Lemma skipn_beyond {A} (n m : nat) (l : list A) :
  List.length l <= n -> List.length l <= m -> skipn n l = skipn m l.
Proof. intros Hn Hm. rewrite !skipn_all2 by assumption. reflexivity. Qed.

(** [l[k:]] for [k >= 0] drops the first [k] elements. *)
Lemma slice_from_nonneg {A} (k : Z) (l : list A) :
  (0 <= k)%Z -> Py.slice_from k l = skipn (Z.to_nat k) l.
Proof.
  intros Hk. unfold Py.slice_from.
  assert (Hnot : (k <? 0)%Z = false) by (apply Z.ltb_ge; exact Hk).
  rewrite Hnot.
  destruct (Z_le_gt_dec k (Z.of_nat (List.length l))) as [Hle | Hgt].
  - rewrite Z.min_l by exact Hle. reflexivity.
  - rewrite Z.min_r by lia. apply skipn_beyond; lia.
Qed.

(** X7.  The limit of a query is not checked for its sign or its type.  A
    negative limit [-k] drops the [k] oldest entries and keeps the rest;
    [True] counts as 1 and [False] as 0, which keeps everything; a limit
    that is [None] or a text raises a type error.  Whatever the limit,
    what is selected is an end of the list, in order. *)
Theorem limit_of_any_sign_or_type :
  forall (logs : list Py.dict),
    (forall n, (n < 0)%Z ->
               Server.most_recent (VInt n) logs = Py.Ok (skipn (Z.to_nat (- n)) logs)) /\
    Server.most_recent (VBool true) logs = Py.Ok (last_n 1 logs) /\
    Server.most_recent (VBool false) logs = Py.Ok logs /\
    (exists e, Server.most_recent VNone logs = Py.Raise e /\ Py.exn_cls e = TypeError) /\
    (forall s, exists e,
        Server.most_recent (VStr s) logs = Py.Raise e /\ Py.exn_cls e = TypeError) /\
    (forall limit selected,
        Server.most_recent limit logs = Py.Ok selected ->
        exists older, logs = (older ++ selected)%list).
Proof.
  intros logs. unfold Server.most_recent.
  split.
  { intros n Hn. cbn [Py.neg Rt.rbind].
    rewrite slice_from_nonneg by lia. reflexivity. }
  split.
  { cbn [Py.neg Rt.rbind]. f_equal. exact (slice_from_neg 1 logs ltac:(lia)). }
  split.
  { cbn [Py.neg Rt.rbind]. rewrite slice_from_zero. reflexivity. }
  split; [eexists; split; reflexivity |].
  split; [intros s; eexists; split; reflexivity |].
  intros limit selected Hsel.
  assert (Hend : forall start : Z, exists older,
               logs = (older ++ Py.slice_from start logs)%list).
  { intros start. unfold Py.slice_from.
    eexists. symmetry. apply firstn_skipn. }
  destruct limit as [| b | z | s]; cbn [Py.neg Rt.rbind] in Hsel;
    try discriminate Hsel; injection Hsel as <-; apply Hend.
Qed.

Lemma limit_of_any_sign_or_type_witness :
  Server.most_recent (VInt (-1)) Sample.two_logs = Py.Ok (skipn 1 Sample.two_logs).
Proof.
  destruct (limit_of_any_sign_or_type Sample.two_logs) as (Hneg & _).
  apply (Hneg (-1)%Z). lia.
Defined.

(** X8.  A store without entries is not an error.  When the log file does
    not exist the query answers [No logs found.] without looking at its
    arguments; when the file holds an empty array it answers [No matching
    logs found.] for a filter of any type, provided the limit is a
    number.  The world is left as it was. *)
Theorem empty_store_answers :
  forall (E : Rt.env) (arguments : Py.dict) (w : Rt.world),
    (Rt.log_file w = None ->
     Server.handle_get_logs E arguments w
     = (Py.Ok [Server.text_content "No logs found."], w)) /\
    (forall z,
        Rt.log_file w = Some (Rt.Logs []) ->
        Rt.open_read E Rt.log_name = None ->
        Py.neg (Py.get arguments "limit" (VInt 50)) = Py.Ok z ->
        Server.handle_get_logs E arguments w
        = (Py.Ok [Server.text_content "No matching logs found."], w)).
Proof.
  intros E arguments w. split.
  - intros Hfile.
    unfold Server.handle_get_logs, Rt.try_except, Rt.bind, Rt.log_exists, Rt.ret.
    rewrite Hfile. reflexivity.
  - intros z Hfile Hread Hneg.
    apply (handle_get_logs_run E arguments w [] [] Hfile Hread); [| reflexivity].
    unfold Server.select_logs, Server.most_recent.
    destruct (Py.truthy (Py.get arguments "competitor" (VStr "")));
      cbn [Server.filter_logs Rt.rbind]; rewrite Hneg; cbn [Rt.rbind];
      unfold Py.slice_from; rewrite skipn_nil; reflexivity.
Qed.

Lemma empty_store_answers_witness :
  Server.handle_get_logs Sample.quiet [("competitor", VInt 3); ("limit", VStr "x")]
                         Sample.fresh
  = (Py.Ok [Server.text_content "No logs found."], Sample.fresh).
Proof.
  destruct (empty_store_answers Sample.quiet [("competitor", VInt 3); ("limit", VStr "x")]
              Sample.fresh) as (Hmissing & _).
  apply Hmissing. reflexivity.
Defined.

Lemma lower_char_idempotent (c : ascii) :
  PyStr.lower_char (PyStr.lower_char c) = PyStr.lower_char c.
Proof.
  destruct c as [b0 b1 b2 b3 b4 b5 b6 b7].
  destruct b0, b1, b2, b3, b4, b5, b6, b7; reflexivity.
Qed.

Lemma lower_idempotent (s : string) : PyStr.lower (PyStr.lower s) = PyStr.lower s.
Proof.
  induction s as [| c s IH]; cbn [PyStr.lower]; [reflexivity |].
  rewrite lower_char_idempotent, IH. reflexivity.
Qed.

Lemma lower_is_empty (s : string) : PyStr.is_empty (PyStr.lower s) = PyStr.is_empty s.
Proof. destruct s; reflexivity. Qed.

(** X9.  The filter of a query is blind to case: two filters with the
    same lower-case form select the same entries from every log, also
    from a log with entries that cannot be compared, where both fail
    alike; in particular a filter and its lower-case form agree. *)
Theorem filter_ignores_case :
  forall (f1 f2 : string) (limit : value) (logs : list Py.dict),
    PyStr.lower f1 = PyStr.lower f2 ->
    Server.select_logs (VStr f1) limit logs = Server.select_logs (VStr f2) limit logs /\
    Server.select_logs (VStr (PyStr.lower f1)) limit logs
    = Server.select_logs (VStr f1) limit logs.
Proof.
  assert (Hsame : forall f1 f2 limit logs,
             PyStr.lower f1 = PyStr.lower f2 ->
             Server.select_logs (VStr f1) limit logs
             = Server.select_logs (VStr f2) limit logs).
  { intros f1 f2 limit logs Hlower.
    assert (Hfilter : Server.filter_logs (VStr f1) logs = Server.filter_logs (VStr f2) logs).
    { induction logs as [| l logs IH]; [reflexivity |].
      cbn [Server.filter_logs]. unfold Server.matches. cbn [Py.lower Rt.rbind].
      rewrite Hlower, IH. reflexivity. }
    unfold Server.select_logs. cbn [Py.truthy].
    rewrite <- (lower_is_empty f1), <- (lower_is_empty f2), Hlower, Hfilter.
    reflexivity. }
  intros f1 f2 limit logs Hlower. split.
  - apply Hsame. exact Hlower.
  - apply Hsame. apply lower_idempotent.
Qed.

Lemma filter_ignores_case_witness :
  Server.select_logs (VStr "AGNTCY") (VInt 5) Sample.two_logs
  = Server.select_logs (VStr "agntcy") (VInt 5) Sample.two_logs.
Proof.
  apply (filter_ignores_case "AGNTCY" "agntcy" (VInt 5) Sample.two_logs). reflexivity.
Defined.

(** ** Search results *)

Lemma getitem_present (d : Py.dict) (k : string) (default : value) :
  Py.mem d k = true -> Py.getitem d k = Py.Ok (Py.get d k default).
Proof.
  induction d as [| [k' v] d IH]; cbn [Py.mem Py.getitem Py.get]; intros H.
  - discriminate.
  - destruct (String.eqb k k'); [reflexivity | exact (IH H)].
Qed.

Lemma getitem_absent (d : Py.dict) (k : string) :
  Py.mem d k = false -> exists e, Py.getitem d k = Py.Raise e.
Proof.
  induction d as [| [k' v] d IH]; cbn [Py.mem Py.getitem]; intros H.
  - eexists. reflexivity.
  - destruct (String.eqb k k'); [discriminate | exact (IH H)].
Qed.

Lemma get_text_present (d : Py.dict) (k : string) :
  is_text (Py.get d k VNone) = true -> Py.mem d k = true.
Proof.
  intros H. destruct (Py.mem d k) eqn:Hm; [reflexivity |].
  rewrite (get_absent _ _ _ Hm) in H. discriminate.
Qed.

Lemma get_text_field (d : Py.dict) (k : string) :
  is_text (Py.get d k VNone) = true -> Py.get d k VNone = VStr (field d k).
Proof.
  intros H. pose proof (get_text_present d k H) as Hm.
  pose proof (getitem_present d k VNone Hm) as H1.
  pose proof (getitem_present d k (VStr "") Hm) as H2.
  unfold field.
  assert (Hsame : Py.get d k (VStr "") = Py.get d k VNone) by congruence.
  rewrite Hsame. destruct (Py.get d k VNone); try discriminate. reflexivity.
Qed.

Lemma format_result_ok (i : nat) (r : Py.dict) :
  result_fields r = true -> Server.format_result i r = Py.Ok (result_block i r).
Proof.
  unfold result_fields. rewrite !andb_true_iff. intros [[Htitle Hhref] Hbody].
  unfold Server.format_result, result_block, shown_value.
  rewrite (getitem_present r "title" VNone Htitle).
  rewrite (getitem_present r "href" VNone Hhref).
  rewrite (getitem_present r "body" VNone (get_text_present r "body" Hbody)).
  rewrite (get_text_field r "body" Hbody).
  reflexivity.
Qed.

Lemma format_result_bad (i : nat) (r : Py.dict) :
  result_fields r = false -> exists e, Server.format_result i r = Py.Raise e.
Proof.
  unfold result_fields, Server.format_result. intros H.
  destruct (Py.mem r "title") eqn:Htitle.
  2: { destruct (getitem_absent r "title" Htitle) as [e ->]. eexists. reflexivity. }
  rewrite (getitem_present r "title" VNone Htitle). cbn [Rt.rbind].
  destruct (Py.mem r "href") eqn:Hhref.
  2: { destruct (getitem_absent r "href" Hhref) as [e ->]. eexists. reflexivity. }
  rewrite (getitem_present r "href" VNone Hhref). cbn [Rt.rbind].
  cbn [andb] in H.
  destruct (Py.mem r "body") eqn:Hbody.
  2: { destruct (getitem_absent r "body" Hbody) as [e ->]. eexists. reflexivity. }
  rewrite (getitem_present r "body" VNone Hbody). cbn [Rt.rbind].
  destruct (Py.get r "body" VNone); try discriminate H; eexists; reflexivity.
Qed.

Lemma format_results_ok (results : list Py.dict) :
  forallb result_fields results = true ->
  forall i, Server.format_results i results
            = Py.Ok (map (fun p => result_block (fst p) (snd p)) (numbered i results)).
Proof.
  induction results as [| r results IH]; intros H i; [reflexivity |].
  cbn [forallb] in H. apply andb_true_iff in H. destruct H as [Hr Hrest].
  cbn [Server.format_results]. rewrite (format_result_ok i r Hr). cbn [Rt.rbind].
  rewrite (IH Hrest (S i)). reflexivity.
Qed.

Lemma format_results_bad (results : list Py.dict) :
  forallb result_fields results = false ->
  forall i, exists e, Server.format_results i results = Py.Raise e.
Proof.
  induction results as [| r results IH]; intros H i; [discriminate H |].
  cbn [forallb] in H. cbn [Server.format_results].
  destruct (result_fields r) eqn:Hr.
  - rewrite (format_result_ok i r Hr). cbn [Rt.rbind].
    destruct (IH H (S i)) as [e ->]. eexists. reflexivity.
  - destruct (format_result_bad i r Hr) as [e ->]. eexists. reflexivity.
Qed.

Lemma search_error_reports_failure (s : string) :
  reports_failure [Server.text_content ("Search error: " ++ s)] = true.
Proof.
  unfold reports_failure. cbn [Server.text Server.text_content].
  cbn. rewrite prefix_nil. reflexivity.
Qed.

Lemma numbered_length {A} (i : nat) (l : list A) :
  List.length (numbered i l) = List.length l.
Proof. unfold numbered. rewrite length_combine, length_seq. lia. Qed.

(** X10.  What the server's [web_search] answers once the provider has
    returned.  No result gives the text [No results found.]; results that
    all carry a title, a link and a text body give one block per result,
    numbered from 1 in the provider's order, each body cut to its first
    300 characters; and one result that lacks a key, or whose body is not
    a text, turns the whole answer into a search error.  The world is
    left as it was. *)
Theorem web_search_answers :
  forall (E : Rt.env) (arguments : Py.dict) (w : Rt.world) (results : list Py.dict),
    Rt.import_ddgs E = None ->
    Rt.ddgs_text E (Py.get arguments "query" (VStr ""))
                   (Py.get arguments "num_results" (VInt 5)) = Py.Ok results ->
    (results = [] ->
     Server.handle_web_search E arguments w
     = (Py.Ok [Server.text_content "No results found."], w)) /\
    (results <> [] ->
     forallb result_fields results = true ->
     Server.handle_web_search E arguments w
     = (Py.Ok [Server.text_content
                 (PyStr.join (PyStr.nl ++ PyStr.nl)
                    (map (fun p => result_block (fst p) (snd p)) (numbered 1 results)))],
        w)) /\
    (forallb result_fields results = false ->
     reports_failure (answer (Server.handle_web_search E arguments w)) = true /\
     snd (Server.handle_web_search E arguments w) = w) /\
    List.length (numbered 1 results) = List.length results.
Proof.
  intros E arguments w results Himport Hsearch.
  unfold Server.handle_web_search, Rt.try_except, Rt.bind, Rt.check, Rt.lift, Rt.ret.
  rewrite Himport, Hsearch. cbn beta iota.
  split; [intros ->; reflexivity |].
  split.
  { intros Hne Hok. destruct results as [| r results]; [congruence |].
    rewrite (format_results_ok _ Hok 1). reflexivity. }
  split; [| apply numbered_length].
  intros Hbad. destruct results as [| r results]; [discriminate Hbad |].
  destruct (format_results_bad _ Hbad 1) as [e ->].
  unfold answer. cbn [fst snd].
  split; [apply search_error_reports_failure | reflexivity].
Qed.

Lemma web_search_answers_witness :
  Server.handle_web_search Fixture.searching [("query", VStr "coral")] Sample.fresh
  = (Py.Ok [Server.text_content
              ("1. **Coral Protocol**" ++ PyStr.nl ++
               "   URL: https://example.com/coral" ++ PyStr.nl ++
               "   An open infrastructure for agents...." ++ PyStr.nl ++ PyStr.nl ++
               "2. **Agent registries**" ++ PyStr.nl ++
               "   URL: https://example.com/registry" ++ PyStr.nl ++
               "   How agents find each other....")],
     Sample.fresh).
Proof.
  destruct (web_search_answers Fixture.searching [("query", VStr "coral")] Sample.fresh
              Fixture.found eq_refl eq_refl) as (_ & Hfound & _).
  rewrite Hfound; [vm_compute; reflexivity | discriminate | reflexivity].
Defined.

(** ** Fetched pages *)

Lemma lstrip_starts_clean (s : string) : starts_clean (PyStr.lstrip s) = true.
Proof.
  induction s as [| c s IH]; cbn [PyStr.lstrip]; [reflexivity |].
  destruct (PyStr.is_space c) eqn:Hc; [exact IH |].
  cbn [starts_clean]. rewrite Hc. reflexivity.
Qed.

Lemma lstrip_clean (s : string) : starts_clean s = true -> PyStr.lstrip s = s.
Proof.
  destruct s as [| c s]; cbn [starts_clean PyStr.lstrip]; [reflexivity |].
  intros H. apply negb_true_iff in H. rewrite H. reflexivity.
Qed.

Lemma rstrip_starts_clean (s : string) :
  starts_clean s = true -> starts_clean (PyStr.rstrip s) = true.
Proof.
  destruct s as [| c s]; cbn [starts_clean PyStr.rstrip]; [reflexivity |].
  intros H. destruct (PyStr.rstrip s).
  - apply negb_true_iff in H. rewrite H. cbn [starts_clean]. rewrite H. reflexivity.
  - cbn [starts_clean]. exact H.
Qed.

Lemma rstrip_idempotent (s : string) : PyStr.rstrip (PyStr.rstrip s) = PyStr.rstrip s.
Proof.
  induction s as [| c s IH]; [reflexivity |].
  cbn [PyStr.rstrip]. destruct (PyStr.rstrip s) as [| c' r] eqn:Hr.
  - destruct (PyStr.is_space c) eqn:Hc; [reflexivity |].
    cbn [PyStr.rstrip]. rewrite Hc. reflexivity.
  - change (PyStr.rstrip (String c (String c' r)))
      with (match PyStr.rstrip (String c' r) with
            | "" => if PyStr.is_space c then "" else String c ""
            | String a b => String c (String a b)
            end).
    rewrite IH. reflexivity.
Qed.

(** Stripping twice is stripping once. *)
Lemma strip_idempotent (s : string) : PyStr.strip (PyStr.strip s) = PyStr.strip s.
Proof.
  unfold PyStr.strip.
  rewrite (lstrip_clean (PyStr.rstrip (PyStr.lstrip s))).
  - apply rstrip_idempotent.
  - apply rstrip_starts_clean, lstrip_starts_clean.
Qed.

Lemma lstrip_no_newline (s : string) :
  no_newline s = true -> no_newline (PyStr.lstrip s) = true.
Proof.
  induction s as [| c s IH]; cbn [PyStr.lstrip no_newline]; [reflexivity |].
  intros H. apply andb_true_iff in H. destruct H as [Hc Hs].
  destruct (PyStr.is_space c); [exact (IH Hs) |].
  cbn [no_newline]. rewrite Hc, Hs. reflexivity.
Qed.

Lemma rstrip_no_newline (s : string) :
  no_newline s = true -> no_newline (PyStr.rstrip s) = true.
Proof.
  induction s as [| c s IH]; cbn [PyStr.rstrip no_newline]; [reflexivity |].
  intros H. apply andb_true_iff in H. destruct H as [Hc Hs].
  specialize (IH Hs). destruct (PyStr.rstrip s) as [| c' r].
  - destruct (PyStr.is_space c); [reflexivity |].
    cbn [no_newline]. rewrite Hc. reflexivity.
  - cbn [no_newline] in *. rewrite Hc, IH. reflexivity.
Qed.

Lemma strip_no_newline (s : string) :
  no_newline s = true -> no_newline (PyStr.strip s) = true.
Proof. intros H. apply rstrip_no_newline, lstrip_no_newline, H. Qed.

(** The fields of a split hold no separator. *)
Lemma split_aux_no_newline (s cur : string) :
  no_newline cur = true ->
  Forall (fun l => no_newline l = true) (PyStr.split_aux PyStr.newline cur s).
Proof.
  revert cur. induction s as [| a s IH]; intros cur Hcur; cbn [PyStr.split_aux].
  - constructor; [exact Hcur | constructor].
  - destruct (Ascii.eqb a PyStr.newline) eqn:Ha.
    + constructor; [exact Hcur | apply IH; reflexivity].
    + apply IH. rewrite no_newline_append, Hcur. cbn [no_newline]. rewrite Ha. reflexivity.
Qed.

Lemma content_lines_clean (text : string) :
  Forall (fun l => clean_line l = true) (Server.content_lines text).
Proof.
  unfold Server.content_lines, PyStr.split.
  pose proof (split_aux_no_newline text "" eq_refl) as Hsplit.
  induction Hsplit as [| l ls Hl _ IH]; cbn [filter map]; [constructor |].
  destruct (PyStr.is_empty (PyStr.strip l)) eqn:Hempty; cbn [negb map]; [exact IH |].
  constructor; [| exact IH].
  unfold clean_line. rewrite Hempty, strip_idempotent, String.eqb_refl.
  rewrite (strip_no_newline l Hl). reflexivity.
Qed.

Lemma take_bound (n : nat) (s : string) : String.length (PyStr.take n s) <= n.
Proof. rewrite take_length. apply Nat.le_min_l. Qed.

(** X11.  What [fetch_url] answers once the page has been fetched: a
    header naming the URL, then a content of bounded size.  Every line
    kept of the page is a non-blank line without white space at its ends;
    the server's handler joins the first 150 of them and cuts the content
    at 8000 characters, the agent's tool joins the first 100 and cuts at
    5000.  The world is left as it was. *)
Theorem fetch_url_is_bounded :
  forall (E : Rt.env) (url text : string) (w : Rt.world),
    Rt.import_http E = None ->
    Forall (fun l => clean_line l = true) (Server.content_lines text) /\
    (Rt.page_text E (VStr url) ["script"; "style"; "nav"; "footer"; "header"] = Py.Ok text ->
     Server.handle_fetch_url E [("url", VStr url)] w
     = (Py.Ok [Server.text_content
                 ("Content from " ++ url ++ ":" ++ PyStr.nl ++ PyStr.nl ++
                  PyStr.take 8000
                    (PyStr.join PyStr.nl (firstn 150 (Server.content_lines text))))],
        w)) /\
    (Rt.page_text E (VStr url) ["script"; "style"; "nav"; "footer"] = Py.Ok text ->
     Agent.fetch_url E url w
     = (Py.Ok ("Content from " ++ url ++ ":" ++ PyStr.nl ++ PyStr.nl ++
               PyStr.take 5000
                 (PyStr.join PyStr.nl (firstn 100 (Server.content_lines text)))),
        w)) /\
    String.length (PyStr.take 8000
                     (PyStr.join PyStr.nl (firstn 150 (Server.content_lines text)))) <= 8000 /\
    String.length (PyStr.take 5000
                     (PyStr.join PyStr.nl (firstn 100 (Server.content_lines text)))) <= 5000 /\
    List.length (firstn 150 (Server.content_lines text)) <= 150 /\
    List.length (firstn 100 (Server.content_lines text)) <= 100.
Proof.
  intros E url text w Himport.
  split; [apply content_lines_clean |].
  split.
  { intros Hpage.
    unfold Server.handle_fetch_url, Rt.try_except, Rt.bind, Rt.check, Rt.lift, Rt.ret.
    cbn [Py.get String.eqb Ascii.eqb Bool.eqb]. rewrite Himport, Hpage. reflexivity. }
  split.
  { intros Hpage.
    unfold Agent.fetch_url, Rt.try_except, Rt.bind, Rt.check, Rt.lift, Rt.ret.
    rewrite Himport, Hpage. reflexivity. }
  split; [apply take_bound |].
  split; [apply take_bound |].
  split; apply firstn_le_length.
Qed.

Lemma fetch_url_is_bounded_witness :
  Server.handle_fetch_url Fixture.browsing [("url", VStr "https://example.com")] Sample.fresh
  = (Py.Ok [Server.text_content
              ("Content from https://example.com:" ++ PyStr.nl ++ PyStr.nl ++
               "Coral" ++ PyStr.nl ++ "Agents that cooperate.")],
     Sample.fresh).
Proof.
  destruct (fetch_url_is_bounded Fixture.browsing "https://example.com" Fixture.page
              Sample.fresh eq_refl) as (_ & Hserver & _).
  rewrite (Hserver eq_refl). vm_compute. reflexivity.
Defined.

(** ** The JSON report read back *)

(** One character: what the encoder writes for it is read back as it. *)
Lemma read_body_escape_char (c : ascii) (t : string) :
  JsonRead.read_body (Json.escape_char c ++ t) = JsonRead.prepend c (JsonRead.read_body t).
Proof.
  destruct c as [b0 b1 b2 b3 b4 b5 b6 b7].
  destruct b0, b1, b2, b3, b4, b5, b6, b7; reflexivity.
Qed.

Lemma read_body_escape (s rest : string) :
  JsonRead.read_body (Json.escape s ++ String (ascii_of_nat 34) rest) = Some (s, rest).
Proof.
  induction s as [| c s IH]; [reflexivity |].
  cbn [Json.escape]. rewrite append_assoc, read_body_escape_char, IH. reflexivity.
Qed.

(** A string literal in front of anything reads back as the text encoded. *)
Lemma read_string_encode (s rest : string) :
  JsonRead.read_string (Json.encode_string s ++ rest) = Some (s, rest).
Proof.
  unfold JsonRead.read_string, Json.encode_string, Json.dquote.
  rewrite !append_assoc. cbn [append JsonRead.skip_ws].
  change (JsonRead.is_ws (ascii_of_nat 34)) with false. cbn beta iota.
  change (nat_of_ascii (ascii_of_nat 34) =? 34)%nat with true. cbn beta iota.
  apply read_body_escape.
Qed.

Lemma read_string_indented (s rest : string) :
  JsonRead.read_string ("  " ++ Json.encode_string s ++ rest) = Some (s, rest).
Proof. exact (read_string_encode s rest). Qed.

Lemma read_string_after_break (s rest : string) :
  JsonRead.read_string (PyStr.nl ++ "  " ++ Json.encode_string s ++ rest) = Some (s, rest).
Proof. exact (read_string_encode s rest). Qed.

Lemma read_string_after_space (s rest : string) :
  JsonRead.read_string (" " ++ Json.encode_string s ++ rest) = Some (s, rest).
Proof. exact (read_string_encode s rest). Qed.

Lemma read_member_text (k v rest : string) :
  JsonRead.read_member
    (PyStr.nl ++ "  " ++ Json.encode_string k ++ ": " ++ Json.encode_string v ++ rest)
  = Some ((k, v), rest).
Proof.
  unfold JsonRead.read_member.
  rewrite read_string_after_break.
  change (JsonRead.read_char ":" (": " ++ Json.encode_string v ++ rest))
    with (Some (" " ++ Json.encode_string v ++ rest)).
  cbn beta iota. rewrite read_string_after_space. reflexivity.
Qed.

Lemma members_length (d : Py.dict) : List.length d <= String.length (Json.members d).
Proof.
  induction d as [| [k v] d IH]; [apply Nat.le_0_l |].
  destruct d as [| kv d].
  - cbn [Json.members List.length]. rewrite length_append. cbn [String.length]. lia.
  - change (Json.members ((k, v) :: kv :: d))
      with ("  " ++ Json.encode_string k ++ ": " ++ Json.encode v ++ "," ++ PyStr.nl ++
            Json.members (kv :: d)).
    rewrite !length_append.
    change (String.length "  ") with 2. change (String.length PyStr.nl) with 1.
    cbn [List.length] in *. lia.
Qed.

(** The members the encoder writes for texts, read back in order. *)
Lemma read_members_text (d : Py.dict) :
  d <> [] ->
  all_text d = true ->
  forall fuel tail,
    List.length d <= fuel ->
    JsonRead.read_members fuel (PyStr.nl ++ Json.members d ++ PyStr.nl ++ "}" ++ tail)
    = Some (text_members d, tail).
Proof.
  induction d as [| [k v] d IH]; intros Hne Htext fuel tail Hfuel; [congruence |].
  cbn [all_text forallb snd] in Htext. apply andb_true_iff in Htext.
  destruct Htext as [Hv Hrest].
  destruct v as [| b | z | v]; try discriminate Hv.
  destruct fuel as [| fuel]; [cbn [List.length] in Hfuel; lia |].
  destruct d as [| kv d].
  - cbn [Json.members Json.encode JsonRead.read_members text_members map fst snd].
    rewrite !append_assoc. rewrite read_member_text.
    reflexivity.
  - change (Json.members ((k, VStr v) :: kv :: d))
      with ("  " ++ Json.encode_string k ++ ": " ++ Json.encode_string v ++ "," ++ PyStr.nl ++
            Json.members (kv :: d)).
    cbn [JsonRead.read_members]. rewrite !append_assoc. rewrite read_member_text.
    change (JsonRead.read_char ","
              ("," ++ PyStr.nl ++ Json.members (kv :: d) ++ PyStr.nl ++ "}" ++ tail))
      with (Some (PyStr.nl ++ Json.members (kv :: d) ++ PyStr.nl ++ "}" ++ tail)).
    cbn beta iota.
    rewrite (IH ltac:(discriminate) Hrest fuel tail ltac:(cbn [List.length] in *; lia)).
    reflexivity.
Qed.

(** What [json.dumps] writes for an object of texts reads back as its
    members, in order. *)
Lemma loads_dumps (d : Py.dict) :
  all_text d = true -> JsonRead.loads (Json.dumps d) = Some (text_members d).
Proof.
  intros Htext. destruct d as [| [k v] d]; [reflexivity |].
  assert (Hv : is_text v = true).
  { cbn [all_text forallb snd] in Htext. apply andb_true_iff in Htext. tauto. }
  destruct v as [| b | z | v]; try discriminate Hv.
  unfold JsonRead.loads.
  assert (Hlen : List.length ((k, VStr v) :: d) <= String.length (Json.dumps ((k, VStr v) :: d))).
  { unfold Json.dumps. rewrite !length_append.
    pose proof (members_length ((k, VStr v) :: d)). lia. }
  revert Hlen. generalize (String.length (Json.dumps ((k, VStr v) :: d))). intros fuel Hfuel.
  unfold Json.dumps.
  change (JsonRead.read_char "{"
            ("{" ++ PyStr.nl ++ Json.members ((k, VStr v) :: d) ++ PyStr.nl ++ "}"))
    with (Some (PyStr.nl ++ Json.members ((k, VStr v) :: d) ++ PyStr.nl ++ "}")).
  cbn beta iota.
  assert (Hbrace : JsonRead.read_char "}"
                     (PyStr.nl ++ Json.members ((k, VStr v) :: d) ++ PyStr.nl ++ "}") = None).
  { destruct d; reflexivity. }
  rewrite Hbrace.
  rewrite <- (append_nil_r "}").
  rewrite (read_members_text ((k, VStr v) :: d) ltac:(discriminate) Htext fuel "" Hfuel).
  reflexivity.
Qed.

(** X12.  The report in the json format is a JSON object that reads back
    as what went in.  For a text topic and text findings, the server's
    answer is an object with exactly the members [topic], [timestamp] and
    [findings], in this order, holding the topic, the clock reading to
    the minute and the findings, whatever characters they contain; the
    agent's report has the member [summary] besides, which holds the
    first 500 characters of the findings. *)
Theorem json_report_reads_back :
  forall (E : Rt.env) (topic findings : string) (w : Rt.world),
    (exists text,
        fst (Server.handle_generate_report E
               [("topic", VStr topic); ("findings", VStr findings);
                ("format_type", VStr "json")] w)
        = Py.Ok [Server.text_content text] /\
        JsonRead.loads text
        = Some [ ("topic", topic);
                 ("timestamp", Datetime.strftime_minute (Rt.clock E (Rt.ticks w)));
                 ("findings", findings) ]) /\
    (forall timestamp,
        JsonRead.loads (Agent.render_report topic findings "json" timestamp)
        = Some [ ("topic", topic);
                 ("timestamp", timestamp);
                 ("summary", PyStr.take 500 findings);
                 ("findings", findings) ]).
Proof.
  intros E topic findings w. split.
  - eexists. split.
    + unfold Server.handle_generate_report, Rt.try_except, Rt.bind, Rt.now, Rt.ret.
      cbn [Py.get String.eqb Ascii.eqb Bool.eqb Server.eq_str fst]. reflexivity.
    + rewrite loads_dumps by reflexivity. reflexivity.
  - intros timestamp. unfold Agent.render_report.
    cbn [String.eqb Ascii.eqb Bool.eqb].
    rewrite loads_dumps by reflexivity. reflexivity.
Qed.

(** ** Saving a report *)

(** X13.  A report that cannot be saved is not lost.  When the file
    cannot be opened, the agent's [generate_report] records no file and
    leaves the log alone, and it answers with the error followed by the
    same preview as on success: the first 1000 characters of the
    report. *)
Theorem unsaved_report_is_still_returned :
  forall (E : Rt.env) (topic findings format_type : string) (w : Rt.world) (e : exn),
    Rt.open_write E
      (Agent.report_filename topic format_type (Rt.clock E (S (Rt.ticks w))))
    = Some (Rt.OpenFails e) ->
    Agent.generate_report E topic findings format_type w
    = (Py.Ok ("Error saving report: " ++ Py.exn_str e ++ PyStr.nl ++ PyStr.nl ++
              PyStr.take 1000
                (Agent.render_report topic findings format_type
                   (Datetime.strftime_minute (Rt.clock E (Rt.ticks w)))) ++ "..."),
       Rt.mkWorld (S (S (Rt.ticks w))) (Rt.log_file w) (Rt.reports w)) /\
    String.length
      (PyStr.take 1000
         (Agent.render_report topic findings format_type
            (Datetime.strftime_minute (Rt.clock E (Rt.ticks w))))) <= 1000 /\
    (exists rest,
        Agent.render_report topic findings format_type
          (Datetime.strftime_minute (Rt.clock E (Rt.ticks w)))
        = PyStr.take 1000
            (Agent.render_report topic findings format_type
               (Datetime.strftime_minute (Rt.clock E (Rt.ticks w)))) ++ rest).
Proof.
  intros E topic findings format_type w e Hopen.
  split.
  { unfold Agent.generate_report, Rt.bind, Rt.now, Rt.try_except, Rt.write_report,
      Rt.check, Rt.raise, Rt.ret.
    cbn [Rt.ticks Rt.log_file Rt.reports].
    rewrite Hopen. reflexivity. }
  split; [apply take_bound | apply take_is_prefix].
Qed.

Lemma unsaved_report_is_still_returned_witness :
  snd (Agent.generate_report Fixture.read_only_disk "AI Agents" "Finding A" "text"
                             Sample.fresh)
  = Rt.mkWorld 2 None [].
Proof.
  destruct (unsaved_report_is_still_returned Fixture.read_only_disk "AI Agents" "Finding A"
              "text" Sample.fresh (mkExn OSError "[Errno 30] Read-only file system")
              eq_refl) as (Hrun & _).
  rewrite Hrun. reflexivity.
Defined.

Lemma eqb_false_of_neq (a b : string) : a <> b -> String.eqb a b = false.
Proof. intros H. apply String.eqb_neq. exact H. Qed.

(** X14.  A format that is neither [markdown] nor [json] is not refused:
    it gets the plain text layout.  The agent saves it under the format
    itself as an extension, and its report is the server's text report
    with a final line break; the layout opens with the title line and
    shows the findings in full. *)
Theorem unknown_format_is_text :
  forall (E : Rt.env) (topic findings format_type : string) (w : Rt.world),
    format_type <> "markdown" ->
    format_type <> "json" ->
    Agent.extension format_type = format_type /\
    Agent.render_report topic findings format_type
      (Datetime.strftime_minute (Rt.clock E (Rt.ticks w)))
    = "RESEARCH REPORT: " ++ topic ++ PyStr.nl ++
      "Generated: " ++ Datetime.strftime_minute (Rt.clock E (Rt.ticks w)) ++ PyStr.nl ++
      PyStr.nl ++ findings ++ PyStr.nl /\
    fst (Server.handle_generate_report E
           [("topic", VStr topic); ("findings", VStr findings);
            ("format_type", VStr format_type)] w)
    = Py.Ok [Server.text_content
               ("RESEARCH REPORT: " ++ topic ++ PyStr.nl ++
                "Generated: " ++ Datetime.strftime_minute (Rt.clock E (Rt.ticks w)) ++
                PyStr.nl ++ PyStr.nl ++ findings)].
Proof.
  intros E topic findings format_type w Hmd Hjson.
  pose proof (eqb_false_of_neq _ _ Hmd) as Emd.
  pose proof (eqb_false_of_neq _ _ Hjson) as Ejson.
  split.
  { unfold Agent.extension. rewrite Emd. reflexivity. }
  split.
  { unfold Agent.render_report, Agent.text_report. rewrite Emd, Ejson. reflexivity. }
  unfold Server.handle_generate_report, Rt.try_except, Rt.bind, Rt.now, Rt.ret.
  cbn [Py.get String.eqb Ascii.eqb Bool.eqb Server.eq_str fst Py.str].
  rewrite Emd, Ejson. reflexivity.
Qed.

Lemma unknown_format_is_text_witness :
  Agent.extension "pdf" = "pdf".
Proof.
  apply (unknown_format_is_text Sample.quiet "AI Agents" "Finding A" "pdf" Sample.fresh);
    discriminate.
Defined.

(** ** More on the connection loop *)

Section MoreConnection.
Variable E : Coral.env.
Variable u : string.

Lemma schedule_append (tools : list Coral.Tool) (c : option Coral.client)
      (evs1 evs2 : list Coral.event) :
  schedule (Coral.mkLocals tools c (evs1 ++ evs2))
  = (schedule (Coral.mkLocals tools c evs1) ++
     filter (fun ev => is_connect ev || is_sleep ev) evs2)%list.
Proof. unfold schedule. cbn [Coral.trace]. apply filter_app. Qed.

(** The attempts and the waits of the loop up to the first attempt that
    loads the catalog. *)
Lemma connect_loop_schedule (coral_tools : list Coral.Tool) :
  forall n a k st,
    (a <= k < a + n)%nat ->
    (k < Coral.max_retries)%nat ->
    (forall j, (a <= j < k)%nat -> refused (Coral.server E j u) = true) ->
    Coral.server E k u = Coral.Catalog coral_tools ->
    schedule (Coral.connect_loop E u (seq a n) st)
    = (schedule st ++ retries (k - a) u ++ [Coral.Connect u])%list /\
    Coral.coral_client (Coral.connect_loop E u (seq a n) st) = Some (Coral.mkClient u).
Proof.
  induction n as [| n IH]; intros a k st Hk Hmax Hbefore Hat; [lia |].
  cbn [seq].
  destruct (Nat.eq_dec a k) as [-> | Hne].
  - cbn [Coral.connect_loop]. rewrite Hat.
    replace (k - k) with 0 by lia. cbn [retries app].
    split; [| reflexivity].
    unfold schedule, Coral.emit. cbn [Coral.trace].
    rewrite !filter_app. cbn [filter is_connect is_sleep orb].
    rewrite app_nil_r. reflexivity.
  - destruct (connect_loop_refused E u a (seq (S a) n) st) as (e & c & ->).
    { apply Hbefore. lia. }
    assert (Hsleep : (a <? Coral.max_retries - 1)%nat = true)
      by (apply Nat.ltb_lt; lia).
    rewrite Hsleep.
    destruct (IH (S a) k
                (Coral.mkLocals (Coral.all_tools st) c
                   (Coral.trace st ++
                    [Coral.Connect u; failed_notice a e; Coral.Sleep Coral.retry_delay]))
                ltac:(lia) Hmax ltac:(intros j Hj; apply Hbefore; lia) Hat)
      as [Hschedule Hclient].
    split; [| exact Hclient].
    rewrite Hschedule, schedule_append.
    cbn [filter is_connect is_sleep orb failed_notice].
    replace (k - a) with (S (k - S a)) by lia. cbn [retries].
    unfold schedule. cbn [Coral.trace]. rewrite <- !app_assoc. reflexivity.
Qed.

Lemma retries_counts (k : nat) :
  List.length (filter is_connect (retries k u ++ [Coral.Connect u])) = S k /\
  List.length (filter is_sleep (retries k u ++ [Coral.Connect u])) = k /\
  seconds_waited (retries k u ++ [Coral.Connect u]) = Coral.retry_delay * k.
Proof.
  induction k as [| k (IH1 & IH2 & IH3)]; [repeat split; reflexivity |].
  cbn [retries app filter is_connect is_sleep List.length seconds_waited].
  rewrite IH1, IH2, IH3. repeat split; lia.
Qed.

End MoreConnection.

(** X15.  A server that answers at the attempt numbered [k], after [k]
    refusals, costs [k + 1] attempts and [k] waits of five seconds: the
    loop stops at the first success, keeps the client of that attempt and
    makes no further attempt. *)
Theorem connects_after_refusals :
  forall (E : Coral.env) (url : string) (k : nat) (coral_tools : list Coral.Tool),
    Coral.CORAL_SSE_URL E = Some url ->
    url <> "" ->
    (k < Coral.max_retries)%nat ->
    (forall j, (j < k)%nat -> refused (Coral.server E j (Coral.build_url E url)) = true) ->
    Coral.server E k (Coral.build_url E url) = Coral.Catalog coral_tools ->
    schedule (fst (Coral.create_coralized_agent E))
    = (retries k (Coral.build_url E url) ++ [Coral.Connect (Coral.build_url E url)])%list /\
    List.length (filter is_connect (schedule (fst (Coral.create_coralized_agent E)))) = S k /\
    List.length (filter is_sleep (schedule (fst (Coral.create_coralized_agent E)))) = k /\
    seconds_waited (schedule (fst (Coral.create_coralized_agent E))) = 5 * k /\
    Coral.coral_client (fst (Coral.create_coralized_agent E))
    = Some (Coral.mkClient (Coral.build_url E url)).
Proof.
  intros E url k coral_tools Hurl Hne Hk Hbefore Hat.
  assert (Hrun : schedule (fst (Coral.create_coralized_agent E))
                 = (retries k (Coral.build_url E url) ++
                    [Coral.Connect (Coral.build_url E url)])%list /\
                 Coral.coral_client (fst (Coral.create_coralized_agent E))
                 = Some (Coral.mkClient (Coral.build_url E url))).
  { unfold Coral.create_coralized_agent. rewrite Hurl, (is_empty_false _ Hne).
    cbn [fst].
    set (st0 := Coral.emit _ _).
    destruct (connect_loop_schedule E (Coral.build_url E url) coral_tools
                Coral.max_retries 0 k st0 ltac:(lia) Hk
                ltac:(intros j Hj; apply Hbefore; lia) Hat) as [Hschedule Hclient].
    split; [| exact Hclient].
    rewrite Hschedule. replace (k - 0) with k by lia. reflexivity. }
  destruct Hrun as [Hschedule Hclient].
  destruct (retries_counts (Coral.build_url E url) k) as (Hc & Hs & Hw).
  rewrite Hschedule.
  repeat split; assumption.
Qed.

Lemma connects_after_refusals_witness :
  schedule (fst (Coral.create_coralized_agent Fixture.third_time))
  = [ Coral.Connect "http://localhost:5555/sse?x=1&agentId=scout&agentDescription=Research%20assistant%20agent";
      Coral.Sleep 5;
      Coral.Connect "http://localhost:5555/sse?x=1&agentId=scout&agentDescription=Research%20assistant%20agent";
      Coral.Sleep 5;
      Coral.Connect "http://localhost:5555/sse?x=1&agentId=scout&agentDescription=Research%20assistant%20agent" ].
Proof.
  destruct (connects_after_refusals Fixture.third_time "http://localhost:5555/sse?x=1" 2
              [Coral.mkTool "list_agents" "List all connected agents"])
    as (Hschedule & _).
  - reflexivity.
  - discriminate.
  - unfold Coral.max_retries. lia.
  - intros j Hj. destruct j as [| [| j]]; [reflexivity | reflexivity | lia].
  - reflexivity.
  - rewrite Hschedule. reflexivity.
Defined.

Lemma seconds_waited_app (evs1 evs2 : list Coral.event) :
  seconds_waited (evs1 ++ evs2) = seconds_waited evs1 + seconds_waited evs2.
Proof.
  induction evs1 as [| ev evs1 IH]; [reflexivity |].
  destruct ev; cbn [app seconds_waited]; rewrite IH; lia.
Qed.

(** The loop under any server: each attempt number still to run costs at
    most one attempt, and at most one wait when it is not the last
    number; the tools held are kept, in order, with at most something
    after them. *)
Lemma connect_loop_bounds (E : Coral.env) (u : string) :
  forall range st,
    attempts_made (Coral.connect_loop E u range st)
    <= attempts_made st + List.length range /\
    waits_made (Coral.connect_loop E u range st)
    <= waits_made st
       + List.length (filter (fun a => (a <? Coral.max_retries - 1)%nat) range) /\
    seconds_waited (Coral.trace (Coral.connect_loop E u range st))
    <= seconds_waited (Coral.trace st)
       + Coral.retry_delay
         * List.length (filter (fun a => (a <? Coral.max_retries - 1)%nat) range) /\
    exists remote,
      Coral.all_tools (Coral.connect_loop E u range st) = (Coral.all_tools st ++ remote)%list.
Proof.
  induction range as [| a range IH]; intros st.
  - cbn [Coral.connect_loop List.length filter]. repeat split; try lia.
    exists []. rewrite app_nil_r. reflexivity.
  - destruct (refused (Coral.server E a u)) eqn:Hrefused.
    + destruct (connect_loop_refused E u a range st Hrefused) as (e & c & ->).
      match goal with |- context [Coral.connect_loop E u range ?st1] =>
        destruct (IH st1) as (Ha & Hw & Hs & remote & Htools) end.
      unfold attempts_made, waits_made in *. cbn [Coral.trace Coral.all_tools] in *.
      rewrite filter_app, length_app in Ha, Hw. rewrite seconds_waited_app in Hs.
      cbn [filter List.length].
      destruct (a <? Coral.max_retries - 1)%nat;
        cbn [filter is_connect is_sleep failed_notice give_up_notice List.length
             seconds_waited] in *;
        (split; [lia | split; [lia | split; [lia |]]]);
        exists remote; exact Htools.
    + cbn [Coral.connect_loop].
      destruct (Coral.server E a u) as [e | e | coral_tools]; try discriminate Hrefused.
      unfold attempts_made, waits_made, Coral.emit. cbn [Coral.trace Coral.all_tools].
      rewrite !filter_app, !length_app, !seconds_waited_app.
      cbn [filter is_connect is_sleep List.length seconds_waited].
      repeat split; try lia.
      exists coral_tools. reflexivity.
Qed.

(** The native tools stay first, whatever the server does. *)
Lemma tools_are_native_then_remote (E : Coral.env) :
  exists remote,
    Coral.all_tools (fst (Coral.create_coralized_agent E))
    = (Coral.native_tools ++ remote)%list.
Proof.
  unfold Coral.create_coralized_agent. cbn [fst].
  destruct (Coral.CORAL_SSE_URL E) as [url |].
  2: { exists []. reflexivity. }
  destruct (PyStr.is_empty url); [exists []; reflexivity |].
  match goal with |- context [Coral.connect_loop E ?u ?range ?st0] =>
    destruct (connect_loop_bounds E u range st0) as (_ & _ & _ & remote & Htools) end.
  exists remote. exact Htools.
Qed.

(** X16.  Startup is bounded under every server.  Whatever the server
    does, a run makes at most five attempts and at most four waits, so it
    spends at most twenty seconds waiting; it ends with the five native
    tools first, in their order, followed by whatever a catalog added;
    and the tool description put in the prompt is the description of that
    list. *)
Theorem startup_is_bounded :
  forall (E : Coral.env),
    attempts_made (fst (Coral.create_coralized_agent E)) <= 5 /\
    waits_made (fst (Coral.create_coralized_agent E)) <= 4 /\
    seconds_waited (Coral.trace (fst (Coral.create_coralized_agent E))) <= 20 /\
    exists remote,
      Coral.all_tools (fst (Coral.create_coralized_agent E))
      = (Coral.native_tools ++ remote)%list /\
      snd (Coral.create_coralized_agent E)
      = Coral.get_tools_description (Coral.native_tools ++ remote).
Proof.
  intros E.
  assert (Hdesc : snd (Coral.create_coralized_agent E)
                  = Coral.get_tools_description
                      (Coral.all_tools (fst (Coral.create_coralized_agent E))))
    by reflexivity.
  rewrite Hdesc. clear Hdesc.
  unfold Coral.create_coralized_agent. cbn [fst].
  destruct (Coral.CORAL_SSE_URL E) as [url |].
  2: { cbn. repeat split; try lia. exists []. split; reflexivity. }
  destruct (PyStr.is_empty url).
  { cbn. repeat split; try lia. exists []. split; reflexivity. }
  match goal with |- context [Coral.connect_loop E ?u ?range ?st0] =>
    destruct (connect_loop_bounds E u range st0) as (Ha & Hw & Hs & remote & Htools) end.
  cbn in Ha, Hw, Hs.
  split; [exact Ha |]. split; [exact Hw |]. split; [exact Hs |].
  exists remote. rewrite Htools. split; reflexivity.
Qed.

(** ** The URL of the Coral server *)

Lemma prefix_append (n h b : string) : prefix n h = true -> prefix n (h ++ b) = true.
Proof.
  revert n. induction h as [| c h IH]; intros [| a n] H; cbn [append].
  - apply prefix_nil.
  - discriminate H.
  - apply prefix_nil.
  - cbn [prefix] in *. destruct (ascii_dec a c); [apply IH; exact H | discriminate H].
Qed.

Lemma prefix_self_append (n b : string) : prefix n (n ++ b) = true.
Proof.
  induction n as [| a n IH]; [apply prefix_nil |].
  cbn [append prefix]. destruct (ascii_dec a a); [exact IH | congruence].
Qed.

Lemma contains_append (n h b : string) :
  PyStr.contains n h = true -> PyStr.contains n (h ++ b) = true.
Proof.
  induction h as [| c h IH]; intros H.
  - cbn [PyStr.contains] in H. rewrite orb_false_r in H.
    destruct n; [| discriminate H].
    destruct b; reflexivity.
  - cbn [append PyStr.contains] in *. apply orb_true_iff in H.
    apply orb_true_iff. destruct H as [H | H].
    + left. exact (prefix_append n (String c h) b H).
    + right. exact (IH H).
Qed.

Lemma contains_after (a n b : string) : PyStr.contains n (a ++ n ++ b) = true.
Proof.
  induction a as [| c a IH].
  - cbn [append]. destruct (n ++ b) eqn:Hnb.
    + cbn [PyStr.contains]. rewrite <- Hnb, prefix_self_append. reflexivity.
    + cbn [PyStr.contains]. rewrite <- Hnb, prefix_self_append. reflexivity.
  - cbn [append PyStr.contains]. rewrite IH. apply orb_true_r.
Qed.

Lemma no_space_append (a b : string) : no_space (a ++ b) = no_space a && no_space b.
Proof.
  induction a as [| c a IH]; [reflexivity |].
  cbn [append no_space]. rewrite IH, andb_assoc. reflexivity.
Qed.

Lemma encoded_has_no_space (s : string) : no_space (PyStr.replace_char " " "%20" s) = true.
Proof.
  induction s as [| c s IH]; [reflexivity |].
  cbn [PyStr.replace_char]. destruct (Ascii.eqb c " ") eqn:Hc.
  - rewrite no_space_append, IH. reflexivity.
  - cbn [no_space]. rewrite Hc, IH. reflexivity.
Qed.

(** X17.  The URL the agent connects to always carries a query: the
    parameters are added after [&] when the configured URL has a question
    mark and after [?] when it has none.  The spaces of the agent
    description are written [%20]; the agent id is copied as it is, so
    the URL is free of spaces whenever the configured URL and the id
    are. *)
Theorem built_url_carries_the_agent :
  forall (E : Coral.env) (url : string),
    PyStr.contains "?" (Coral.build_url E url) = true /\
    Coral.build_url E url
    = url ++ (if PyStr.contains "?" url then "&" else "?") ++
      "agentId=" ++ Coral.getenv_default (Coral.CORAL_AGENT_ID E) "research_assistant" ++
      "&agentDescription=" ++
      PyStr.replace_char " " "%20"
        (Coral.getenv_default (Coral.CORAL_AGENT_DESCRIPTION E) "Research assistant agent") /\
    no_space (PyStr.replace_char " " "%20"
                (Coral.getenv_default (Coral.CORAL_AGENT_DESCRIPTION E)
                   "Research assistant agent")) = true /\
    (no_space url = true ->
     no_space (Coral.getenv_default (Coral.CORAL_AGENT_ID E) "research_assistant") = true ->
     no_space (Coral.build_url E url) = true).
Proof.
  intros E url.
  set (id := Coral.getenv_default (Coral.CORAL_AGENT_ID E) "research_assistant").
  set (enc := PyStr.replace_char " " "%20"
                (Coral.getenv_default (Coral.CORAL_AGENT_DESCRIPTION E)
                   "Research assistant agent")).
  assert (Hshape : Coral.build_url E url
                   = url ++ (if PyStr.contains "?" url then "&" else "?") ++
                     "agentId=" ++ id ++ "&agentDescription=" ++ enc) by reflexivity.
  split.
  { rewrite Hshape. destruct (PyStr.contains "?" url) eqn:Hq.
    - apply contains_append. exact Hq.
    - apply contains_after. }
  split; [exact Hshape |].
  split; [apply encoded_has_no_space |].
  intros Hurl Hid. rewrite Hshape.
  rewrite !no_space_append, Hurl, Hid. unfold enc. rewrite encoded_has_no_space.
  destruct (PyStr.contains "?" url); reflexivity.
Qed.

(** ** The interactive loop *)

Lemma last_n_app_last_n {A} (n : nat) (l m : list A) :
  last_n n (last_n n l ++ m) = last_n n (l ++ m).
Proof.
  unfold last_n.
  destruct (Nat.le_gt_cases (List.length l) n) as [Hle | Hgt].
  - replace (List.length l - n) with 0 by lia. reflexivity.
  - rewrite !length_app, length_skipn.
    replace (List.length l - (List.length l - n) + List.length m - n)
      with (List.length m) by lia.
    replace (List.length l + List.length m - n)
      with (List.length m + (List.length l - n)) by lia.
    rewrite <- skipn_skipn. f_equal.
    rewrite skipn_app.
    replace (List.length l - n - List.length l) with 0 by lia. reflexivity.
Qed.

(** Trimming keeps the last twenty messages. *)
Lemma trim_is_last_n (h : list Chat.message) : Chat.trim h = last_n 20 h.
Proof.
  unfold Chat.trim. destruct (20 <? List.length h)%nat eqn:Hlen.
  - exact (slice_from_neg 20 h ltac:(lia)).
  - apply Nat.ltb_ge in Hlen. symmetry. apply last_n_all. exact Hlen.
Qed.

(** One pass, for an executor whose results carry an output: the history
    after it is the last twenty of the history before it and of the
    messages it appended. *)
Lemma iteration_history (X : Chat.env) (inp : Chat.input_result) (st : Chat.state) :
  always_outputs X ->
  List.length (Chat.chat_history st) <= 20 ->
  Chat.chat_history (Chat.iteration X inp st)
  = last_n 20 (Chat.chat_history st ++ appended X inp st).
Proof.
  intros Hout Hlen.
  assert (Hsame : last_n 20 (Chat.chat_history st ++ []) = Chat.chat_history st).
  { rewrite app_nil_r. apply last_n_all. exact Hlen. }
  unfold Chat.iteration, appended.
  destruct inp as [raw | | e | b];
    cbn [Chat.chat_history Chat.on_interrupt Chat.on_error Chat.leave Chat.emit
         Chat.escape];
    try (symmetry; exact Hsame).
  destruct (Chat.is_exit (PyStr.strip raw)); [symmetry; exact Hsame |].
  destruct (PyStr.is_empty (PyStr.strip raw)); [symmetry; exact Hsame |].
  cbn [Chat.chat_history Chat.emit].
  pose proof (Hout (PyStr.strip raw) (Chat.chat_history st)) as Hsome.
  destruct (Chat.ainvoke X (PyStr.strip raw) (Chat.chat_history st))
    as [[output |] | | e | b];
    cbn [Chat.chat_history Chat.on_interrupt Chat.on_error Chat.leave Chat.emit
         Chat.escape Chat.remember];
    try (symmetry; exact Hsame); [| congruence].
  rewrite trim_is_last_n, <- app_assoc. reflexivity.
Qed.

(** X18.  The chat history is a window on the conversation.  With an
    executor whose results carry an output, the history the loop holds
    after any sequence of inputs is exactly the last twenty messages of
    everything appended since the start, in order: it never exceeds
    twenty messages, and an exchange is dropped only when twenty newer
    messages have followed it. *)
Theorem history_is_last_twenty :
  forall (X : Chat.env) (inputs : list Chat.input_result),
    always_outputs X ->
    Chat.chat_history (Chat.loop X inputs (Chat.mkState [] [] false))
    = last_n 20 (transcript X inputs (Chat.mkState [] [] false)) /\
    List.length (Chat.chat_history (Chat.loop X inputs (Chat.mkState [] [] false))) <= 20.
Proof.
  intros X inputs Hout.
  assert (Hgen : forall inputs st,
             List.length (Chat.chat_history st) <= 20 ->
             Chat.chat_history (Chat.loop X inputs st)
             = last_n 20 (Chat.chat_history st ++ transcript X inputs st)).
  { clear inputs. induction inputs as [| inp rest IH]; intros st Hlen.
    - cbn [Chat.loop transcript]. rewrite app_nil_r. symmetry. apply last_n_all. exact Hlen.
    - cbn [Chat.loop transcript].
      pose proof (iteration_history X inp st Hout Hlen) as Hstep.
      destruct (Chat.left_loop (Chat.iteration X inp st)).
      + rewrite app_nil_r. exact Hstep.
      + rewrite IH.
        * rewrite Hstep, last_n_app_last_n, app_assoc. reflexivity.
        * rewrite Hstep, last_n_length. apply Nat.le_min_l. }
  split.
  - rewrite Hgen by (cbn; lia). reflexivity.
  - rewrite Hgen by (cbn; lia). rewrite last_n_length. apply Nat.le_min_l.
Qed.

Lemma history_is_last_twenty_witness :
  Chat.chat_history
    (Chat.loop Fixture.echo [Chat.Line "hello"; Chat.Line "  "; Chat.Line " Quit "]
               (Chat.mkState [] [] false))
  = [Chat.HumanMessage "hello"; Chat.AIMessage "You said: hello"].
Proof.
  destruct (history_is_last_twenty Fixture.echo
              [Chat.Line "hello"; Chat.Line "  "; Chat.Line " Quit "]) as (Hwindow & _).
  - intros input history. discriminate.
  - rewrite Hwindow. reflexivity.
Defined.





(** ** The tool description *)

Lemma join_app (sep : string) (a b : list string) :
  a <> [] -> b <> [] ->
  PyStr.join sep (a ++ b) = PyStr.join sep a ++ sep ++ PyStr.join sep b.
Proof.
  unfold PyStr.join.
  induction a as [| x a IH]; intros Ha Hb; [congruence |].
  destruct a as [| y a].
  - destruct b as [| z b]; [congruence |]. reflexivity.
  - change (String.concat sep ((x :: y :: a) ++ b))
      with (x ++ sep ++ String.concat sep ((y :: a) ++ b)).
    rewrite IH by (discriminate || exact Hb).
    change (String.concat sep (x :: y :: a)) with (x ++ sep ++ String.concat sep (y :: a)).
    rewrite !append_assoc. reflexivity.
Qed.

(** X20.  The tool description is written tool by tool: the description
    of two lists put end to end is the two descriptions with a line break
    between them, and an empty list is described by the empty text.  So
    the description put in the prompt always begins with the description
    of the five native tools, whatever the server added. *)
Theorem description_lists_native_tools_first :
  forall (E : Coral.env),
    (forall a b, a <> [] -> b <> [] ->
                 Coral.get_tools_description (a ++ b)
                 = Coral.get_tools_description a ++ PyStr.nl ++
                   Coral.get_tools_description b) /\
    Coral.get_tools_description [] = "" /\
    prefix (Coral.get_tools_description Coral.native_tools)
           (snd (Coral.create_coralized_agent E)) = true.
Proof.
  intros E.
  assert (Happ : forall a b, a <> [] -> b <> [] ->
                   Coral.get_tools_description (a ++ b)
                   = Coral.get_tools_description a ++ PyStr.nl ++
                     Coral.get_tools_description b).
  { intros a b Ha Hb. unfold Coral.get_tools_description. rewrite map_app.
    apply join_app; intros Hnil; apply map_eq_nil in Hnil; contradiction. }
  split; [exact Happ |].
  split; [reflexivity |].
  assert (Hdesc : snd (Coral.create_coralized_agent E)
                  = Coral.get_tools_description
                      (Coral.all_tools (fst (Coral.create_coralized_agent E))))
    by reflexivity.
  destruct (tools_are_native_then_remote E) as [remote Htools].
  rewrite Hdesc, Htools.
  destruct remote as [| t remote].
  - rewrite app_nil_r.
    pose proof (prefix_self_append (Coral.get_tools_description Coral.native_tools) "") as H.
    rewrite append_nil_r in H. exact H.
  - rewrite Happ by discriminate. apply prefix_self_append.
Qed.

(** ** The agent's search tool *)

(** X21.  How the agent's [web_search] reports a failure.  Any import
    error raised in its [try] block, by the import itself or by the
    provider during the search, is answered with the fixed hint to
    install the search package; every other exception is answered with
    [Search error: ] and its message.  Either way the tool returns, and
    the world is left as it was. *)
Theorem agent_search_failures :
  forall (E : Rt.env) (query : string) (num_results : Z) (w : Rt.world) (e : exn),
    Rt.import_ddgs E = Some e \/
    (Rt.import_ddgs E = None /\
     Rt.ddgs_text E (VStr query) (VInt num_results) = Py.Raise e) ->
    Agent.web_search E query num_results w
    = (Py.Ok (if Agent.is_import_error e
              then "Error: duckduckgo-search not installed. Run: pip install duckduckgo-search"
              else "Search error: " ++ Py.exn_str e),
       w).
Proof.
  intros E query num_results w e H.
  unfold Agent.web_search, Rt.try_except, Rt.bind, Rt.check, Rt.raise, Rt.lift, Rt.ret.
  destruct H as [Himport | [Himport Hsearch]].
  - rewrite Himport. destruct (Agent.is_import_error e); reflexivity.
  - rewrite Himport, Hsearch. destruct (Agent.is_import_error e); reflexivity.
Qed.

Lemma agent_search_failures_witness :
  Agent.web_search
    (Rt.mkEnv Sample.clock None
              (fun _ _ => Py.Raise (mkExn ImportError "No module named 'lxml'"))
              None (fun _ _ => Py.Ok "") (fun _ => None) (fun _ => None))
    "coral" 3 Sample.fresh
  = (Py.Ok "Error: duckduckgo-search not installed. Run: pip install duckduckgo-search",
     Sample.fresh).
Proof.
  apply (agent_search_failures
           (Rt.mkEnv Sample.clock None
                     (fun _ _ => Py.Raise (mkExn ImportError "No module named 'lxml'"))
                     None (fun _ _ => Py.Ok "") (fun _ => None) (fun _ => None))
           "coral" 3 Sample.fresh (mkExn ImportError "No module named 'lxml'")).
  right. split; reflexivity.
Defined.
